(** * gzdoom speedrun timer: a shallow embedding of [gzdoom_speedrun_timer.py]

    The development follows the source file class by class:
    [LevelChapter], [Level], [Chapter], [RecordHolder], [FileDude] and the
    line decoder of [DoomRunner.run].  Python objects that are mutated in
    place become records that are passed through every call; a raised
    exception becomes the left injection of [result]. *)

From Stdlib Require Import ZArith String Ascii List Bool Lia DecimalString.
From Stdlib Require Import SpecFloat.
From stdpp Require Import base option list gmap strings.

Local Open Scope Z_scope.

(** ** Python runtime: exceptions, sequences, strings *)

Inductive exn :=
  | RuntimeError | AttributeError | TypeError | ValueError | IndexError
  | KeyError | UnboundLocalError | WrongChapter | SerializedEmpty
  | Exception.

Definition result (A : Type) : Type := (exn + A)%type.

Definition raise {A} (e : exn) : result A := inl e.

#[global] Instance result_ret : MRet result := fun A x => inr x.
#[global] Instance result_bind : MBind result :=
  fun A B f m => match m with inl e => inl e | inr x => f x end.

Definition is_ok {A} (r : result A) : bool :=
  match r with inr _ => true | inl _ => false end.

(** [seq[i]] for a Python list or tuple: a negative index counts from the
    end, anything out of range raises IndexError.  [py_position] is the
    offset from the front that is read, [py_index] the element there. *)
Definition py_position {A} (l : list A) (i : Z) : result nat :=
  let n := Z.of_nat (length l) in
  let j := if i <? 0 then i + n else i in
  if (j <? 0) || (n <=? j) then raise IndexError else mret (Z.to_nat j).

Definition py_index {A} (l : list A) (i : Z) : result A :=
  j ← py_position l i;
  match l !! j with
  | Some x => mret x
  | None => raise IndexError
  end.

(** [list.insert(i, x)] for [0 <= i]: past the end it appends. *)
Definition py_insert {A} (i : nat) (x : A) (l : list A) : list A :=
  take i l ++ x :: drop i l.

(** A Python [str] is kept as the bytes of its UTF-8 encoding.  A character
    is a lead byte with the continuation bytes (0x80..0xBF) that follow. *)
Definition byte_of (a : ascii) : Z := Z.of_N (N_of_ascii a).

Definition is_continuation (a : ascii) : bool :=
  (128 <=? byte_of a) && (byte_of a <? 192).

Fixpoint skip_continuation (s : string) : string :=
  match s with
  | String a s' => if is_continuation a then skip_continuation s' else s
  | EmptyString => EmptyString
  end.

Fixpoint take_continuation (s : string) : string :=
  match s with
  | String a s' =>
      if is_continuation a then String a (take_continuation s') else EmptyString
  | EmptyString => EmptyString
  end.

(** [s[n:]] *)
Fixpoint str_from (n : nat) (s : string) : string :=
  match n with
  | O => s
  | S n' =>
      match s with
      | EmptyString => EmptyString
      | String _ s' => str_from n' (skip_continuation s')
      end
  end.

(** [s[n]] for [0 <= n] *)
Definition str_at (s : string) (n : nat) : result string :=
  match str_from n s with
  | EmptyString => raise IndexError
  | String a s' => mret (String a (take_continuation s'))
  end.

(** [str.isspace]: the characters below U+0080 by their byte, the others
    (U+0085, U+00A0, U+1680, U+2000..U+200A, U+2028, U+2029, U+202F, U+205F,
    U+3000) by their encodings. *)
Definition is_space (a : ascii) : bool :=
  let b := byte_of a in
  ((9 <=? b) && (b <=? 13)) || ((28 <=? b) && (b <=? 32)).

Definition bytes (l : list Z) : string :=
  foldr (fun b s => String (ascii_of_N (Z.to_N b)) s) EmptyString l.

Definition wide_spaces : list string :=
  map bytes
    ([[194; 133]; [194; 160]; [225; 154; 128]]
     ++ map (fun k => [226; 128; 128 + Z.of_nat k]) (seq 0 11)
     ++ [[226; 128; 168]; [226; 128; 169]; [226; 128; 175];
         [226; 129; 159]; [227; 128; 128]]).

(** The length of the entry of [encodings] that [s] starts with. *)
Definition leading (encodings : list string) (s : string) : option nat :=
  String.length <$> List.find (fun e => String.prefix e s) encodings.

(** Drops the white space [s] starts with; [skip] counts the bytes of a
    wide space still to be dropped. *)
Fixpoint lstrip_go (encodings : list string) (skip : nat) (s : string)
  : string :=
  match s with
  | EmptyString => EmptyString
  | String a s' =>
      match skip with
      | S k => lstrip_go encodings k s'
      | O =>
          if is_space a then lstrip_go encodings O s'
          else match leading encodings s with
               | Some n => lstrip_go encodings (Nat.pred n) s'
               | None => s
               end
      end
  end.

(** [s.strip()] *)
Definition py_strip (s : string) : string :=
  String.rev
    (lstrip_go (map String.rev wide_spaces) O
       (String.rev (lstrip_go wide_spaces O s))).

(** [bytes.decode("utf-8")] succeeds on well-formed UTF-8 only: no
    overlong form, no surrogate, nothing above U+10FFFF.  [need] counts the
    continuation bytes still expected, the next of them within [lo..hi]. *)
Fixpoint utf8_go (need : nat) (lo hi : Z) (s : string) : bool :=
  match s with
  | EmptyString => match need with O => true | S _ => false end
  | String a s' =>
      let b := byte_of a in
      match need with
      | S k => (lo <=? b) && (b <=? hi) && utf8_go k 128 191 s'
      | O =>
          if b <? 128 then utf8_go 0 128 191 s'
          else if (194 <=? b) && (b <=? 223) then utf8_go 1 128 191 s'
          else if b =? 224 then utf8_go 2 160 191 s'
          else if b =? 237 then utf8_go 2 128 159 s'
          else if (225 <=? b) && (b <=? 239) then utf8_go 2 128 191 s'
          else if b =? 240 then utf8_go 3 144 191 s'
          else if (241 <=? b) && (b <=? 243) then utf8_go 3 128 191 s'
          else if b =? 244 then utf8_go 3 128 143 s'
          else false
      end
  end.

Definition utf8_valid (s : string) : bool := utf8_go 0 128 191 s.

Definition is_digit (a : ascii) : bool :=
  (48 <=? byte_of a) && (byte_of a <=? 57).

Definition digit_value (a : ascii) : Z := byte_of a - 48.

(** The digits of [int(s)] after the sign: decimal digits, single
    underscores allowed between two digits.  [acc] is the value read so far,
    [prev] tells whether the previous character was a digit. *)
Fixpoint int_digits (s : string) (acc : Z) (prev : bool) : result Z :=
  match s with
  | EmptyString => if prev then mret acc else raise ValueError
  | String a s' =>
      if is_digit a then int_digits s' (10 * acc + digit_value a) true
      else if Ascii.eqb a "_" && prev then
        match s' with
        | String b _ => if is_digit b then int_digits s' acc false
                        else raise ValueError
        | EmptyString => raise ValueError
        end
      else raise ValueError
  end.

(** [int(s)] in base ten.  Only the ASCII digits are read as digits: the
    other Unicode decimal digits, which Python accepts too, raise
    ValueError here. *)
Definition py_int (s : string) : result Z :=
  match py_strip s with
  | String "+" s' => int_digits s' 0 false
  | String "-" s' => n ← int_digits s' 0 false; mret (- n)
  | s' => int_digits s' 0 false
  end.

(** [str(n)] and [f"{n}"] for an int. *)
Definition py_str (n : Z) : string := NilZero.string_of_int (Z.to_int n).

Fixpoint zeros (n : nat) : string :=
  match n with O => EmptyString | S n' => String "0" (zeros n') end.

(** [s.zfill(w)]: zeros go after a leading sign. *)
Definition zfill (w : nat) (s : string) : string :=
  let pad := zeros (w - String.length s) in
  match s with
  | String "+" s' => String "+" (pad +:+ s')
  | String "-" s' => String "-" (pad +:+ s')
  | _ => pad +:+ s
  end.

(** [s.split(sep)] for a non-empty separator: the text is cut at the
    occurrences of [sep] found from left to right, never overlapping.
    [skip] counts the bytes of a separator still to be passed, [cur] holds
    the part being read, reversed. *)
Fixpoint split_go (sep : string) (skip : nat) (cur : string) (s : string)
  : list string :=
  match s with
  | EmptyString => [String.rev cur]
  | String a s' =>
      match skip with
      | S k => split_go sep k cur s'
      | O =>
          if String.prefix sep s
          then String.rev cur
               :: split_go sep (Nat.pred (String.length sep)) EmptyString s'
          else split_go sep O (String a cur) s'
      end
  end.

Definition split (sep s : string) : list string := split_go sep O EmptyString s.

(** ** Durations and instants

    A [timedelta] is its exact number of microseconds, which is what Python
    stores (days, seconds, microseconds); a [datetime] is a number of
    microseconds since a fixed origin. *)
Definition timedelta := Z.
Definition datetime := Z.

(** [timedelta.seconds] and [timedelta.microseconds]: the normalised
    fields, so the days are not part of [seconds]. *)
Definition td_seconds (d : timedelta) : Z := (d / 1000000) mod 86400.
Definition td_microseconds (d : timedelta) : Z := d mod 1000000.
Definition td_days (d : timedelta) : Z := d / 86400000000.

(** [timedelta(seconds=s, microseconds=u)] for ints. *)
Definition timedelta_of (s u : Z) : timedelta := s * 1000000 + u.

(** [bool(x)] for an attribute that holds None or a timedelta: a zero
    duration is false. *)
Definition truthy (o : option timedelta) : bool :=
  match o with
  | Some d => negb (d =? 0)
  | None => false
  end.

(** The two places where the source goes through floating point are
    fields of a class: [pretty_time] (which formats with [floor] and [round]
    on floats) and the chapter total, [timedelta(seconds=sum(t.total_seconds()
    for t in ts))].  The chapter total as CPython computes it is
    [float_total] below, which [python_floats] puts in the class. *)
Class PyFloat := {
  pretty_time : timedelta -> string;
  timedelta_of_seconds_sum : list timedelta -> timedelta
}.

(** ** class LevelChapter *)
Module LevelChapter.

Record t := {
  session_time : option timedelta;
  personal_best : option timedelta;
  diff : option string;
  modified : bool;
  _orig_pb : option timedelta;
  _backup_pb : option timedelta;
  _backup_session_time : option timedelta
}.

Section Methods.
Context `{!PyFloat}.

Definition _set_diff (self : t) : t :=
  let d :=
    match session_time self, personal_best self with
    | Some st, Some pb =>
        if st <? pb then Some ("-" +:+ pretty_time (pb - st))
        else Some ("+" +:+ pretty_time (st - pb))
    | _, _ => None
    end in
  {| session_time := session_time self;
     personal_best := personal_best self;
     diff := d;
     modified := modified self;
     _orig_pb := _orig_pb self;
     _backup_pb := _backup_pb self;
     _backup_session_time := _backup_session_time self |}.

Definition __init__ (personal_best0 : option timedelta) : t :=
  let self :=
    _set_diff {| session_time := None;
                 personal_best := personal_best0;
                 diff := None;
                 modified := false;
                 _orig_pb := None;
                 _backup_pb := None;
                 _backup_session_time := None |} in
  {| session_time := session_time self;
     personal_best := personal_best self;
     diff := diff self;
     modified := false;
     _orig_pb := personal_best0;
     _backup_pb := None;
     _backup_session_time := None |}.

Definition revert_session_time (self : t) : t :=
  _set_diff {| session_time := _backup_session_time self;
               personal_best := personal_best self;
               diff := diff self;
               modified := modified self;
               _orig_pb := _orig_pb self;
               _backup_pb := _backup_pb self;
               _backup_session_time := session_time self |}.

Definition revert_personal_best (self : t) : t :=
  let pb := _backup_pb self in
  _set_diff {| session_time := session_time self;
               personal_best := pb;
               diff := diff self;
               modified := if decide (pb = _orig_pb self) then false else true;
               _orig_pb := _orig_pb self;
               _backup_pb := personal_best self;
               _backup_session_time := _backup_session_time self |}.

Definition delete_session_time (self : t) : t :=
  if truthy (session_time self) then
    {| session_time := None;
       personal_best := personal_best self;
       diff := diff self;
       modified := modified self;
       _orig_pb := _orig_pb self;
       _backup_pb := _backup_pb self;
       _backup_session_time := session_time self |}
  else self.

Definition delete_personal_best (self : t) : t :=
  if truthy (personal_best self) then
    {| session_time := session_time self;
       personal_best := None;
       diff := diff self;
       modified := modified self;
       _orig_pb := _orig_pb self;
       _backup_pb := personal_best self;
       _backup_session_time := _backup_session_time self |}
  else self.

(** [self.session_time < self.personal_best] raises TypeError when the
    session time is None and a personal best exists. *)
Definition _is_session_pb (self : t) : result (bool * t) :=
  let new_pb :=
    {| session_time := session_time self;
       personal_best := session_time self;
       diff := diff self;
       modified := true;
       _orig_pb := _orig_pb self;
       _backup_pb := personal_best self;
       _backup_session_time := _backup_session_time self |} in
  match personal_best self with
  | None => mret (true, new_pb)
  | Some pb =>
      match session_time self with
      | None => raise TypeError
      | Some st => if st <? pb then mret (true, new_pb) else mret (false, self)
      end
  end.

End Methods.
End LevelChapter.

(** ** The class attributes of RecordHolder *)
Definition categories : list string :=
  ["Any%"; "100%"; "Pacifist"; "Noclip"]%string.

Definition difficulties : list string :=
  ["I'm Too Young To Die"; "Hey, Not Too Rough"; "Hurt Me Plenty";
   "Ultra-Violence"; "Nightmare!"]%string.

Definition chapter_names : list string :=
  ["Knee-Deep In The Dead"; "The Shores of Hell"; "Inferno";
   "Thy Flesh Consumed"; "Doom 2"]%string.

(** [RecordHolder.get_chapter_name_by_code]: only the ValueError of [int]
    is caught. *)
Definition get_chapter_name_by_code (code : string) : result string :=
  c ← str_at code 1;
  match py_int c with
  | inr n => py_index chapter_names (n - 1)
  | inl ValueError => py_index chapter_names 4
  | inl e => raise e
  end.

Definition get_chapter_name_by_number (number : Z) : result string :=
  py_index chapter_names (number - 1).

Definition get_chapter_number_by_code (code : string) : result Z :=
  c ← str_at code 1;
  match py_int c with
  | inr n => mret n
  | inl ValueError => mret 5
  | inl e => raise e
  end.

(** ** class Level *)
Module Level.

Definition _doom1_secret_exits : list Z := [3; 5; 6; 2].

Definition quote : string := String (ascii_of_nat 34) EmptyString.

Definition _level_names : list (list string) :=
  [ ["Hangar"; "Nuclear Plant"; "Toxin Refinery"; "Command Control";
     "Phobos Lab"; "Central Processing"; "Computer Station";
     "Phobos Anomaly"; "Military Base"];
    ["Deimos Anomaly"; "Containment Area"; "Refinery"; "Deimos Lab";
     "Command Center"; "Halls of The Damned"; "Spawning Vats";
     "Tower of Babel"; "Fortress of Mystery"];
    ["Hell Keep"; "Slough of Despair"; "Pandemonium"; "House of Pain";
     "Unholy Cathedral"; "Mt. Erebus"; "Limbo"; "Dis"; "Warrens"];
    ["Hell Beneath"; "Perfect Hatred"; "Sever the Wicked"; "Unruly Evil";
     "They Will Repent"; "Against Thee Wickedly"; "And Hell Followed";
     "Unto the Cruel"; "Fear"];
    ["Entryway"; "Underhalls"; "The Gantlet"; "The Focus";
     "The Waste Tunnels"; "The Crusher"; "Dead Simple"; "Tricks and Traps";
     "The Pit"; "Refueling Base";
     quote +:+ "O" +:+ quote +:+ " of Destruction!";
     "The Factory"; "Downtown"; "The Inmost Dens"; "Industrial Zone";
     "Suburbs"; "Tenements"; "The Courtyard"; "The Citadel"; "Gotcha!";
     "Nirvana"; "The Catacombs"; "Barrels o' Fun"; "The Chasm";
     "Bloodfalls"; "The Abandoned Mines"; "Monster Condo";
     "The Spirit World"; "The Living End"; "Icon of Sin"; "Wolfenstein";
     "Grosse"] ]%string.

(** [secret_exit] and [secret] hold False in the source when there is no
    link; False is never equal to a code, and is None here. *)
Record t := {
  base : LevelChapter.t;
  code : string;
  secret_exit : option string;
  secret : option string;
  chapter_name : string;
  chapter_number : Z;
  level_number : Z;
  final : bool;
  name : string;
  _race_start : option datetime
}.

Definition with_base (self : t) (b : LevelChapter.t) : t :=
  {| base := b;
     code := code self;
     secret_exit := secret_exit self;
     secret := secret self;
     chapter_name := chapter_name self;
     chapter_number := chapter_number self;
     level_number := level_number self;
     final := final self;
     name := name self;
     _race_start := _race_start self |}.

Definition with_race_start (self : t) (r : option datetime) : t :=
  {| base := base self;
     code := code self;
     secret_exit := secret_exit self;
     secret := secret self;
     chapter_name := chapter_name self;
     chapter_number := chapter_number self;
     level_number := level_number self;
     final := final self;
     name := name self;
     _race_start := r |}.

Section Methods.
Context `{!PyFloat}.

Definition __init__ (code0 : string) (personal_best0 : option timedelta)
  : result t :=
  let b := LevelChapter.__init__ personal_best0 in
  chapter_name0 ← get_chapter_name_by_code code0;
  c0 ← str_at code0 0;
  '(cn, ln, se, s, f) ←
    (if String.eqb c0 "E" then
       cn ← (str_at code0 1 ≫= py_int);
       ln ← (str_at code0 3 ≫= py_int);
       ex ← py_index _doom1_secret_exits (cn - 1);
       let s := if ln =? 9
                then Some ("E" +:+ py_str cn +:+ "M" +:+ py_str (ex + 1))
                else None in
       let se := if ln =? 9 then None
                 else if ln =? ex then Some ("E" +:+ py_str cn +:+ "M9")
                 else None in
       mret (cn, ln, se, s, ln =? 8)
     else if String.eqb c0 "M" then
       ln ← py_int (str_from 3 code0);
       let se := if ln =? 15 then Some "MAP31"
                 else if ln =? 31 then Some "MAP32" else None in
       let s := if (ln =? 31) || (ln =? 32) then Some "MAP16" else None in
       mret (5, ln, se, s, ln =? 30)
     else raise Exception);
  names ← py_index _level_names (cn - 1);
  name0 ← py_index names (ln - 1);
  mret {| base := b;
          code := code0;
          secret_exit := se;
          secret := s;
          chapter_name := chapter_name0;
          chapter_number := cn;
          level_number := ln;
          final := f;
          name := name0;
          _race_start := None |}.

Definition start_timer (self : t) (start_time : datetime) : t :=
  with_race_start self (Some start_time).

(** Returns whether a personal best was set.  Reading [self._race_start]
    fails before anything is assigned, so a failed call changes nothing. *)
Definition stop_timer (self : t) (stop_time : datetime) : result (bool * t) :=
  match _race_start self with
  | None => raise RuntimeError
  | Some start =>
      let b := base self in
      let b1 :=
        {| LevelChapter.session_time := Some (stop_time - start);
           LevelChapter.personal_best := LevelChapter.personal_best b;
           LevelChapter.diff := LevelChapter.diff b;
           LevelChapter.modified := LevelChapter.modified b;
           LevelChapter._orig_pb := LevelChapter._orig_pb b;
           LevelChapter._backup_pb := LevelChapter._backup_pb b;
           LevelChapter._backup_session_time := LevelChapter.session_time b |} in
      '(is_pb, b2) ← LevelChapter._is_session_pb (LevelChapter._set_diff b1);
      mret (is_pb, with_race_start (with_base self b2) None)
  end.

Definition abort_timer (self : t) : result t :=
  match _race_start self with
  | None => raise RuntimeError
  | Some _ => mret (with_race_start self None)
  end.

(** [get_current_time]: the time elapsed since the timer was started, as
    a pretty time; [now] is what [datetime.now()] returns. *)
Definition get_current_time (self : t) (now : datetime) : result string :=
  match _race_start self with
  | None => raise RuntimeError
  | Some start => mret (pretty_time (now - start))
  end.

End Methods.

(** The dict written for one level. *)
Record serialized := {
  s_code : string;
  s_pb_seconds : Z;
  s_pb_microseconds : Z
}.

Definition serialize (self : t) : result serialized :=
  match LevelChapter.personal_best (base self) with
  | None => raise SerializedEmpty
  | Some pb =>
      mret {| s_code := code self;
              s_pb_seconds := td_seconds pb;
              s_pb_microseconds := td_microseconds pb |}
  end.

End Level.

(** ** class Chapter

    [_previous_level] and [_current_level] refer to Level objects that live
    in [levels] and are mutated in place; they are kept as positions in
    [levels].  None stands for None ([_previous_level]) and for a missing
    attribute ([_current_level]). *)
Module Chapter.

Record t := {
  base : LevelChapter.t;
  chapter_number : Z;
  name : string;
  levels : list Level.t;
  _valid_sequence : bool;
  _previous_level : option nat;
  _current_level : option nat
}.

Record stop_result := {
  level : nat;
  is_level_pb : bool;
  is_chapter_session : bool;
  is_chapter_pb : bool
}.

Definition range (lo hi : Z) : list Z :=
  map (fun k => lo + Z.of_nat k) (seq 0 (Z.to_nat (hi - lo))).

Definition doom1_code (chapter_number0 i : Z) : string :=
  "E" +:+ py_str chapter_number0 +:+ "M" +:+ py_str i.

Definition doom2_code (i : Z) : string := "MAP" +:+ zfill 2 (py_str i).

(** [[x.session_time for x in self.levels if x.session_time]] *)
Definition live_session_times (ls : list Level.t) : list timedelta :=
  omap (fun x : Level.t =>
          if truthy (LevelChapter.session_time (Level.base x))
          then LevelChapter.session_time (Level.base x) else None) ls.

Section Methods.
Context `{!PyFloat}.

(** The loop of [__init__] that creates the levels missing from the list
    it was given. *)
Fixpoint fill_blanks (blank : Z -> string) (numbers : list Z)
    (ls : list Level.t) : result (list Level.t) :=
  match numbers with
  | [] => mret ls
  | i :: rest =>
      l ← py_index ls (i - 1);
      if Level.level_number l =? i then fill_blanks blank rest ls
      else
        b ← Level.__init__ (blank i) None;
        fill_blanks blank rest (py_insert (Z.to_nat i) b ls)
  end.

Definition _is_doom1_number (chapter_number0 : Z) : bool := chapter_number0 <? 5.

Definition __init__ (chapter_number0 : Z) (levels0 : list Level.t)
    (personal_best0 : option timedelta) : result t :=
  let b := LevelChapter.__init__ personal_best0 in
  name0 ← get_chapter_name_by_number chapter_number0;
  levels1 ←
    match levels0 with
    | _ :: _ =>
        if _is_doom1_number chapter_number0
        then fill_blanks (doom1_code chapter_number0) (range 1 10) levels0
        else fill_blanks doom2_code (range 1 33) levels0
    | [] =>
        if _is_doom1_number chapter_number0
        then mapM (fun i => Level.__init__ (doom1_code chapter_number0 i) None)
                  (range 1 10)
        else mapM (fun i => Level.__init__ (doom2_code i) None) (range 1 33)
    end;
  mret {| base := b;
          chapter_number := chapter_number0;
          name := name0;
          levels := levels1;
          _valid_sequence := false;
          _previous_level := None;
          _current_level := None |}.

Definition _is_doom1 (self : t) : bool := _is_doom1_number (chapter_number self).

(** The position of the level and the level itself. *)
Definition _get_level (self : t) (code : string) : result (nat * Level.t) :=
  n ← get_chapter_number_by_code code;
  if negb (chapter_number self =? n) then raise WrongChapter
  else
    p ← py_index (split (if _is_doom1 self then "M" else "MAP") code) 1;
    k ← py_int p;
    i ← py_position (levels self) (k - 1);
    l ← py_index (levels self) (k - 1);
    mret (i, l).

(** The level [_previous_level] refers to. *)
Definition previous_level (self : t) : option Level.t :=
  i ← _previous_level self; levels self !! i.

(** [code in (getattr(prev, "secret_exit", None), getattr(prev, "secret", None))] *)
Definition on_secret_path (code : string) (prev : option Level.t) : bool :=
  bool_decide (Some code = prev ≫= Level.secret_exit)
  || bool_decide (Some code = prev ≫= Level.secret).

(** The value of [_valid_sequence] when the timer of [current] starts. *)
Definition next_valid_sequence (self : t) (current : Level.t) : bool :=
  if Level.level_number current =? 1 then true
  else if _valid_sequence self then
    if negb (Level.level_number current
             =? from_option Level.level_number 1 (previous_level self) + 1)
    then on_secret_path (Level.code current) (previous_level self)
    else true
  else false.

(** A failed lookup raises before anything is assigned. *)
Definition start_timer (self : t) (start_time : datetime) (code : string)
  : result nat * t :=
  match _get_level self code with
  | inl e => (raise e, self)
  | inr (i, l) =>
      let current := Level.start_timer l start_time in
      (mret i,
       {| base := base self;
          chapter_number := chapter_number self;
          name := name self;
          levels := <[i := current]> (levels self);
          _valid_sequence := next_valid_sequence self current;
          _previous_level :=
            if Level.level_number current =? 1 then None
            else _previous_level self;
          _current_level := Some i |})
  end.

(** [_current_level] is deleted before the level is stopped, so it stays
    deleted when the level raises.  A position outside [levels] stands for
    no object of the program. *)
Definition stop_timer (self : t) (stop_time : datetime)
  : result stop_result * t :=
  match _current_level self with
  | None => (raise AttributeError, self)
  | Some i =>
      let self1 :=
        {| base := base self;
           chapter_number := chapter_number self;
           name := name self;
           levels := levels self;
           _valid_sequence := _valid_sequence self;
           _previous_level := _previous_level self;
           _current_level := None |} in
      match levels self !! i with
      | None => (raise AttributeError, self1)
      | Some l =>
          match Level.stop_timer l stop_time with
          | inl e => (raise e, self1)
          | inr (level_pb, l') =>
              let levels' := <[i := l']> (levels self) in
              let finish (b : LevelChapter.t) :=
                {| base := b;
                   chapter_number := chapter_number self;
                   name := name self;
                   levels := levels';
                   _valid_sequence := _valid_sequence self;
                   _previous_level := Some i;
                   _current_level := None |} in
              let unfinished (b : LevelChapter.t) :=
                {| base := b;
                   chapter_number := chapter_number self;
                   name := name self;
                   levels := levels';
                   _valid_sequence := _valid_sequence self;
                   _previous_level := _previous_level self;
                   _current_level := None |} in
              if Level.final l' && _valid_sequence self then
                let b := base self in
                let b1 :=
                  LevelChapter._set_diff
                    {| LevelChapter.session_time :=
                         Some (timedelta_of_seconds_sum
                                 (live_session_times levels'));
                       LevelChapter.personal_best := LevelChapter.personal_best b;
                       LevelChapter.diff := LevelChapter.diff b;
                       LevelChapter.modified := LevelChapter.modified b;
                       LevelChapter._orig_pb := LevelChapter._orig_pb b;
                       LevelChapter._backup_pb := LevelChapter._backup_pb b;
                       LevelChapter._backup_session_time :=
                         LevelChapter.session_time b |} in
                match LevelChapter._is_session_pb b1 with
                | inl e => (raise e, unfinished b1)
                | inr (chapter_pb, b2) =>
                    (mret {| level := i;
                             is_level_pb := level_pb;
                             is_chapter_session := true;
                             is_chapter_pb := chapter_pb |},
                     finish b2)
                end
              else
                (mret {| level := i;
                         is_level_pb := level_pb;
                         is_chapter_session := false;
                         is_chapter_pb := false |},
                 finish (base self))
          end
      end
  end.

(** A missing [_current_level] is not an error; a current level whose timer
    is not running raises RuntimeError before anything is changed. *)
Definition abort_timer (self : t) : result unit * t :=
  let aborted (ls : list Level.t) :=
    {| base := base self;
       chapter_number := chapter_number self;
       name := name self;
       levels := ls;
       _valid_sequence := false;
       _previous_level := None;
       _current_level := None |} in
  match _current_level self with
  | None => (mret (), aborted (levels self))
  | Some i =>
      match levels self !! i with
      | None => (mret (), aborted (levels self))
      | Some l =>
          match Level.abort_timer l with
          | inl e => (raise e, self)
          | inr l' => (mret (), aborted (<[i := l']> (levels self)))
          end
      end
  end.

(** [get_current_time]: the AttributeError of a missing [_current_level]
    becomes a RuntimeError, like the one the level raises itself. *)
Definition get_current_time (self : t) (now : datetime) : result string :=
  match _current_level self with
  | None => raise RuntimeError
  | Some i =>
      match levels self !! i with
      | None => raise RuntimeError
      | Some l => Level.get_current_time l now
      end
  end.

End Methods.

Definition is_modified (self : t) : bool :=
  LevelChapter.modified (base self)
  || existsb (fun l : Level.t => LevelChapter.modified (Level.base l))
             (levels self).

(** The dict written for one chapter. *)
Record serialized := {
  s_chapter_number : Z;
  s_pb_seconds : option Z;
  s_pb_microseconds : option Z;
  s_levels : list Level.serialized
}.

Definition serialize (self : t) : result serialized :=
  serialized_levels ←
    mapM Level.serialize
      (List.filter
         (fun x : Level.t => truthy (LevelChapter.personal_best (Level.base x)))
         (levels self));
  if negb (truthy (LevelChapter.personal_best (base self)))
     && bool_decide (serialized_levels = [])
  then raise SerializedEmpty
  else mret {| s_chapter_number := chapter_number self;
               s_pb_seconds :=
                 td_seconds <$> LevelChapter.personal_best (base self);
               s_pb_microseconds :=
                 td_microseconds <$> LevelChapter.personal_best (base self);
               s_levels := serialized_levels |}.

End Chapter.

(** ** class RecordHolder

    [_db] is a dict of dicts of lists of chapters whose keys are inserted in
    the order of [categories] and [difficulties]; it is kept as an
    association list, in insertion order.  The serialized data, which is
    only read through [get] and overwritten by key, is a finite map. *)
Module RecordHolder.

Abbreviation serialized := (gmap string (gmap string (list Chapter.serialized))).
Abbreviation db := (list (string * list (string * list Chapter.t))).

(** [d[k]] on an association list. *)
Fixpoint dict_get {V} (d : list (string * V)) (k : string) : result V :=
  match d with
  | [] => raise KeyError
  | (k', v) :: rest => if String.eqb k' k then mret v else dict_get rest k
  end.

(** [serialized[category][difficulty]], once both keys are known to be
    there. *)
Definition saved_chapters (s : serialized) (category difficulty : string)
  : list Chapter.serialized :=
  default [] (m ← s !! category; m !! difficulty).

(** [not serialized.get(category) or not serialized[category].get(difficulty)] *)
Definition nothing_saved (s : serialized) (category difficulty : string) : bool :=
  match s !! category with
  | None => true
  | Some m =>
      bool_decide (m = ∅)
      || match m !! difficulty with
         | None | Some [] => true
         | Some (_ :: _) => false
         end
  end.

(** [{k: [] for k in self.difficulties}] *)
Definition empty_difficulties : gmap string (list Chapter.serialized) :=
  list_to_map (map (fun k => (k, [])) difficulties).

(** [timedelta(seconds=..., microseconds=...)] raises TypeError on None,
    which [__init__] turns into no personal best. *)
Definition chapter_personal_best (c : Chapter.serialized) : option timedelta :=
  match Chapter.s_pb_seconds c, Chapter.s_pb_microseconds c with
  | Some s, Some u => Some (timedelta_of s u)
  | _, _ => None
  end.

Definition level_personal_best (l : Level.serialized) : timedelta :=
  timedelta_of (Level.s_pb_seconds l) (Level.s_pb_microseconds l).

Section Methods.
Context `{!PyFloat}.

(** [for level in chapter["levels"]: if i == number_of(level["code"]): ...
    break].  The loop variable [level] is a local of [__init__]: it keeps
    its last value after the loop, which is threaded as [level_var].  The
    first component is the level at which the loop broke. *)
Fixpoint find_level (number_of : string -> result Z) (i : Z)
    (saved : list Level.serialized) (level_var : option Level.serialized)
  : result (option Level.serialized * option Level.serialized) :=
  match saved with
  | [] => mret (None, level_var)
  | level :: rest =>
      n ← number_of (Level.s_code level);
      if i =? n then mret (Some level, Some level)
      else find_level number_of i rest (Some level)
  end.

(** [for i in range(...)] around [find_level], with the [else] of the inner
    loop: on doom1 the blank level is named from [chapter_number] and [i], on
    doom2 from whatever [level] holds. *)
Fixpoint hydrate_levels (doom1 : bool) (chapter_number : Z)
    (saved : list Level.serialized) (numbers : list Z)
    (levels : list Level.t) (level_var : option Level.serialized)
  : result (list Level.t * option Level.serialized) :=
  match numbers with
  | [] => mret (levels, level_var)
  | i :: rest =>
      let number_of (code : string) :=
        if doom1 then str_at code 3 ≫= py_int else py_int (str_from 3 code) in
      '(found, level_var1) ← find_level number_of i saved level_var;
      l ← match found with
          | Some level =>
              Level.__init__ (Level.s_code level)
                             (Some (level_personal_best level))
          | None =>
              if doom1
              then Level.__init__ (Chapter.doom1_code chapter_number i) None
              else match level_var1 with
                   | Some level => Level.__init__ (Level.s_code level) None
                   | None => raise UnboundLocalError
                   end
          end;
      hydrate_levels doom1 chapter_number saved rest
                     (py_insert (Z.to_nat (i - 1)) l levels) level_var1
  end.

(** [for chapter in serialized[category][difficulty]: if
    chapter["chapter_number"] == chapter_number: ... break] *)
Fixpoint find_chapter (chapter_number : Z) (saved : list Chapter.serialized)
    (level_var : option Level.serialized)
  : result (option Chapter.t * option Level.serialized) :=
  match saved with
  | [] => mret (None, level_var)
  | chapter :: rest =>
      if Chapter.s_chapter_number chapter =? chapter_number then
        let doom1 := Chapter.s_chapter_number chapter <? 5 in
        '(levels, level_var1) ←
          hydrate_levels doom1 chapter_number (Chapter.s_levels chapter)
            (if doom1 then Chapter.range 1 10 else Chapter.range 1 33)
            [] level_var;
        c ← Chapter.__init__ (Chapter.s_chapter_number chapter) levels
                             (chapter_personal_best chapter);
        mret (Some c, level_var1)
      else find_chapter chapter_number rest level_var
  end.

(** [for chapter_number in range(1, 6)].  The state is the serialized dict
    (which the loop overwrites), [level] and the list being built. *)
Fixpoint chapters_loop (category difficulty : string) (numbers : list Z)
    (s : serialized) (level_var : option Level.serialized)
    (chapters : list Chapter.t)
  : result (serialized * option Level.serialized * list Chapter.t) :=
  match numbers with
  | [] => mret (s, level_var, chapters)
  | chapter_number :: rest =>
      let s1 := if nothing_saved s category difficulty
                then <[category := empty_difficulties]> s else s in
      '(found, level_var1) ←
        find_chapter chapter_number (saved_chapters s1 category difficulty)
                     level_var;
      c ← match found with
          | Some c => mret c
          | None => Chapter.__init__ chapter_number [] None
          end;
      chapters_loop category difficulty rest s1 level_var1
                    (py_insert (Z.to_nat (chapter_number - 1)) c chapters)
  end.

(** [for difficulty in self.difficulties] *)
Fixpoint difficulties_loop (category : string) (ds : list string)
    (s : serialized) (level_var : option Level.serialized)
  : result (serialized * option Level.serialized
            * list (string * list Chapter.t)) :=
  match ds with
  | [] => mret (s, level_var, [])
  | difficulty :: rest =>
      '(s1, level_var1, chapters) ←
        chapters_loop category difficulty (Chapter.range 1 6) s level_var [];
      '(s2, level_var2, others) ← difficulties_loop category rest s1 level_var1;
      mret (s2, level_var2, (difficulty, chapters) :: others)
  end.

(** [for category in self.categories] *)
Fixpoint categories_loop (cs : list string) (s : serialized)
    (level_var : option Level.serialized) : result db :=
  match cs with
  | [] => mret []
  | category :: rest =>
      '(s1, level_var1, by_difficulty) ←
        difficulties_loop category difficulties s level_var;
      others ← categories_loop rest s1 level_var1;
      mret ((category, by_difficulty) :: others)
  end.

(** The database [self._db] that [__init__] builds. *)
Definition __init__ (s : serialized) : result db :=
  categories_loop categories s None.

End Methods.

Definition dump_database (self : db) : db := self.

(** [cls.chapter_names.index(name) + 1], the ValueError turned into a
    KeyError. *)
Fixpoint index_of (names : list string) (name0 : string) (i : Z) : result Z :=
  match names with
  | [] => raise KeyError
  | n :: rest => if String.eqb n name0 then mret i else index_of rest name0 (i + 1)
  end.

Definition get_chapter_number_by_name (name0 : string) : result Z :=
  i ← index_of chapter_names name0 0; mret (i + 1).

Definition get_chapter (self : db) (category difficulty chapter_name : string)
  : result Chapter.t :=
  by_difficulty ← dict_get self category;
  chapters ← dict_get by_difficulty difficulty;
  n ← get_chapter_number_by_name chapter_name;
  py_index chapters (n - 1).

End RecordHolder.

(** ** class FileDude

    The file holds the JSON text of a dict with the keys [gui_config] and
    [runs]; compression and the JSON text itself are left out, a file is the
    dict that was dumped.  The GUI configuration is any type with a
    decidable equality. *)
Module FileDude.

Section GuiConfig.
Context {G : Type} `{!EqDecision G}.

Record file := {
  gui_config : G;
  runs : RecordHolder.serialized
}.

(** [_old_gui_config] is None until [load] has set the attribute. *)
Record t := {
  config_file : string;
  _old_gui_config : option G
}.

(** [load] on a missing file ([None]) and on a file; [empty_config] is the
    empty dict. *)
Definition load (empty_config : G) (self : t) (disk : option file)
  : RecordHolder.serialized * t :=
  match disk with
  | None =>
      (∅, {| config_file := config_file self;
             _old_gui_config := Some empty_config |})
  | Some d =>
      (runs d, {| config_file := config_file self;
                  _old_gui_config := Some (gui_config d) |})
  end.

(** The three nested attempts to add a chapter: append to the list of the
    difficulty if it is there, otherwise assign the dict of the category. *)
Definition add_chapter (category difficulty : string)
    (c : Chapter.serialized) (out : RecordHolder.serialized)
  : RecordHolder.serialized :=
  match out !! category with
  | Some by_difficulty =>
      match by_difficulty !! difficulty with
      | Some cs =>
          <[category := <[difficulty := cs ++ [c]]> by_difficulty]> out
      | None => <[category := {[difficulty := [c]]}]> out
      end
  | None => <[category := {[difficulty := [c]]}]> out
  end.

(** [for chapter in runs[category][difficulty]]; the state is [modified]
    and the dict being built. *)
Fixpoint save_chapters (category difficulty : string)
    (chapters : list Chapter.t) (modified : bool)
    (out : RecordHolder.serialized)
  : result (bool * RecordHolder.serialized) :=
  match chapters with
  | [] => mret (modified, out)
  | chapter :: rest =>
      match Chapter.serialize chapter with
      | inl SerializedEmpty => save_chapters category difficulty rest modified out
      | inl e => raise e
      | inr serialized_chapter =>
          let modified1 :=
            if negb modified then Chapter.is_modified chapter else modified in
          save_chapters category difficulty rest modified1
                        (add_chapter category difficulty serialized_chapter out)
      end
  end.

Fixpoint save_difficulties (category : string)
    (by_difficulty : list (string * list Chapter.t)) (modified : bool)
    (out : RecordHolder.serialized)
  : result (bool * RecordHolder.serialized) :=
  match by_difficulty with
  | [] => mret (modified, out)
  | (difficulty, chapters) :: rest =>
      '(modified1, out1) ←
        save_chapters category difficulty chapters modified out;
      save_difficulties category rest modified1 out1
  end.

Fixpoint save_categories (db0 : RecordHolder.db) (modified : bool)
    (out : RecordHolder.serialized)
  : result (bool * RecordHolder.serialized) :=
  match db0 with
  | [] => mret (modified, out)
  | (category, by_difficulty) :: rest =>
      '(modified1, out1) ←
        save_difficulties category by_difficulty modified out;
      save_categories rest modified1 out1
  end.

(** [save] returns what it writes to the file, None when it writes
    nothing. *)
Definition save (self : t) (runs0 : RecordHolder.db) (gui_config0 : G)
  : result (option file) :=
  let modified :=
    match _old_gui_config self with
    | Some old => bool_decide (gui_config0 ≠ old)
    | None => true
    end in
  '(modified1, out) ← save_categories runs0 modified ∅;
  mret (if modified1 : bool
        then Some {| gui_config := gui_config0; runs := out |}
        else None).


End GuiConfig.
End FileDude.

(** ** DoomRunner.run: the decoder of the lines gzdoom prints *)
Module DoomRunner.

Inductive signal :=
  | gzdoom_started
  | gzdoom_quit
  | level_started (code name : string)
  | level_finished
  | player_died.

Record state := {
  header_found : bool;
  skip_next_header : bool
}.

Definition initial : state :=
  {| header_found := false; skip_next_header := false |}.

Definition newline : string := String (ascii_of_nat 10) EmptyString.

Definition blank_line : string := newline.
Definition secret_line : string := "A secret is revealed!" +:+ newline.
Definition unloading_line : string :=
  "Starting all scripts of type 13 (Unloading)" +:+ newline.
Definition death_line : string :=
  "Starting all scripts of type 3 (Death)" +:+ newline.
Definition header_line : string :=
  "----------------------------------------" +:+ newline.

(** [code, name = line.decode("utf-8").strip().split(" - ")]: the decoding
    error is a ValueError, like a split into other than two parts. *)
Definition announcement (line : string) : result (string * string) :=
  if utf8_valid line then
    match split " - " (py_strip line) with
    | [code; name] => mret (code, name)
    | _ => raise ValueError
    end
  else raise ValueError.

(** One turn of the loop on the line that was read: the state for the next
    turn and the signals emitted. *)
Definition step (st : state) (line : string) : state * list signal :=
  if header_found st then
    if String.eqb line blank_line then (st, [])
    else if String.eqb line secret_line then
      ({| header_found := false; skip_next_header := true |}, [])
    else
      match announcement line with
      | inl _ => (st, [])
      | inr (code, name) =>
          ({| header_found := false;
              skip_next_header := skip_next_header st |},
           [level_started code name])
      end
  else if String.eqb line unloading_line then (st, [level_finished])
  else if String.eqb line death_line then (st, [player_died])
  else if String.eqb line header_line then
    if skip_next_header st
    then ({| header_found := header_found st; skip_next_header := false |}, [])
    else ({| header_found := true;
             skip_next_header := skip_next_header st |}, [])
  else (st, []).

(** The loop over the lines read while the process lives. *)
Fixpoint decode (st : state) (lines : list string) : state * list signal :=
  match lines with
  | [] => (st, [])
  | line :: rest =>
      let '(st1, out1) := step st line in
      let '(st2, out2) := decode st1 rest in
      (st2, out1 ++ out2)
  end.

Definition run (lines : list string) : list signal :=
  gzdoom_started :: snd (decode initial lines) ++ [gzdoom_quit].

Definition is_level_started (s : signal) : bool :=
  match s with level_started _ _ => true | _ => false end.

End DoomRunner.

(** ** Sequences of calls

    The callers of the classes above: the slots of the main window call the
    timer methods of the chapter shown, one event at a time, and the context
    menu calls revert and delete on a row of the table. *)

(** [QChapter._revert_or_delete_cell] picks [self.chapter.levels[row]] and,
    past the last row, the chapter itself; [f] is the inherited method that
    is then called on it. *)
Definition on_row (f : LevelChapter.t -> LevelChapter.t) (row : nat)
    (c : Chapter.t) : Chapter.t :=
  match Chapter.levels c !! row with
  | Some l =>
      {| Chapter.base := Chapter.base c;
         Chapter.chapter_number := Chapter.chapter_number c;
         Chapter.name := Chapter.name c;
         Chapter.levels :=
           <[row := Level.with_base l (f (Level.base l))]> (Chapter.levels c);
         Chapter._valid_sequence := Chapter._valid_sequence c;
         Chapter._previous_level := Chapter._previous_level c;
         Chapter._current_level := Chapter._current_level c |}
  | None =>
      {| Chapter.base := f (Chapter.base c);
         Chapter.chapter_number := Chapter.chapter_number c;
         Chapter.name := Chapter.name c;
         Chapter.levels := Chapter.levels c;
         Chapter._valid_sequence := Chapter._valid_sequence c;
         Chapter._previous_level := Chapter._previous_level c;
         Chapter._current_level := Chapter._current_level c |}
  end.

(** The chapters of the database are objects mutated in place: [in_chapter]
    applies [f] to the chapter at position [n] of a category and
    difficulty. *)
Fixpoint dict_alter {V} (f : V -> V) (k : string) (d : list (string * V))
  : list (string * V) :=
  match d with
  | [] => []
  | (k', v) :: rest =>
      if String.eqb k' k then (k', f v) :: rest
      else (k', v) :: dict_alter f k rest
  end.

Definition in_chapter (f : Chapter.t -> Chapter.t)
    (category difficulty : string) (n : nat) (d : RecordHolder.db)
  : RecordHolder.db :=
  dict_alter (dict_alter (alter f n) difficulty) category d.

Inductive level_call :=
  | LStart (t : datetime)
  | LStop (t : datetime)
  | LAbort.

Inductive chapter_call :=
  | CStart (t : datetime) (code : string)
  | CStop (t : datetime)
  | CAbort.

Section Calls.
Context `{!PyFloat}.

(** A call that raises leaves the level as it is. *)
Definition level_apply (l : Level.t) (c : level_call) : Level.t :=
  match c with
  | LStart t => Level.start_timer l t
  | LStop t =>
      match Level.stop_timer l t with inr (_, l') => l' | inl _ => l end
  | LAbort => match Level.abort_timer l with inr l' => l' | inl _ => l end
  end.

Definition level_run (l : Level.t) (cs : list level_call) : Level.t :=
  foldl level_apply l cs.

(** A call that raises leaves the chapter as the exception found it. *)
Definition chapter_apply (c : Chapter.t) (call : chapter_call) : Chapter.t :=
  match call with
  | CStart t code => snd (Chapter.start_timer c t code)
  | CStop t => snd (Chapter.stop_timer c t)
  | CAbort => snd (Chapter.abort_timer c)
  end.

Definition chapter_run (c : Chapter.t) (cs : list chapter_call) : Chapter.t :=
  foldl chapter_apply c cs.



End Calls.

(** ** The words of the specification *)

(** A session time is a personal best iff no personal best exists yet or
    it is less than the personal best. *)
Definition is_personal_best (pb : option timedelta) (session : timedelta)
  : Prop :=
  pb = None ∨ ∃ p, pb = Some p ∧ session < p.

(** The sum of the session times of the levels that have one, the others
    counting for zero. *)
Definition total_session_time (ls : list Level.t) : timedelta :=
  foldr (fun l acc => default 0 (LevelChapter.session_time (Level.base l)) + acc)
        0 ls.


(** The personal best [after] is present and no longer than [before],
    whenever [before] is present. *)
Definition never_worse (before after : option timedelta) : Prop :=
  ∀ p, before = Some p → ∃ q, after = Some q ∧ q <= p.

(** Every level of [ls] is still there in [ls'], with a personal best that
    is no worse. *)
Definition levels_never_worse (ls ls' : list Level.t) : Prop :=
  ∀ i l, ls !! i = Some l →
    ∃ l', ls' !! i = Some l'
          ∧ never_worse (LevelChapter.personal_best (Level.base l))
                        (LevelChapter.personal_best (Level.base l')).

(** The difference shown next to a session time and a personal best: none
    if either is absent, otherwise the sign and the formatted distance. *)
Definition diff_of `{!PyFloat} (session pb : option timedelta) : option string :=
  match session, pb with
  | Some st, Some p =>
      Some (if st <? p then "-" +:+ pretty_time (p - st)
            else "+" +:+ pretty_time (st - p))
  | _, _ => None
  end.



(** [round(n / d)] to the nearest integer, halves to the even one. *)
Definition round_half_even (n d : Z) : Z :=
  let q := n / d in
  let r := n mod d in
  if 2 * r <? d then q
  else if d <? 2 * r then q + 1
  else if Z.even q then q else q + 1.

(** The arithmetic of the source carried out without rounding error. *)
Definition exact_float : PyFloat :=
  {| pretty_time := fun d =>
       zfill 2 (py_str (td_seconds d / 60)) +:+ ":"
       +:+ zfill 2 (py_str (td_seconds d mod 60)) +:+ "."
       +:+ zfill 2 (py_str (round_half_even (td_microseconds d) 10000));
     timedelta_of_seconds_sum := fun ts => foldr Z.add 0 ts |}.

(** ** The chapter total in floating point

    [timedelta(seconds=sum(t.total_seconds() for t in ts))] as CPython
    computes it.  A Python float is an IEEE 754 binary64 number; its
    operations are those of the Standard Library's specification of
    floating-point arithmetic at precision 53, rounding to nearest, ties
    to even. *)
Module Float.

Definition prec : Z := 53.
Definition emax : Z := 1024.

Definition t := spec_float.

Definition add : t -> t -> t := SFadd prec emax.
Definition sub : t -> t -> t := SFsub prec emax.
Definition mul : t -> t -> t := SFmul prec emax.

(** [float(n)] for an int, rounded. *)
Definition of_int (n : Z) : t := binary_normalize prec emax n 0 false.

(** [a / b] for two ints: the quotient of the two integers, rounded once. *)
Definition int_true_divide (a b : Z) : t :=
  let operand (n : Z) : t :=
    match n with
    | Z0 => S754_zero false
    | Zpos p => S754_finite false p 0
    | Zneg p => S754_finite true p 0
    end in
  SFdiv prec emax (operand a) (operand b).

(** [math.modf(x)]: the whole part, as an int, and the fractional part,
    both with the sign of [x].  Not a number and the infinities have no
    whole part. *)
Definition modf (x : t) : option (Z * t) :=
  match x with
  | S754_zero s => Some (0, S754_zero s)
  | S754_finite s m e =>
      let sign (n : Z) := if s then - n else n in
      if 0 <=? e then Some (sign (Z.shiftl (Zpos m) e), S754_zero s)
      else
        let whole := Z.shiftr (Zpos m) (- e) in
        let rest := Zpos m - Z.shiftl whole (- e) in
        Some (sign whole, binary_normalize prec emax (sign rest) e s)
  | _ => None
  end.

(** [round(x)] for a float: the nearest int, ties to even. *)
Definition round (x : t) : option Z :=
  match x with
  | S754_zero _ => Some 0
  | S754_finite s m e =>
      let sign (n : Z) := if s then - n else n in
      if 0 <=? e then Some (sign (Z.shiftl (Zpos m) e))
      else Some (round_half_even (sign (Zpos m)) (Z.shiftl 1 (- e)))
  | _ => None
  end.

Definition is_zero (x : t) : bool :=
  match x with S754_zero _ => true | _ => false end.

Definition is_finite (x : t) : bool :=
  match x with S754_zero _ | S754_finite _ _ _ => true | _ => false end.

(** [fabs(x) >= fabs(y)] *)
Definition abs_ge (x y : t) : bool :=
  match SFcompare (SFabs x) (SFabs y) with
  | Some (Gt | Eq) => true
  | _ => false
  end.

End Float.

(** [timedelta.total_seconds()]: the microseconds divided by [10**6], two
    ints. *)
Definition total_seconds (d : timedelta) : Float.t :=
  Float.int_true_divide d 1000000.

(** The builtin [sum] on floats has changed: up to CPython 3.11 it adds
    from left to right, from 3.12 on it carries a compensation (Neumaier)
    that it adds at the end. *)
Inductive summation := Plain | Compensated.

(** The loop of [sum] over the floats after the first, with the running
    sum [acc] and the compensation [c]. *)
Fixpoint sum_plain (acc : Float.t) (xs : list Float.t) : Float.t :=
  match xs with
  | [] => acc
  | x :: rest => sum_plain (Float.add acc x) rest
  end.

Fixpoint sum_compensated (acc c : Float.t) (xs : list Float.t) : Float.t :=
  match xs with
  | [] =>
      if negb (Float.is_zero c) && Float.is_finite c then Float.add acc c
      else acc
  | x :: rest =>
      let t := Float.add acc x in
      let c' :=
        if Float.abs_ge acc x
        then Float.add c (Float.add (Float.sub acc t) x)
        else Float.add c (Float.add (Float.sub x t) acc) in
      sum_compensated t c' rest
  end.

(** [sum(xs)] for a list of floats that is not empty: the int 0 that the
    sum starts from is added to the first float, which gives that float,
    and the float loop takes over. *)
Definition py_sum (v : summation) (x : Float.t) (xs : list Float.t) : Float.t :=
  match v with
  | Plain => sum_plain (Float.add (Float.of_int 0) x) xs
  | Compensated =>
      sum_compensated (Float.add (Float.of_int 0) x) (S754_zero false) xs
  end.

(** [timedelta(seconds=x)] for a float: the whole seconds are taken as
    they are, the fraction is multiplied by [1e6] in floating point and
    rounded to the nearest microsecond, ties to even.  For the infinities
    and not a number, where the constructor raises, the result is None. *)
Definition timedelta_of_float (x : Float.t) : option timedelta :=
  '(whole, fraction) ← Float.modf x;
  if Float.is_zero fraction then Some (whole * 1000000)
  else
    us ← Float.round (Float.mul (Float.of_int 1000000) fraction);
    Some (whole * 1000000 + us).

(** [timedelta(seconds=sum(t.total_seconds() for t in ts))]; the sum of
    no float is the int 0.  The total of durations that a timedelta can
    hold is finite; the default stands where the constructor would
    raise. *)
Definition float_total (v : summation) (ts : list timedelta) : timedelta :=
  match ts with
  | [] => 0
  | d :: rest =>
      default 0 (timedelta_of_float
                   (py_sum v (total_seconds d) (map total_seconds rest)))
  end.


(** ** States and inputs used as examples *)

(** The value of a computation that is seen not to raise. *)
Definition unwrap {A} (r : result A) : if is_ok r then A else unit :=
  match r with
  | inr x => x
  | inl _ => ()
  end.

(** [RecordHolder({})]: the database of a first run. *)
Definition fresh_db : RecordHolder.db :=
  Eval vm_compute in unwrap (@RecordHolder.__init__ exact_float ∅).

(** [Chapter(1)]: the first chapter with nothing recorded. *)
Definition blank_chapter : Chapter.t :=
  Eval vm_compute in unwrap (@Chapter.__init__ exact_float 1 [] None).

(** The first chapter played in order up to its final level, E1M8, whose
    timer is running: every level takes ten seconds. *)
Definition chapter_on_final_level : Chapter.t :=
  @chapter_run exact_float blank_chapter
    [CStart 0 "E1M1"; CStop 10000000; CStart 11000000 "E1M2"; CStop 21000000;
     CStart 22000000 "E1M3"; CStop 32000000; CStart 33000000 "E1M4";
     CStop 43000000; CStart 44000000 "E1M5"; CStop 54000000;
     CStart 55000000 "E1M6"; CStop 65000000; CStart 66000000 "E1M7";
     CStop 76000000; CStart 77000000 "E1M8"].

(** [Level("E1M1")], and the same with its timer started at the origin. *)
Definition blank_level : Level.t :=
  Eval vm_compute in unwrap (@Level.__init__ exact_float "E1M1" None).

Definition started_level : Level.t := Level.start_timer blank_level 0.

(** The personal best of the level in row [row] of a chapter of the
    database. *)
Definition personal_best_at (d : RecordHolder.db)
    (category difficulty chapter_name : string) (row : nat)
  : result (option timedelta) :=
  c ← RecordHolder.get_chapter d category difficulty chapter_name;
  match Chapter.levels c !! row with
  | Some l => mret (LevelChapter.personal_best (Level.base l))
  | None => raise IndexError
  end.

(** A first run in which E1M1 is finished in 12.5 seconds on Hurt Me
    Plenty. *)
Definition played_db : RecordHolder.db :=
  in_chapter
    (fun c => @chapter_run exact_float c [CStart 0 "E1M1"; CStop 12500000])
    "Any%" "Hurt Me Plenty" 0 fresh_db.

(** The FileDude of a first run, after [load] found no file; the GUI
    configuration is a string here, the empty dict the empty string. *)
Definition first_run : @FileDude.t string :=
  snd (FileDude.load "" {| FileDude.config_file := "speedrun.json.bz2";
                           FileDude._old_gui_config := None |} None).

(** What [save] writes at the end of that run, and the database that the
    next run builds from it. *)
Definition played_file : result (option (@FileDude.file string)) :=
  FileDude.save first_run played_db "Any%".

Definition reloaded_db : option (result RecordHolder.db) :=
  match played_file with
  | inr (Some f) => Some (@RecordHolder.__init__ exact_float (FileDude.runs f))
  | _ => None
  end.

(** The chapters of a category and difficulty in what [save] wrote, None
    if it wrote nothing. *)
Definition written_chapters (w : result (option (@FileDude.file string)))
    (category difficulty : string) : option (list Chapter.serialized) :=
  match w with
  | inr (Some f) =>
      Some (RecordHolder.saved_chapters (FileDude.runs f) category difficulty)
  | _ => None
  end.

(** The same level finished on two difficulties, and what [save] writes. *)
Definition played_twice_db : RecordHolder.db :=
  in_chapter
    (fun c => @chapter_run exact_float c [CStart 0 "E1M1"; CStop 12500000])
    "Any%" "I'm Too Young To Die" 0 played_db.

Definition played_twice_file : result (option (@FileDude.file string)) :=
  FileDude.save first_run played_twice_db "Any%".

(** A file with one personal best, on the first difficulty, and the run
    that loads it. *)
Definition one_record_file : @FileDude.file string :=
  {| FileDude.gui_config := "Any%";
     FileDude.runs :=
       {[ "Any%" :=
            {[ "I'm Too Young To Die" :=
                 [ {| Chapter.s_chapter_number := 1;
                      Chapter.s_pb_seconds := None;
                      Chapter.s_pb_microseconds := None;
                      Chapter.s_levels :=
                        [ {| Level.s_code := "E1M1";
                             Level.s_pb_seconds := 12;
                             Level.s_pb_microseconds := 500000 |} ] |} ] ]} ]} |}.


Definition loaded_db : RecordHolder.db :=
  Eval vm_compute in
    unwrap (@RecordHolder.__init__ exact_float (FileDude.runs one_record_file)).


(** A file with one personal best in Doom 2, on MAP05, and the levels of
    the chapter that the next run builds from it: code and personal best. *)
Definition doom2_record : RecordHolder.serialized :=
  {[ "Any%" :=
       {[ "I'm Too Young To Die" :=
            [ {| Chapter.s_chapter_number := 5;
                 Chapter.s_pb_seconds := None;
                 Chapter.s_pb_microseconds := None;
                 Chapter.s_levels :=
                   [ {| Level.s_code := "MAP05";
                        Level.s_pb_seconds := 12;
                        Level.s_pb_microseconds := 500000 |} ] |} ] ]} ]}.

Definition doom2_reloaded : result (list (string * option timedelta)) :=
  d ← @RecordHolder.__init__ exact_float doom2_record;
  c ← RecordHolder.get_chapter d "Any%" "I'm Too Young To Die" "Doom 2";
  mret (map (fun l => (Level.code l, LevelChapter.personal_best (Level.base l)))
            (Chapter.levels c)).

(** The lines of the secret scenario, and the same with the header that
    gzdoom prints before an announcement. *)
Definition secret_scenario : list string :=
  [DoomRunner.header_line; DoomRunner.secret_line; DoomRunner.header_line;
   DoomRunner.blank_line; "E1M9 - Military Base" +:+ DoomRunner.newline].

Definition secret_then_level : list string :=
  [DoomRunner.header_line; DoomRunner.secret_line; DoomRunner.header_line;
   DoomRunner.header_line; DoomRunner.blank_line;
   "E1M9 - Military Base" +:+ DoomRunner.newline].

(** ** class QChapter and MainWindow: the parts that do not draw *)

(** [QChapter._revert_or_delete_cell]: the target is [levels[row]], the
    chapter itself when that raises IndexError; column 1 is the session
    time, column 2 the personal best, any other column raises after the
    target was picked.  [delete] is the keyword argument of that name, which
    alone decides between delete and revert. *)
Definition _revert_or_delete_cell `{!PyFloat} (column row : Z) (delete : bool)
    (c : Chapter.t) : result unit * Chapter.t :=
  let method : result (LevelChapter.t -> LevelChapter.t) :=
    if column =? 1 then
      mret (if delete then LevelChapter.delete_session_time
            else LevelChapter.revert_session_time)
    else if column =? 2 then
      mret (if delete then LevelChapter.delete_personal_best
            else LevelChapter.revert_personal_best)
    else raise Exception in
  match method with
  | inl e => (raise e, c)
  | inr f =>
      (mret (),
       match py_position (Chapter.levels c) row with
       | inr i => on_row f i c
       | inl _ => on_row f (length (Chapter.levels c)) c
       end)
  end.

Definition revert_cell `{!PyFloat} (column row : Z) (c : Chapter.t)
  : result unit * Chapter.t :=
  _revert_or_delete_cell column row false c.

Definition delete_cell `{!PyFloat} (column row : Z) (c : Chapter.t)
  : result unit * Chapter.t :=
  _revert_or_delete_cell column row true c.

(** A selected range of the table: [leftColumn], [rightColumn], [topRow],
    [bottomRow]. *)
Record selected_range := {
  leftColumn : Z;
  rightColumn : Z;
  topRow : Z;
  bottomRow : Z
}.

(** The rows of one column, in [MainWindow._get_selected_cells]: a column
    other than 1 and 2 returns None at its first row. *)
Definition column_cells (column : Z) (rows : list Z) : option (list (Z * Z)) :=
  match rows with
  | [] => Some []
  | _ :: _ =>
      if (0 <? column) && (column <? 3)
      then Some (map (fun row => (column, row)) rows)
      else None
  end.

Fixpoint columns_cells (columns rows : list Z) : option (list (Z * Z)) :=
  match columns with
  | [] => Some []
  | column :: rest =>
      cells ← column_cells column rows;
      others ← columns_cells rest rows;
      Some (cells ++ others)
  end.

(** [MainWindow._get_selected_cells] on the ranges that
    [tableWidget.selectedRanges()] returns. *)
Fixpoint _get_selected_cells (ranges : list selected_range)
  : option (list (Z * Z)) :=
  match ranges with
  | [] => Some []
  | r :: rest =>
      cells ← columns_cells
                (Chapter.range (leftColumn r) (rightColumn r + 1))
                (Chapter.range (topRow r) (bottomRow r + 1));
      others ← _get_selected_cells rest;
      Some (cells ++ others)
  end.

(** What the user does to the chapter shown: the timer calls that the
    signals of the decoder trigger, and revert and delete from the context
    menu. *)
Inductive gui_call :=
  | Timer (call : chapter_call)
  | Revert (column row : Z)
  | Delete (column row : Z).

Definition gui_apply `{!PyFloat} (c : Chapter.t) (call : gui_call) : Chapter.t :=
  match call with
  | Timer call => chapter_apply c call
  | Revert column row => snd (revert_cell column row c)
  | Delete column row => snd (delete_cell column row c)
  end.

Definition gui_run `{!PyFloat} (c : Chapter.t) (calls : list gui_call)
  : Chapter.t :=
  foldl gui_apply c calls.

(** ** Vocabulary of the further properties *)

(** The attributes of a level that are set once, in [Level.__init__]. *)
Definition same_identity (l l' : Level.t) : Prop :=
  Level.code l' = Level.code l
  ∧ Level.secret_exit l' = Level.secret_exit l
  ∧ Level.secret l' = Level.secret l
  ∧ Level.chapter_name l' = Level.chapter_name l
  ∧ Level.chapter_number l' = Level.chapter_number l
  ∧ Level.level_number l' = Level.level_number l
  ∧ Level.final l' = Level.final l
  ∧ Level.name l' = Level.name l.

(** The level that is current has its timer running. *)
Definition timer_consistent (c : Chapter.t) : Prop :=
  ∀ i, Chapter._current_level c = Some i →
       ∃ l, Chapter.levels c !! i = Some l ∧ Level._race_start l ≠ None.

(** A level and a chapter as their constructors leave them. *)
Definition fresh_level (l : Level.t) : Prop :=
  LevelChapter.modified (Level.base l) = false
  ∧ LevelChapter.session_time (Level.base l) = None
  ∧ Level._race_start l = None.

Definition fresh_chapter (c : Chapter.t) : Prop :=
  LevelChapter.modified (Chapter.base c) = false
  ∧ LevelChapter.session_time (Chapter.base c) = None
  ∧ Forall fresh_level (Chapter.levels c)
  ∧ Chapter._valid_sequence c = false
  ∧ Chapter._previous_level c = None
  ∧ Chapter._current_level c = None.

(** One day, in microseconds. *)
Definition one_day : timedelta := 86400000000.

(** The levels that [Chapter.serialize] writes. *)
Definition with_personal_best (ls : list Level.t) : list Level.t :=
  List.filter
    (λ x : Level.t, truthy (LevelChapter.personal_best (Level.base x))) ls.

(** A database with a chapter in every slot: the categories and the
    difficulties in their order, five chapters numbered 1 to 5 under each,
    every chapter as its constructor left it. *)
Definition complete_db (d : RecordHolder.db) : Prop :=
  map fst d = categories
  ∧ Forall (λ by_difficulty : string * list (string * list Chapter.t),
              map fst by_difficulty.2 = difficulties
              ∧ Forall (λ chapters : string * list Chapter.t,
                          map Chapter.chapter_number chapters.2 = [1; 2; 3; 4; 5]
                          ∧ Forall fresh_chapter chapters.2)
                       by_difficulty.2) d.

(** What is written holds no empty entry: every list of chapters under a
    category and difficulty has a chapter, and every chapter has a personal
    best of its own or a level. *)
Definition has_data (c : Chapter.serialized) : Prop :=
  Chapter.s_pb_seconds c ≠ None ∨ Chapter.s_levels c ≠ [].

Definition no_empty_entry (out : RecordHolder.serialized) : Prop :=
  ∀ category by_difficulty difficulty chapters,
    out !! category = Some by_difficulty →
    by_difficulty !! difficulty = Some chapters →
    chapters ≠ [] ∧ Forall has_data chapters.

(** The lines that are the header, and the level starts among the
    signals. *)
Definition count_headers (lines : list string) : nat :=
  length (List.filter (String.eqb DoomRunner.header_line) lines).

Definition count_level_starts (signals : list DoomRunner.signal) : nat :=
  length (List.filter DoomRunner.is_level_started signals).

(** A cell of the table lies in a selected range. *)
Definition in_selected_range (r : selected_range) (column row : Z) : Prop :=
  leftColumn r <= column <= rightColumn r ∧ topRow r <= row <= bottomRow r.

(** ** Further example states *)

(** [started_level] stopped after 12.5 seconds, which is a personal best,
    and its times after the personal best is reverted. *)
Definition finished_level : Level.t :=
  Eval vm_compute in
    snd (unwrap (@Level.stop_timer exact_float started_level 12500000)).

Definition reverted_times : LevelChapter.t :=
  @LevelChapter.revert_personal_best exact_float (Level.base finished_level).

(** [Level("MAP01")]. *)
Definition first_map : Level.t :=
  Eval vm_compute in unwrap (@Level.__init__ exact_float "MAP01" None).

(** The first chapter with E1M1 being played, with E1M1 finished in 12.5
    seconds, and what [serialize] writes for the latter. *)
Definition chapter_in_play : Chapter.t :=
  @chapter_run exact_float blank_chapter [CStart 0 "E1M1"].

Definition played_chapter : Chapter.t :=
  @chapter_run exact_float blank_chapter [CStart 0 "E1M1"; CStop 12500000].

Definition saved_chapter : Chapter.serialized :=
  Eval vm_compute in unwrap (Chapter.serialize played_chapter).

(** A session at the table: E1M1 is played, its personal best reverted, its
    session time deleted, and E1M2 started. *)
Definition table_session : list gui_call :=
  [Timer (CStart 0 "E1M1"); Timer (CStop 12500000); Revert 2 0; Delete 1 0;
   Timer (CStart 13000000 "E1M2")].

(** Rows 0 and 1 of the two time columns selected. *)
Definition time_columns : list selected_range :=
  [{| leftColumn := 1; rightColumn := 2; topRow := 0; bottomRow := 1 |}].


(** * Properties *)

(** ** The embedding on small inputs *)
Section Checks.

Example py_int_reads_padded_numbers :
  py_int "01" = inr 1 ∧ py_int " 1_0 " = inr 10 ∧ py_int "A" = inl ValueError.
Proof. by vm_compute. Qed.

Example split_cuts_at_the_separator :
  split " - " "E1M2 - Containment Area" = ["E1M2"; "Containment Area"]
  ∧ split "M" "E1M1" = ["E1"; "1"]
  ∧ split "MAP" "MAP01" = [""; "01"].
Proof. by vm_compute. Qed.

Example timedelta_fields :
  td_seconds 12500000 = 12 ∧ td_microseconds 12500000 = 500000
  ∧ timedelta_of 12 500000 = 12500000
  ∧ td_seconds 86400000000 = 0 ∧ td_days 86400000000 = 1.
Proof. by vm_compute. Qed.

Example secret_links_of_the_first_chapter :
  Level.secret_exit <$> Chapter.levels blank_chapter !! 2%nat
  = Some (Some "E1M9")
  ∧ Level.secret <$> Chapter.levels blank_chapter !! 8%nat
    = Some (Some "E1M4")
  ∧ Level.final <$> Chapter.levels blank_chapter !! 7%nat = Some true.
Proof. by vm_compute. Qed.

Example the_secret_route_is_valid :
  Chapter._valid_sequence
    (@chapter_run exact_float blank_chapter
       [CStart 0 "E1M1"; CStop 1; CStart 2 "E1M2"; CStop 3; CStart 4 "E1M3";
        CStop 5; CStart 6 "E1M9"; CStop 7; CStart 8 "E1M4"]) = true
  ∧ Chapter._valid_sequence
      (@chapter_run exact_float blank_chapter
         [CStart 0 "E1M1"; CStop 1; CStart 2 "E1M3"]) = false.
Proof. by vm_compute. Qed.

Example an_announcement_after_its_header :
  DoomRunner.run
    [DoomRunner.header_line; DoomRunner.blank_line;
     "E1M2 - Containment Area" +:+ DoomRunner.newline; DoomRunner.header_line]
  = [DoomRunner.gzdoom_started;
     DoomRunner.level_started "E1M2" "Containment Area";
     DoomRunner.gzdoom_quit].
Proof. by vm_compute. Qed.

Example a_fresh_database_is_complete :
  map fst fresh_db = categories
  ∧ Forall (λ by_difficulty, map fst by_difficulty.2 = difficulties) fresh_db
  ∧ Forall (λ by_difficulty,
              Forall (λ chapters,
                        map Chapter.chapter_number chapters.2 = [1; 2; 3; 4; 5])
                     by_difficulty.2) fresh_db.
Proof. split_and!; [done | |]; repeat constructor. Qed.

Example fresh_chapters_are_numbered_in_order :
  Forall (λ by_difficulty,
            Forall (λ chapters,
                      Forall (λ c,
                                map Level.level_number (Chapter.levels c)
                                = Chapter.range 1
                                    (if Chapter._is_doom1 c then 10 else 33))
                             chapters.2)
                   by_difficulty.2) fresh_db.
Proof. apply (bool_decide_unpack _). by vm_compute. Qed.

(** The chapter total on a few lists of durations, in microseconds.  With
    the plain summation these are the values CPython 3.11 returns: exact for
    the times of a run, off by some microseconds for centuries. *)
Example float_total_values :
  total_seconds 12500000 = S754_finite false 7036874417766400 (-49)
  ∧ float_total Plain [] = 0
  ∧ float_total Plain [10000000; 10000000; 12345678] = 32345678
  ∧ float_total Plain [-1500000] = -1500000
  ∧ float_total Plain [9000000000000001] = 9000000000000002
  ∧ float_total Plain [-9000000000000001] = -9000000000000002
  ∧ float_total Plain [123456789012345678] = 123456789012345673
  ∧ float_total Plain [22172782220565427; 308988218; 8216535666077878]
    = 30389318195631519
  ∧ float_total Compensated [22172782220565427; 308988218; 8216535666077878]
    = 30389318195631523.
Proof. by vm_compute. Qed.

End Checks.

Section LevelChapterFacts.
Context `{!PyFloat}.
Import LevelChapter.

(** [_set_diff] writes [diff] and nothing else. *)
Lemma set_diff_fields (s : t) :
  session_time (_set_diff s) = session_time s
  ∧ personal_best (_set_diff s) = personal_best s
  ∧ modified (_set_diff s) = modified s
  ∧ _orig_pb (_set_diff s) = _orig_pb s
  ∧ _backup_pb (_set_diff s) = _backup_pb s
  ∧ _backup_session_time (_set_diff s) = _backup_session_time s.
Proof. by destruct s. Qed.

(** On a state without session time, or without personal best, [_set_diff]
    leaves no diff. *)
Lemma set_diff_absent (s : t) :
  session_time s = None ∨ personal_best s = None → diff (_set_diff s) = None.
Proof.
  destruct s as [st pb d m o bp bs]; simpl.
  intros [-> | ->]; [done | by destruct st].
Qed.

(** C10.  Frame of the four undo operations, which Level and Chapter
    inherit: reverting or deleting the session time never changes the
    personal best, its backup, the personal best that was loaded or the
    modified flag; reverting or deleting the personal best never changes the
    session time or its backup. *)
Theorem revert_delete_frame (s : t) :
  (personal_best (revert_session_time s) = personal_best s
   ∧ _backup_pb (revert_session_time s) = _backup_pb s
   ∧ _orig_pb (revert_session_time s) = _orig_pb s
   ∧ modified (revert_session_time s) = modified s)
  ∧ (personal_best (delete_session_time s) = personal_best s
     ∧ _backup_pb (delete_session_time s) = _backup_pb s
     ∧ _orig_pb (delete_session_time s) = _orig_pb s
     ∧ modified (delete_session_time s) = modified s)
  ∧ (session_time (revert_personal_best s) = session_time s
     ∧ _backup_session_time (revert_personal_best s) = _backup_session_time s)
  ∧ (session_time (delete_personal_best s) = session_time s
     ∧ _backup_session_time (delete_personal_best s) = _backup_session_time s).
Proof.
  destruct s as [st pb d m o bp bs].
  unfold delete_session_time, delete_personal_best; simpl.
  repeat split; try reflexivity;
    (destruct (truthy st); reflexivity) || (destruct (truthy pb); reflexivity).
Qed.

(** What delete followed by revert does to the session time. *)
Lemma delete_revert_session_time (s : t) :
  (∀ v, session_time s = Some v → v ≠ 0 →
        session_time (revert_session_time (delete_session_time s)) = Some v
        ∧ _backup_session_time (revert_session_time (delete_session_time s))
          = None)
  ∧ (session_time s = None →
     revert_session_time (delete_session_time s) = revert_session_time s
     ∧ session_time (revert_session_time (delete_session_time s))
       = _backup_session_time s
     ∧ (_backup_session_time s = None → diff s = None →
        revert_session_time (delete_session_time s) = s)).
Proof.
  destruct s as [st pb d m o bp bs]; simpl. split.
  - intros v -> Hv. unfold delete_session_time; simpl.
    by rewrite (proj2 (Z.eqb_neq v 0) Hv).
  - intros ->. unfold delete_session_time; simpl.
    repeat split. by intros -> ->.
Qed.

(** What delete followed by revert does to the personal best. *)
Lemma delete_revert_personal_best (s : t) :
  (∀ v, personal_best s = Some v → v ≠ 0 →
        personal_best (revert_personal_best (delete_personal_best s)) = Some v
        ∧ _backup_pb (revert_personal_best (delete_personal_best s)) = None)
  ∧ (personal_best s = None →
     revert_personal_best (delete_personal_best s) = revert_personal_best s
     ∧ personal_best (revert_personal_best (delete_personal_best s))
       = _backup_pb s
     ∧ (_backup_pb s = None → diff s = None →
        modified s = bool_decide (_orig_pb s ≠ None) →
        revert_personal_best (delete_personal_best s) = s)).
Proof.
  destruct s as [st pb d m o bp bs]; simpl. split.
  - intros v -> Hv. unfold delete_personal_best; simpl.
    by rewrite (proj2 (Z.eqb_neq v 0) Hv).
  - intros ->. unfold delete_personal_best; simpl.
    repeat split. intros -> -> ->.
    unfold revert_personal_best, _set_diff; simpl.
    destruct st; f_equal; destruct o; by compute.
Qed.

(** C6, amended.  Delete followed by revert, for the session time and for
    the personal best alike: a live value other than the zero duration is
    restored, with an empty backup slot; when no live value is present the
    delete does nothing and the pair is the revert alone, which brings back
    what the backup slot holds, so the state is unchanged only when the
    backup slot is empty as well. *)
Theorem delete_then_revert (s : t) :
  (∀ v, session_time s = Some v → v ≠ 0 →
        session_time (revert_session_time (delete_session_time s)) = Some v
        ∧ _backup_session_time (revert_session_time (delete_session_time s))
          = None)
  ∧ (∀ v, personal_best s = Some v → v ≠ 0 →
        personal_best (revert_personal_best (delete_personal_best s)) = Some v
        ∧ _backup_pb (revert_personal_best (delete_personal_best s)) = None)
  ∧ (session_time s = None →
     revert_session_time (delete_session_time s) = revert_session_time s
     ∧ session_time (revert_session_time (delete_session_time s))
       = _backup_session_time s
     ∧ (_backup_session_time s = None → diff s = None →
        revert_session_time (delete_session_time s) = s))
  ∧ (personal_best s = None →
     revert_personal_best (delete_personal_best s) = revert_personal_best s
     ∧ personal_best (revert_personal_best (delete_personal_best s))
       = _backup_pb s
     ∧ (_backup_pb s = None → diff s = None →
        modified s = bool_decide (_orig_pb s ≠ None) →
        revert_personal_best (delete_personal_best s) = s)).
Proof.
  destruct (delete_revert_session_time s) as [Hs1 Hs2].
  destruct (delete_revert_personal_best s) as [Hp1 Hp2].
  auto.
Qed.

(** C5.  A level loaded with a personal best of ten seconds, then
    [delete_personal_best]: the personal best is gone, so it differs from
    the one that was loaded, and [modified] is still false. *)
Theorem delete_personal_best_leaves_modified :
  let s := delete_personal_best (__init__ (Some 10000000)) in
  personal_best s = None
  ∧ _orig_pb s = Some 10000000
  ∧ personal_best s ≠ _orig_pb s
  ∧ modified s = false.
Proof. by cbn. Qed.

End LevelChapterFacts.

Section TimerFacts.
Context `{!PyFloat}.

Lemma never_worse_refl (a : option timedelta) : never_worse a a.
Proof. intros p ->. exists p. split; [done | lia]. Qed.

Lemma never_worse_trans (a b c : option timedelta) :
  never_worse a b → never_worse b c → never_worse a c.
Proof.
  intros Hab Hbc p Hp.
  destruct (Hab p Hp) as (q & Hq & Hle).
  destruct (Hbc q Hq) as (r & Hr & Hle').
  exists r. split; [done | lia].
Qed.

(** The personal best rule of [_is_session_pb] on a state that has a
    session time. *)
Lemma is_session_pb_spec (s : LevelChapter.t) (v : timedelta) :
  LevelChapter.session_time s = Some v →
  ∃ is_pb s',
    LevelChapter._is_session_pb s = inr (is_pb, s')
    ∧ (is_pb = true ↔ is_personal_best (LevelChapter.personal_best s) v)
    ∧ LevelChapter.session_time s' = Some v
    ∧ LevelChapter._backup_session_time s'
      = LevelChapter._backup_session_time s
    ∧ LevelChapter.diff s' = LevelChapter.diff s
    ∧ LevelChapter._orig_pb s' = LevelChapter._orig_pb s
    ∧ (is_pb = true →
       LevelChapter._backup_pb s' = LevelChapter.personal_best s
       ∧ LevelChapter.personal_best s' = Some v
       ∧ LevelChapter.modified s' = true)
    ∧ (is_pb = false → s' = s).
Proof.
  destruct s as [st pb d m o bp bs]; simpl. intros ->.
  unfold LevelChapter._is_session_pb, is_personal_best; simpl.
  destruct pb as [p|].
  - destruct (Z.ltb_spec v p) as [Hlt | Hge].
    + eexists true, _. split; [reflexivity |]. simpl.
      repeat split; try done. right. by exists p.
    + eexists false, _. split; [reflexivity |]. simpl.
      repeat split; try done.
      intros [? | (q & [= <-] & ?)]; [done | lia].
  - eexists true, _. split; [reflexivity |]. simpl.
    repeat split; try done. by left.
Qed.

(** [Level.stop_timer] on a level whose timer runs. *)
Lemma level_stop_timer_spec (l : Level.t) (start stop : datetime) :
  Level._race_start l = Some start →
  ∃ is_pb l',
    Level.stop_timer l stop = inr (is_pb, l')
    ∧ (is_pb = true ↔
       is_personal_best (LevelChapter.personal_best (Level.base l))
                        (stop - start))
    ∧ LevelChapter.session_time (Level.base l') = Some (stop - start)
    ∧ LevelChapter._backup_session_time (Level.base l')
      = LevelChapter.session_time (Level.base l)
    ∧ Level._race_start l' = None
    ∧ (is_pb = true →
       LevelChapter._backup_pb (Level.base l')
       = LevelChapter.personal_best (Level.base l)
       ∧ LevelChapter.personal_best (Level.base l') = Some (stop - start)
       ∧ LevelChapter.modified (Level.base l') = true)
    ∧ (is_pb = false →
       LevelChapter.personal_best (Level.base l')
       = LevelChapter.personal_best (Level.base l)
       ∧ LevelChapter._backup_pb (Level.base l')
         = LevelChapter._backup_pb (Level.base l)
       ∧ LevelChapter.modified (Level.base l')
         = LevelChapter.modified (Level.base l)).
Proof.
  intros Hstart. unfold Level.stop_timer. rewrite Hstart.
  set (b1 := LevelChapter._set_diff _).
  destruct (is_session_pb_spec b1 (stop - start)) as
    (is_pb & b2 & Heq & Hiff & Hst & Hbs & _ & _ & Hyes & Hno).
  { by destruct (Level.base l). }
  rewrite Heq. exists is_pb, (Level.with_race_start (Level.with_base l b2) None).
  split; [reflexivity |]. simpl.
  assert (LevelChapter.personal_best b1
          = LevelChapter.personal_best (Level.base l)) as Hpb
    by by destruct (Level.base l).
  rewrite Hpb in Hiff, Hyes.
  split_and!; try done.
  intros ->. rewrite (Hno eq_refl).
  split_and!; by destruct (Level.base l).
Qed.

(** A call of [Chapter.stop_timer] that raises changes nothing but
    [_current_level]. *)
Lemma chapter_stop_timer_raises (c c' : Chapter.t) (stop : datetime) (e : exn) :
  Chapter.stop_timer c stop = (inl e, c') →
  Chapter.base c' = Chapter.base c
  ∧ Chapter.levels c' = Chapter.levels c
  ∧ Chapter._valid_sequence c' = Chapter._valid_sequence c
  ∧ Chapter._previous_level c' = Chapter._previous_level c.
Proof.
  unfold Chapter.stop_timer.
  destruct (Chapter._current_level c) as [i|]; [| by intros [= _ <-]].
  destruct (Chapter.levels c !! i) as [l|]; [| by intros [= _ <-]].
  destruct (Level._race_start l) as [start|] eqn:Hstart.
  - destruct (level_stop_timer_spec l start stop Hstart)
      as (level_pb & l' & -> & _).
    destruct (Level.final l' && Chapter._valid_sequence c); [| done].
    set (b1 := LevelChapter._set_diff _).
    destruct (is_session_pb_spec b1 (timedelta_of_seconds_sum
                (Chapter.live_session_times (<[i:=l']> (Chapter.levels c)))))
      as (chapter_pb & b2 & -> & _); [| done].
    by destruct (Chapter.base c).
  - unfold Level.stop_timer. rewrite Hstart. by intros [= _ <-].
Qed.

(** A call of [Chapter.stop_timer] that returns: the level it stopped, and
    what became of the chapter's own times. *)
Lemma chapter_stop_timer_returns (c c' : Chapter.t) (stop : datetime)
    (r : Chapter.stop_result) :
  Chapter.stop_timer c stop = (inr r, c') →
  ∃ l l',
    Chapter._current_level c = Some (Chapter.level r)
    ∧ Chapter.levels c !! Chapter.level r = Some l
    ∧ Level.stop_timer l stop = inr (Chapter.is_level_pb r, l')
    ∧ Chapter.levels c' = <[Chapter.level r := l']> (Chapter.levels c)
    ∧ Chapter._valid_sequence c' = Chapter._valid_sequence c
    ∧ Chapter._previous_level c' = Some (Chapter.level r)
    ∧ Chapter._current_level c' = None
    ∧ ((Level.final l' && Chapter._valid_sequence c = true
        ∧ Chapter.is_chapter_session r = true
        ∧ ∃ total,
            total = timedelta_of_seconds_sum
                      (Chapter.live_session_times (Chapter.levels c'))
            ∧ LevelChapter.session_time (Chapter.base c') = Some total
            ∧ LevelChapter._backup_session_time (Chapter.base c')
              = LevelChapter.session_time (Chapter.base c)
            ∧ LevelChapter.diff (Chapter.base c')
              = diff_of (Some total)
                        (LevelChapter.personal_best (Chapter.base c))
            ∧ (Chapter.is_chapter_pb r = true ↔
               is_personal_best (LevelChapter.personal_best (Chapter.base c))
                                total)
            ∧ (Chapter.is_chapter_pb r = true →
               LevelChapter._backup_pb (Chapter.base c')
               = LevelChapter.personal_best (Chapter.base c)
               ∧ LevelChapter.personal_best (Chapter.base c') = Some total
               ∧ LevelChapter.modified (Chapter.base c') = true)
            ∧ (Chapter.is_chapter_pb r = false →
               LevelChapter.personal_best (Chapter.base c')
               = LevelChapter.personal_best (Chapter.base c)
               ∧ LevelChapter._backup_pb (Chapter.base c')
                 = LevelChapter._backup_pb (Chapter.base c)
               ∧ LevelChapter.modified (Chapter.base c')
                 = LevelChapter.modified (Chapter.base c)))
       ∨ (Level.final l' && Chapter._valid_sequence c = false
          ∧ Chapter.is_chapter_session r = false
          ∧ Chapter.is_chapter_pb r = false
          ∧ Chapter.base c' = Chapter.base c)).
Proof.
  unfold Chapter.stop_timer.
  destruct (Chapter._current_level c) as [i|]; [| done].
  destruct (Chapter.levels c !! i) as [l|] eqn:Hl; [| done].
  destruct (Level.stop_timer l stop) as [e | [level_pb l']] eqn:Hstop; [done |].
  destruct (Level.final l' && Chapter._valid_sequence c) eqn:Hfinal.
  - set (total := timedelta_of_seconds_sum
                    (Chapter.live_session_times (<[i:=l']> _))).
    set (b1 := LevelChapter._set_diff _).
    destruct (is_session_pb_spec b1 total)
      as (chapter_pb & b2 & -> & Hiff & Hst & Hbs & Hd & _ & Hyes & Hno).
    { reflexivity. }
    intros [= <- <-]. simpl. exists l, l'.
    split_and!; try done. left.
    split_and!; try done. exists total.
    assert (LevelChapter.personal_best b1
            = LevelChapter.personal_best (Chapter.base c)) as Hpb
      by by destruct (Chapter.base c).
    rewrite Hpb in Hiff, Hyes.
    split_and!; try done.
    + rewrite Hd. subst b1. simpl.
      destruct (LevelChapter.personal_best (Chapter.base c)) as [p|];
        [destruct (total <? p) |]; done.
    + intros ->. rewrite (Hno eq_refl).
      split_and!; by destruct (Chapter.base c).
  - intros [= <- <-]. simpl. exists l, l'.
    split_and!; try done. by right.
Qed.

End TimerFacts.

Section Monotone.
Context `{!PyFloat}.

Lemma levels_never_worse_refl (ls : list Level.t) : levels_never_worse ls ls.
Proof. intros i l Hl. exists l. split; [done | apply never_worse_refl]. Qed.

Create HintDb pb.
#[local] Hint Resolve never_worse_refl levels_never_worse_refl : pb.

(** Nothing changed: both orders hold by reflexivity. *)
Ltac unchanged := split; auto with pb.

Lemma levels_never_worse_trans (a b c : list Level.t) :
  levels_never_worse a b → levels_never_worse b c → levels_never_worse a c.
Proof.
  intros Hab Hbc i l Hl.
  destruct (Hab i l Hl) as (l1 & Hl1 & H1).
  destruct (Hbc i l1 Hl1) as (l2 & Hl2 & H2).
  exists l2. split; [done | by eapply never_worse_trans].
Qed.

(** Replacing one level by a level that is no worse. *)
Lemma levels_never_worse_insert (ls : list Level.t) (i : nat) (l l' : Level.t) :
  ls !! i = Some l →
  never_worse (LevelChapter.personal_best (Level.base l))
              (LevelChapter.personal_best (Level.base l')) →
  levels_never_worse ls (<[i := l']> ls).
Proof.
  intros Hl Hworse j x Hx. destruct (decide (i = j)) as [<- | Hne].
  - exists l'. split.
    + apply list_lookup_insert_eq. by eapply lookup_lt_Some.
    + by simplify_eq.
  - exists x. rewrite list_lookup_insert_ne by done.
    split; [done | apply never_worse_refl].
Qed.

(** The level [_get_level] returns is the one at the position it returns. *)
Lemma get_level_lookup (c : Chapter.t) (code : string) (i : nat) (l : Level.t) :
  Chapter._get_level c code = inr (i, l) → Chapter.levels c !! i = Some l.
Proof.
  unfold Chapter._get_level. intros Hget.
  destruct (get_chapter_number_by_code code) as [| n]; [done |].
  simpl in Hget. destruct (negb _); [done |].
  destruct (py_index (split _ code) 1) as [| p]; [done |].
  simpl in Hget. destruct (py_int p) as [| k]; [done |].
  simpl in Hget. unfold py_index in Hget.
  destruct (py_position (Chapter.levels c) (k - 1)) as [| i']; [done |].
  simpl in Hget.
  destruct (Chapter.levels c !! i') as [l0|] eqn:Hl0; [| done].
  simpl in Hget. by injection Hget as <- <-.
Qed.

Lemma level_stop_timer_never_worse (l l' : Level.t) (stop : datetime)
    (is_pb : bool) :
  Level.stop_timer l stop = inr (is_pb, l') →
  never_worse (LevelChapter.personal_best (Level.base l))
              (LevelChapter.personal_best (Level.base l')).
Proof.
  intros Hstop. destruct (Level._race_start l) as [start|] eqn:Hstart.
  - destruct (level_stop_timer_spec l start stop Hstart)
      as (b & x & Heq & Hiff & _ & _ & _ & Hyes & Hno).
    rewrite Heq in Hstop. injection Hstop as -> ->.
    destruct is_pb.
    + destruct (Hyes eq_refl) as (_ & -> & _).
      destruct (proj1 Hiff eq_refl) as [Hnone | (p & Hp & Hlt)].
      * intros q Hq. congruence.
      * intros q Hq. exists (stop - start). split; [done |].
        rewrite Hp in Hq. injection Hq as <-. lia.
    + destruct (Hno eq_refl) as (-> & _). apply never_worse_refl.
  - unfold Level.stop_timer in Hstop. by rewrite Hstart in Hstop.
Qed.

Lemma level_apply_never_worse (l : Level.t) (call : level_call) :
  never_worse (LevelChapter.personal_best (Level.base l))
              (LevelChapter.personal_best (Level.base (level_apply l call))).
Proof.
  destruct call as [t | t |]; simpl.
  - apply never_worse_refl.
  - destruct (Level.stop_timer l t) as [e | [b l']] eqn:Hstop.
    + apply never_worse_refl.
    + by eapply level_stop_timer_never_worse.
  - unfold Level.abort_timer. destruct (Level._race_start l);
      apply never_worse_refl.
Qed.

Lemma level_run_never_worse (l : Level.t) (calls : list level_call) :
  never_worse (LevelChapter.personal_best (Level.base l))
              (LevelChapter.personal_best (Level.base (level_run l calls))).
Proof.
  revert l. induction calls as [| call rest IH]; intros l.
  - apply never_worse_refl.
  - eapply never_worse_trans; [apply level_apply_never_worse | apply IH].
Qed.

Lemma chapter_apply_never_worse (c : Chapter.t) (call : chapter_call) :
  never_worse (LevelChapter.personal_best (Chapter.base c))
    (LevelChapter.personal_best (Chapter.base (chapter_apply c call)))
  ∧ levels_never_worse (Chapter.levels c)
                       (Chapter.levels (chapter_apply c call)).
Proof.
  destruct call as [t code | t |]; simpl.
  - unfold Chapter.start_timer.
    destruct (Chapter._get_level c code) as [e | [i l]] eqn:Hget; simpl.
    + unchanged.
    + split; [apply never_worse_refl |].
      intros j x Hx. destruct (decide (i = j)) as [<- | Hne].
      * exists (Level.start_timer l t). split.
        -- apply list_lookup_insert_eq. by eapply lookup_lt_Some.
        -- apply get_level_lookup in Hget. rewrite Hx in Hget.
           injection Hget as <-. apply never_worse_refl.
      * exists x. rewrite list_lookup_insert_ne by done.
        split; [done | apply never_worse_refl].
  - destruct (Chapter.stop_timer c t) as [[e | r] c'] eqn:Hstop; simpl.
    + destruct (chapter_stop_timer_raises _ _ _ _ Hstop) as (-> & -> & _).
      unchanged.
    + destruct (chapter_stop_timer_returns _ _ _ _ Hstop)
        as (l & l' & _ & Hl & Hlevel & -> & _ & _ & _ & Hbase).
      split.
      * destruct Hbase as [(_ & _ & total & _ & _ & _ & _ & Hiff & Hyes & Hno)
                          | (_ & _ & _ & ->)]; [| apply never_worse_refl].
        destruct (Chapter.is_chapter_pb r).
        -- destruct (Hyes eq_refl) as (_ & -> & _).
           destruct (proj1 Hiff eq_refl) as [Hnone | (p & Hp & Hlt)].
           ++ intros q Hq. congruence.
           ++ intros q Hq. exists total. split; [done |].
              rewrite Hp in Hq. injection Hq as <-. lia.
        -- destruct (Hno eq_refl) as (-> & _). apply never_worse_refl.
      * eapply levels_never_worse_insert; [done |].
        by eapply level_stop_timer_never_worse.
  - unfold Chapter.abort_timer.
    destruct (Chapter._current_level c) as [i|]; simpl;
      [| unchanged].
    destruct (Chapter.levels c !! i) as [l|] eqn:Hl; simpl;
      [| unchanged].
    unfold Level.abort_timer. destruct (Level._race_start l); simpl.
    + split; [apply never_worse_refl |].
      eapply levels_never_worse_insert; [done | apply never_worse_refl].
    + unchanged.
Qed.

Lemma chapter_run_never_worse (c : Chapter.t) (calls : list chapter_call) :
  never_worse (LevelChapter.personal_best (Chapter.base c))
    (LevelChapter.personal_best (Chapter.base (chapter_run c calls)))
  ∧ levels_never_worse (Chapter.levels c)
                       (Chapter.levels (chapter_run c calls)).
Proof.
  revert c. induction calls as [| call rest IH]; intros c.
  - unchanged.
  - destruct (chapter_apply_never_worse c call) as [Hb Hl].
    destruct (IH (chapter_apply c call)) as [Hb' Hl'].
    split; [by eapply never_worse_trans | by eapply levels_never_worse_trans].
Qed.

End Monotone.

Section PersonalBest.
Context `{!PyFloat}.

(** C4.  The personal best rule.  A level whose timer runs reports a
    personal best iff it had none or the new session time is less than it;
    the chapter total, when one is produced, is judged by the same rule.  On
    a personal best the old one goes to the backup slot, the session time
    takes its place and [modified] is set; otherwise all three are kept.
    Hence along any sequence of timer calls, on a level or on a chapter, a
    personal best once recorded is never followed by a longer one. *)
Theorem personal_best_rule :
  (∀ (l : Level.t) (start stop : datetime),
     Level._race_start l = Some start →
     ∃ is_pb l',
       Level.stop_timer l stop = inr (is_pb, l')
       ∧ (is_pb = true ↔
          is_personal_best (LevelChapter.personal_best (Level.base l))
                           (stop - start))
       ∧ LevelChapter.session_time (Level.base l') = Some (stop - start)
       ∧ (is_pb = true →
          LevelChapter._backup_pb (Level.base l')
          = LevelChapter.personal_best (Level.base l)
          ∧ LevelChapter.personal_best (Level.base l') = Some (stop - start)
          ∧ LevelChapter.modified (Level.base l') = true)
       ∧ (is_pb = false →
          LevelChapter.personal_best (Level.base l')
          = LevelChapter.personal_best (Level.base l)
          ∧ LevelChapter._backup_pb (Level.base l')
            = LevelChapter._backup_pb (Level.base l)
          ∧ LevelChapter.modified (Level.base l')
            = LevelChapter.modified (Level.base l)))
  ∧ (∀ (c c' : Chapter.t) (stop : datetime) (r : Chapter.stop_result),
       Chapter.stop_timer c stop = (inr r, c') →
       Chapter.is_chapter_session r = true →
       ∃ total,
         LevelChapter.session_time (Chapter.base c') = Some total
         ∧ (Chapter.is_chapter_pb r = true ↔
            is_personal_best (LevelChapter.personal_best (Chapter.base c))
                             total)
         ∧ (Chapter.is_chapter_pb r = true →
            LevelChapter._backup_pb (Chapter.base c')
            = LevelChapter.personal_best (Chapter.base c)
            ∧ LevelChapter.personal_best (Chapter.base c') = Some total
            ∧ LevelChapter.modified (Chapter.base c') = true)
         ∧ (Chapter.is_chapter_pb r = false →
            LevelChapter.personal_best (Chapter.base c')
            = LevelChapter.personal_best (Chapter.base c)
            ∧ LevelChapter._backup_pb (Chapter.base c')
              = LevelChapter._backup_pb (Chapter.base c)
            ∧ LevelChapter.modified (Chapter.base c')
              = LevelChapter.modified (Chapter.base c)))
  ∧ (∀ (l : Level.t) (before after : list level_call),
       never_worse
         (LevelChapter.personal_best (Level.base (level_run l before)))
         (LevelChapter.personal_best
            (Level.base (level_run l (before ++ after)))))
  ∧ (∀ (c : Chapter.t) (before after : list chapter_call),
       never_worse
         (LevelChapter.personal_best (Chapter.base (chapter_run c before)))
         (LevelChapter.personal_best
            (Chapter.base (chapter_run c (before ++ after))))
       ∧ levels_never_worse
           (Chapter.levels (chapter_run c before))
           (Chapter.levels (chapter_run c (before ++ after)))).
Proof.
  split_and!.
  - intros l start stop Hstart.
    destruct (level_stop_timer_spec l start stop Hstart)
      as (is_pb & l' & Heq & Hiff & Hst & _ & _ & Hyes & Hno).
    by exists is_pb, l'.
  - intros c c' stop r Hstop Hsession.
    destruct (chapter_stop_timer_returns _ _ _ _ Hstop)
      as (l & l' & _ & _ & _ & _ & _ & _ & _ & Hbase).
    destruct Hbase as [(_ & _ & total & _ & Hst & _ & _ & Hiff & Hyes & Hno)
                      | (_ & Hno & _)]; [| congruence].
    by exists total.
  - intros l before after. unfold level_run. rewrite foldl_app.
    apply level_run_never_worse.
  - intros c before after. unfold chapter_run. rewrite foldl_app.
    apply chapter_run_never_worse.
Qed.

End PersonalBest.

Section ChapterFacts.
Context `{!PyFloat}.

(** Leaving out the levels whose session time is None or zero does not
    change the sum. *)
Lemma live_session_times_sum (ls : list Level.t) :
  foldr Z.add 0 (Chapter.live_session_times ls) = total_session_time ls.
Proof.
  induction ls as [| l rest IH]; [done |].
  unfold Chapter.live_session_times, total_session_time in *. simpl.
  destruct (LevelChapter.session_time (Level.base l)) as [v|]; simpl.
  - unfold truthy. destruct (Z.eqb_spec v 0) as [-> | Hv]; simpl.
    + apply IH.
    + f_equal. apply IH.
  - apply IH.
Qed.



(** What [Chapter.start_timer] does when the lookup of the level succeeds. *)
Lemma chapter_start_timer_returns (c c' : Chapter.t) (t : datetime)
    (code : string) (i : nat) :
  Chapter.start_timer c t code = (inr i, c') →
  ∃ l0,
    Chapter._get_level c code = inr (i, l0)
    ∧ Chapter.levels c' !! i = Some (Level.start_timer l0 t)
    ∧ Chapter._current_level c' = Some i
    ∧ Chapter._valid_sequence c'
      = Chapter.next_valid_sequence c (Level.start_timer l0 t)
    ∧ Chapter._previous_level c'
      = (if Level.level_number l0 =? 1 then None
         else Chapter._previous_level c).
Proof.
  unfold Chapter.start_timer.
  destruct (Chapter._get_level c code) as [e | [j l0]] eqn:Hget; [done |].
  intros [= <- <-]. exists l0. simpl. split_and!; try done.
  apply list_lookup_insert_eq. apply get_level_lookup in Hget.
  by eapply lookup_lt_Some.
Qed.




End ChapterFacts.

Section ChapterTotal.
Variable v : summation.
Variable pretty : timedelta → string.


End ChapterTotal.

Section DecoderFacts.
Import DoomRunner.

(** C2, amended.  After a header, a line that is not blank, not the secret
    message and does not split into a code and a name emits nothing and
    leaves the state as it is: the decoder stays after the header and tries
    the next line.  It leaves that state only on the secret message or on a
    line that splits into a code and a name. *)
Theorem malformed_announcement_keeps_state (st : state) (line : string) :
  header_found st = true →
  (line ≠ blank_line →
   line ≠ secret_line →
   (∀ code name, announcement line ≠ inr (code, name)) →
   step st line = (st, []))
  ∧ (header_found (fst (step st line)) = false ↔
     line ≠ blank_line
     ∧ (line = secret_line
        ∨ ∃ code name, announcement line = inr (code, name))).
Proof.
  intros Hh. unfold step. rewrite Hh.
  destruct (String.eqb_spec line blank_line) as [-> | Hblank].
  { split; [done |]. simpl. rewrite Hh. split; [done | by intros [? _]]. }
  destruct (String.eqb_spec line secret_line) as [-> | Hsecret].
  { split; [done |]. simpl. split; [| done]. intros _. split; [done | by left]. }
  destruct (announcement line) as [e | [code name]] eqn:Ha.
  - split; [done |]. simpl. rewrite Hh. split; [done |].
    intros (_ & [? | (code & name & ?)]); done.
  - split.
    + intros _ _ Hno. by destruct (Hno code name).
    + simpl. split; [| done]. intros _. split; [done |].
      right. by exists code, name.
Qed.

(** C9, amended.  On the secret scenario the decoder emits no signal at
    all between the start and the exit of gzdoom: the header that follows
    the secret message emits nothing and is used up, so the blank line and
    the announcement after it are read without a header before them.  With
    the header of the announcement in place, exactly one level start is
    emitted, for E1M9. *)
Theorem secret_scenario_signals :
  run secret_scenario = [gzdoom_started; gzdoom_quit]
  ∧ step (fst (decode initial [header_line; secret_line])) header_line
    = (initial, [])
  ∧ run secret_then_level
    = [gzdoom_started; level_started "E1M9" "Military Base"; gzdoom_quit].
Proof. by vm_compute. Qed.

End DecoderFacts.

Section SaveFacts.
Context {G : Type} `{!EqDecision G}.







End SaveFacts.

Section PersistenceFacts.

(** C1.  A first run in which E1M1 is finished in 12.5 seconds on Hurt Me
    Plenty: the database holds the personal best and [save] writes it, but
    the database that [RecordHolder.__init__] builds from the file has no
    personal best for that level. *)
Theorem round_trip_loses_personal_best :
  personal_best_at played_db "Any%" "Hurt Me Plenty" "Knee-Deep In The Dead" 0
  = inr (Some 12500000)
  ∧ written_chapters played_file "Any%" "Hurt Me Plenty"
    = Some [ {| Chapter.s_chapter_number := 1;
                Chapter.s_pb_seconds := None;
                Chapter.s_pb_microseconds := None;
                Chapter.s_levels :=
                  [ {| Level.s_code := "E1M1";
                       Level.s_pb_seconds := 12;
                       Level.s_pb_microseconds := 500000 |} ] |} ]
  ∧ (λ r, d ← r;
          personal_best_at d "Any%" "Hurt Me Plenty" "Knee-Deep In The Dead" 0)
      <$> reloaded_db
    = Some (inr None).
Proof. by vm_compute. Qed.

(** The same level finished on two difficulties: [save] assigns the dict
    of the category again for the second difficulty, and the file holds the
    later one only. *)
Lemma save_keeps_one_difficulty :
  personal_best_at played_twice_db "Any%" "I'm Too Young To Die"
                   "Knee-Deep In The Dead" 0
  = inr (Some 12500000)
  ∧ written_chapters played_twice_file "Any%" "I'm Too Young To Die" = Some []
  ∧ length <$> written_chapters played_twice_file "Any%" "Hurt Me Plenty"
    = Some 1%nat.
Proof. by vm_compute. Qed.

(** A personal best on MAP05 alone: the blank levels of the reloaded
    chapter are named after the loop variable, and the chapter ends up with
    twice its levels, row 4 (where MAP05 is looked up) blank and the record
    in row 36. *)
Lemma doom2_reload_misplaces_the_record :
  match doom2_reloaded with
  | inr rows =>
      length rows = 64%nat
      ∧ rows !! 4%nat = Some ("MAP04", None)
      ∧ rows !! 36%nat = Some ("MAP05", Some 12500000)
  | inl _ => False
  end.
Proof. by vm_compute. Qed.


End PersistenceFacts.

(** * The theorems at work on the example states *)

(** Replaces the two components of the pair in [Heq] by their values. *)
Ltac evaluate Heq :=
  let Hvalue := fresh "Hvalue" in
  pose proof Heq as Hvalue; vm_compute in Hvalue; injection Hvalue as <- <-.

(** A line of garbage right after a header: nothing is emitted and the
    decoder is still after the header. *)
Lemma malformed_line_stays_after_header :
  let st := fst (DoomRunner.decode DoomRunner.initial [DoomRunner.header_line]) in
  let line := "garbage" +:+ DoomRunner.newline in
  DoomRunner.header_found st = true
  ∧ line ≠ DoomRunner.blank_line
  ∧ line ≠ DoomRunner.secret_line
  ∧ DoomRunner.announcement line = inl ValueError
  ∧ snd (DoomRunner.step st line) = []
  ∧ DoomRunner.header_found (fst (DoomRunner.step st line)) ≠ false.
Proof. by vm_compute. Qed.

(** The same line through the theorem, and the secret message, which does
    leave the state after the header. *)
Lemma malformed_announcement_keeps_state_witness :
  let st := fst (DoomRunner.decode DoomRunner.initial [DoomRunner.header_line]) in
  let line := "garbage" +:+ DoomRunner.newline in
  DoomRunner.step st line = (st, [])
  ∧ DoomRunner.header_found (fst (DoomRunner.step st DoomRunner.secret_line))
    = false.
Proof.
  intros st line.
  destruct (malformed_announcement_keeps_state st line eq_refl) as [Hkeep _].
  destruct (malformed_announcement_keeps_state st DoomRunner.secret_line eq_refl)
    as [_ Hleave].
  split.
  - apply Hkeep.
    + vm_compute. discriminate.
    + vm_compute. discriminate.
    + intros code name. vm_compute. discriminate.
  - apply Hleave. split.
    + vm_compute. discriminate.
    + left. reflexivity.
Defined.

(** The number of level starts emitted on the secret scenario is not one. *)
Lemma secret_scenario_no_level_start :
  length (List.filter DoomRunner.is_level_started
                      (DoomRunner.run secret_scenario)) ≠ 1%nat.
Proof. by vm_compute. Qed.

(** A level timed at five seconds whose session time was deleted has no
    live session time; delete followed by revert brings the five seconds
    back, so the pair is not a no-op. *)
Lemma delete_then_revert_brings_backup_back :
  let s :=
    LevelChapter.delete_session_time
      (Level.base (@level_run exact_float started_level [LStop 5000000])) in
  LevelChapter.session_time s = None
  ∧ LevelChapter.session_time
      (@LevelChapter.revert_session_time exact_float
         (LevelChapter.delete_session_time s))
    = Some 5000000
  ∧ @LevelChapter.revert_session_time exact_float
      (LevelChapter.delete_session_time s) ≠ s.
Proof.
  intros s. split_and!; [reflexivity | reflexivity |].
  intros Heq. apply (f_equal LevelChapter.session_time) in Heq.
  vm_compute in Heq. discriminate.
Qed.

(** Delete followed by revert on a level timed at five seconds, and on a
    blank level. *)
Lemma delete_then_revert_witness :
  let s := Level.base (@level_run exact_float started_level [LStop 5000000]) in
  let s0 := Level.base blank_level in
  LevelChapter.session_time
    (@LevelChapter.revert_session_time exact_float
       (LevelChapter.delete_session_time s)) = Some 5000000
  ∧ LevelChapter.personal_best
      (@LevelChapter.revert_personal_best exact_float
         (LevelChapter.delete_personal_best s)) = Some 5000000
  ∧ @LevelChapter.revert_session_time exact_float
      (LevelChapter.delete_session_time s0) = s0
  ∧ @LevelChapter.revert_personal_best exact_float
      (LevelChapter.delete_personal_best s0) = s0.
Proof.
  intros s s0.
  destruct (@delete_then_revert exact_float s) as (Hs & Hp & _ & _).
  destruct (@delete_then_revert exact_float s0) as (_ & _ & Hs0 & Hp0).
  split_and!.
  - apply (Hs 5000000); [reflexivity | discriminate].
  - apply (Hp 5000000); [reflexivity | discriminate].
  - apply Hs0; reflexivity.
  - apply Hp0; reflexivity.
Defined.

(** A first time of five seconds on a level, the first chapter finished in
    eighty seconds, and later calls that do not make either worse. *)
Lemma personal_best_rule_witness :
  (∃ l', @Level.stop_timer exact_float started_level 5000000 = inr (true, l')
         ∧ LevelChapter.personal_best (Level.base l') = Some 5000000)
  ∧ (∃ r c',
       @Chapter.stop_timer exact_float chapter_on_final_level 87000000
       = (inr r, c')
       ∧ Chapter.is_chapter_pb r = true
       ∧ LevelChapter.personal_best (Chapter.base c') = Some 80000000)
  ∧ (∃ q, LevelChapter.personal_best
            (Level.base
               (@level_run exact_float started_level
                  ([LStop 5000000] ++ [LStart 6000000; LStop 9000000])))
          = Some q
          ∧ q <= 5000000)
  ∧ (∃ q, LevelChapter.personal_best
            (Chapter.base
               (@chapter_run exact_float chapter_on_final_level
                  ([CStop 87000000]
                   ++ [CStart 90000000 "E1M1"; CStop 95000000])))
          = Some q
          ∧ q <= 80000000).
Proof.
  destruct (@personal_best_rule exact_float) as (Hlevel & Hchapter & Hl & Hc).
  split_and!.
  - destruct (Hlevel started_level 0 5000000 eq_refl)
      as (is_pb & l' & Heq & Hiff & _ & Hyes & _).
    assert (is_pb = true) as -> by (apply Hiff; by left).
    exists l'. split; [exact Heq |]. by destruct (Hyes eq_refl) as (_ & ? & _).
  - destruct (@Chapter.stop_timer exact_float chapter_on_final_level 87000000)
      as [res c'] eqn:Hstop.
    evaluate Hstop.
    destruct (Hchapter _ _ _ _ Hstop eq_refl) as (total & Hst & Hiff & Hyes & _).
    vm_compute in Hst. injection Hst as <-.
    eexists _, _. split; [exact Hstop |].
    assert (Chapter.is_chapter_pb
              {| Chapter.level := 7; Chapter.is_level_pb := true;
                 Chapter.is_chapter_session := true;
                 Chapter.is_chapter_pb := true |} = true) as Hpb
      by (apply Hiff; by left).
    split; [exact Hpb |]. by destruct (Hyes Hpb) as (_ & ? & _).
  - apply (Hl started_level [LStop 5000000] [LStart 6000000; LStop 9000000]).
    reflexivity.
  - apply (Hc chapter_on_final_level [CStop 87000000]
              [CStart 90000000 "E1M1"; CStop 95000000]).
    reflexivity.
Defined.




(** * Further properties of the source *)

Section UndoFacts.
Context `{!PyFloat}.
Import LevelChapter.

Lemma set_diff_is_diff_of (s : t) :
  diff (_set_diff s) = diff_of (session_time s) (personal_best s).
Proof.
  destruct s as [st pb d m o bp bs]; unfold diff_of; simpl.
  destruct st as [v|], pb as [p|]; try done. by destruct (v <? p).
Qed.

(** X1.  Revert is a swap: two reverts put the live value and the backup
    back, three are one.  The whole state is back after two reverts as soon
    as its diff was the one of its two times (and, for the personal best,
    [modified] told whether it differs from the loaded one), which is how
    every revert leaves it. *)
Theorem revert_twice (s : t) :
  (session_time (revert_session_time (revert_session_time s)) = session_time s
   ∧ _backup_session_time (revert_session_time (revert_session_time s))
     = _backup_session_time s
   ∧ revert_session_time (revert_session_time (revert_session_time s))
     = revert_session_time s)
  ∧ (personal_best (revert_personal_best (revert_personal_best s))
     = personal_best s
     ∧ _backup_pb (revert_personal_best (revert_personal_best s))
       = _backup_pb s
     ∧ revert_personal_best (revert_personal_best (revert_personal_best s))
       = revert_personal_best s)
  ∧ (diff s = diff_of (session_time s) (personal_best s) →
     revert_session_time (revert_session_time s) = s)
  ∧ (diff s = diff_of (session_time s) (personal_best s) →
     modified s = bool_decide (personal_best s ≠ _orig_pb s) →
     revert_personal_best (revert_personal_best s) = s).
Proof.
  destruct s as [st pb d m o bp bs].
  split_and!; try reflexivity.
  - cbn [session_time personal_best diff]. intros ->.
    unfold revert_session_time; cbn [session_time personal_best diff modified
      _orig_pb _backup_pb _backup_session_time].
    unfold _set_diff; cbn [session_time personal_best diff modified
      _orig_pb _backup_pb _backup_session_time].
    f_equal. unfold diff_of. destruct st as [v|], pb as [p|]; try done.
    by destruct (v <? p).
  - cbn [session_time personal_best diff modified _orig_pb]. intros -> ->.
    unfold revert_personal_best; cbn [session_time personal_best diff modified
      _orig_pb _backup_pb _backup_session_time].
    unfold _set_diff; cbn [session_time personal_best diff modified
      _orig_pb _backup_pb _backup_session_time].
    f_equal.
    + unfold diff_of. destruct st as [v|], pb as [p|]; try done.
      by destruct (v <? p).
    + by repeat case_decide.
Qed.

(** X2.  After either revert the diff is the one of the session time and
    the personal best that are now live; the two deletes leave the diff as
    it was, also when it was computed from the value they remove. *)
Theorem diff_after_undo (s : t) :
  diff (revert_session_time s)
  = diff_of (session_time (revert_session_time s))
            (personal_best (revert_session_time s))
  ∧ diff (revert_personal_best s)
    = diff_of (session_time (revert_personal_best s))
              (personal_best (revert_personal_best s))
  ∧ diff (delete_session_time s) = diff s
  ∧ diff (delete_personal_best s) = diff s
  ∧ (modified (revert_personal_best s) = true ↔
     personal_best (revert_personal_best s) ≠ _orig_pb s).
Proof.
  split_and!.
  - unfold revert_session_time. rewrite set_diff_is_diff_of.
    by destruct s.
  - unfold revert_personal_best. rewrite set_diff_is_diff_of.
    by destruct s.
  - unfold delete_session_time. by destruct (truthy _).
  - unfold delete_personal_best. by destruct (truthy _).
  - destruct s as [st pb d m o bp bs]; simpl. case_decide; split; congruence.
Qed.

End UndoFacts.

Section LevelFacts.
Context `{!PyFloat}.

Lemma same_identity_refl (l : Level.t) : same_identity l l.
Proof. by repeat split. Qed.

Lemma same_identity_trans (a b c : Level.t) :
  same_identity a b → same_identity b c → same_identity a c.
Proof.
  unfold same_identity. intros (? & ? & ? & ? & ? & ? & ? & ?)
    (? & ? & ? & ? & ? & ? & ? & ?). split_and!; congruence.
Qed.

(** [Level.stop_timer] with everything it leaves behind. *)
Lemma level_stop_timer_effects (l : Level.t) (start stop : datetime) :
  Level._race_start l = Some start →
  ∃ is_pb l',
    Level.stop_timer l stop = inr (is_pb, l')
    ∧ same_identity l l'
    ∧ Level._race_start l' = None
    ∧ LevelChapter.session_time (Level.base l') = Some (stop - start)
    ∧ LevelChapter._backup_session_time (Level.base l')
      = LevelChapter.session_time (Level.base l)
    ∧ LevelChapter.diff (Level.base l')
      = diff_of (Some (stop - start))
                (LevelChapter.personal_best (Level.base l))
    ∧ LevelChapter._orig_pb (Level.base l')
      = LevelChapter._orig_pb (Level.base l).
Proof.
  intros Hstart. unfold Level.stop_timer. rewrite Hstart.
  set (b1 := LevelChapter._set_diff _).
  destruct (is_session_pb_spec b1 (stop - start))
    as (is_pb & b2 & Heq & _ & Hst & Hbs & Hd & Ho & _); [done |].
  rewrite Heq. eexists is_pb, _. split; [reflexivity |].
  unfold same_identity. split_and!; try done.
  cbn [Level.base Level.with_race_start Level.with_base].
  rewrite Hd. unfold b1. by rewrite set_diff_is_diff_of.
Qed.

(** X3.  The timer of a level.  [stop_timer] and [abort_timer] succeed
    exactly when a timer was started and raise RuntimeError otherwise,
    changing nothing; either of them uses the timer up, so a second stop or
    abort raises; a second [start_timer] replaces the first, and the time is
    measured from it. *)
Theorem level_timer_protocol (l : Level.t) (t : datetime) :
  (is_ok (Level.stop_timer l t) = true ↔ Level._race_start l ≠ None)
  ∧ (is_ok (Level.abort_timer l) = true ↔ Level._race_start l ≠ None)
  ∧ (Level._race_start l = None →
     Level.stop_timer l t = inl RuntimeError
     ∧ Level.abort_timer l = inl RuntimeError)
  ∧ (∀ is_pb l' t', Level.stop_timer l t = inr (is_pb, l') →
       Level.stop_timer l' t' = inl RuntimeError
       ∧ Level.abort_timer l' = inl RuntimeError)
  ∧ (∀ l' t', Level.abort_timer l = inr l' →
       Level.base l' = Level.base l
       ∧ same_identity l l'
       ∧ Level.stop_timer l' t' = inl RuntimeError
       ∧ Level.abort_timer l' = inl RuntimeError)
  ∧ (∀ t1 t2, ∃ is_pb l',
       Level.stop_timer (Level.start_timer (Level.start_timer l t1) t2) t
       = inr (is_pb, l')
       ∧ LevelChapter.session_time (Level.base l') = Some (t - t2)).
Proof.
  split_and!.
  - destruct (Level._race_start l) as [start|] eqn:Hstart.
    + destruct (level_stop_timer_spec l start t Hstart) as (b & l' & -> & _).
      done.
    + unfold Level.stop_timer. rewrite Hstart. done.
  - unfold Level.abort_timer. by destruct (Level._race_start l).
  - intros Hnone. unfold Level.stop_timer, Level.abort_timer.
    by rewrite Hnone.
  - intros is_pb l' t' Hstop.
    destruct (Level._race_start l) as [start|] eqn:Hstart.
    + destruct (level_stop_timer_spec l start t Hstart)
        as (b & x & Heq & _ & _ & _ & Hnone & _).
      rewrite Heq in Hstop. injection Hstop as -> ->.
      unfold Level.stop_timer, Level.abort_timer. by rewrite Hnone.
    + unfold Level.stop_timer in Hstop. by rewrite Hstart in Hstop.
  - intros l' t'. unfold Level.abort_timer at 1.
    destruct (Level._race_start l); [| done]. intros [= <-].
    by split_and!.
  - intros t1 t2.
    destruct (level_stop_timer_spec
                (Level.start_timer (Level.start_timer l t1) t2) t2 t eq_refl)
      as (b & l' & Heq & _ & Hst & _).
    by exists b, l'.
Qed.

(** X4.  What [Level.stop_timer] leaves behind besides the personal best:
    the code, the numbers and the secret links of the level are untouched,
    the former session time is in the backup slot, the diff is the one of
    the new session time against the personal best that stood before the
    call, and the personal best that was loaded is kept. *)
Theorem level_stop_timer_leaves (l : Level.t) (start stop : datetime) :
  Level._race_start l = Some start →
  ∃ is_pb l',
    Level.stop_timer l stop = inr (is_pb, l')
    ∧ same_identity l l'
    ∧ LevelChapter._backup_session_time (Level.base l')
      = LevelChapter.session_time (Level.base l)
    ∧ LevelChapter.diff (Level.base l')
      = diff_of (Some (stop - start))
                (LevelChapter.personal_best (Level.base l))
    ∧ LevelChapter._orig_pb (Level.base l')
      = LevelChapter._orig_pb (Level.base l).
Proof.
  intros Hstart.
  destruct (level_stop_timer_effects l start stop Hstart)
    as (is_pb & l' & Heq & Hid & _ & _ & Hbs & Hd & Ho).
  by exists is_pb, l'.
Qed.

End LevelFacts.

Section LevelConstruction.
Context `{!PyFloat}.

Lemma prefix_char (x : ascii) (s : string) :
  String.prefix (String x EmptyString) s = true ↔ ∃ rest, s = String x rest.
Proof.
  destruct s as [| a rest]; cbn [String.prefix].
  - split; [done | by intros [? ?]].
  - destruct (ascii_dec x a) as [<- | Hne].
    + split; [by exists rest | by destruct rest].
    + split; [done | intros [? [= <- _]]; done].
Qed.

(** The personal best is the only thing the result of [Level.__init__]
    takes from its second argument. *)
Lemma level_init_factors (code : string) (pb : option timedelta) :
  match Level.__init__ code None with
  | inr l0 =>
      Level.__init__ code pb
      = inr (Level.with_base l0 (LevelChapter.__init__ pb))
      ∧ Level.code l0 = code
      ∧ Level._race_start l0 = None
      ∧ (String.prefix "E" code = true ∨ String.prefix "M" code = true)
      ∧ (String.prefix "M" code = true → Level.chapter_number l0 = 5)
  | inl e => Level.__init__ code pb = inl e
  end.
Proof.
  unfold Level.__init__.
  destruct (get_chapter_name_by_code code) as [| chapter_name]; [done |].
  destruct (str_at code 0) as [| c0] eqn:Hc0; [done |].
  cbn [mbind result_bind].
  assert (∀ x, c0 = String x EmptyString →
               String.prefix (String x "") code = true) as Hprefix.
  { intros x ->. apply prefix_char. unfold str_at in Hc0.
    destruct code as [| a rest]; [done |].
    cbn [str_from] in Hc0. injection Hc0 as -> _. by exists rest. }
  destruct (String.eqb_spec c0 "E") as [HE | HE];
    [| destruct (String.eqb_spec c0 "M") as [HM | HM]]; [| | done].
  - destruct (str_at code 1 ≫= py_int) as [| cn]; [done |].
    cbn [mbind result_bind].
    destruct (str_at code 3 ≫= py_int) as [| ln]; [done |].
    cbn [mbind result_bind].
    destruct (py_index Level._doom1_secret_exits (cn - 1)) as [| ex]; [done |].
    cbn [mbind result_bind mret result_ret].
    destruct (py_index Level._level_names (cn - 1)) as [| names]; [done |].
    cbn [mbind result_bind].
    destruct (py_index names (ln - 1)) as [| name]; [done |].
    cbn [mbind result_bind mret result_ret Level.code Level._race_start
         Level.chapter_number].
    split_and!; try done.
    + left. by apply Hprefix.
    + intros [? ->]%prefix_char.
      by destruct (proj1 (prefix_char _ _) (Hprefix "E"%char HE)).
  - destruct (py_int (str_from 3 code)) as [| ln]; [done |].
    cbn [mbind result_bind mret result_ret].
    destruct (py_index Level._level_names (5 - 1)) as [| names]; [done |].
    cbn [mbind result_bind].
    destruct (py_index names (ln - 1)) as [| name]; [done |].
    cbn [mbind result_bind mret result_ret Level.code Level._race_start
         Level.chapter_number].
    split_and!; try done. right. by apply Hprefix.
Qed.

(** X5.  What [Level.__init__] builds.  When it returns, the code starts
    with E or M (M meaning chapter 5), the level holds the code it was given
    and the personal best it was given, both as the live and as the loaded
    value, and nothing else: no session time, no diff, no backup, not
    modified, no timer.  A code shorter than two bytes raises IndexError. *)
Theorem level_init_result (code : string) (pb : option timedelta) :
  (∀ l, Level.__init__ code pb = inr l →
     Level.code l = code
     ∧ LevelChapter.personal_best (Level.base l) = pb
     ∧ LevelChapter._orig_pb (Level.base l) = pb
     ∧ LevelChapter.session_time (Level.base l) = None
     ∧ LevelChapter.diff (Level.base l) = None
     ∧ LevelChapter._backup_pb (Level.base l) = None
     ∧ LevelChapter._backup_session_time (Level.base l) = None
     ∧ LevelChapter.modified (Level.base l) = false
     ∧ Level._race_start l = None
     ∧ (String.prefix "E" code = true ∨ String.prefix "M" code = true)
     ∧ (String.prefix "M" code = true → Level.chapter_number l = 5))
  ∧ ((String.length code < 2)%nat →
     Level.__init__ code pb = inl IndexError).
Proof.
  split.
  - intros l Hl. pose proof (level_init_factors code pb) as Hf.
    destruct (Level.__init__ code None) as [e | l0]; [congruence |].
    destruct Hf as (Heq & Hcode & Hrace & Hprefix & Hfive).
    rewrite Heq in Hl. injection Hl as <-. by split_and!.
  - intros Hshort. unfold Level.__init__, get_chapter_name_by_code, str_at.
    destruct code as [| a [| b rest]]; simpl in *; [done | done | lia].
Qed.

Lemma one_day_split (p : timedelta) :
  timedelta_of (td_seconds p) (td_microseconds p) = p mod one_day.
Proof.
  unfold timedelta_of, td_seconds, td_microseconds, one_day.
  change 86400000000 with (1000000 * 86400).
  rewrite Z.rem_mul_r by lia. lia.
Qed.

(** X6.  A level that is saved and read back.  For a level with the
    identity that [Level.__init__] gave it and a personal best [p], in any
    state otherwise, [serialize] writes its code and [p] without its days,
    and [Level.__init__] on what was written builds the same level, blank
    but for the personal best [p mod one_day]: the personal best comes back
    as it was exactly when it is at least zero and less than one day. *)
Theorem level_saved_and_read_back (code : string) (pb0 : option timedelta)
    (l0 : Level.t) (b : LevelChapter.t) (p : timedelta) :
  Level.__init__ code pb0 = inr l0 →
  LevelChapter.personal_best b = Some p →
  ∃ saved,
    Level.serialize (Level.with_base l0 b) = inr saved
    ∧ Level.s_code saved = code
    ∧ RecordHolder.level_personal_best saved = p mod one_day
    ∧ Level.__init__ (Level.s_code saved)
                     (Some (RecordHolder.level_personal_best saved))
      = inr (Level.with_base l0
               (LevelChapter.__init__ (Some (p mod one_day))))
    ∧ (p mod one_day = p ↔ 0 <= p < one_day).
Proof.
  intros Hinit Hp.
  pose proof (level_init_factors code pb0) as Hf0.
  pose proof (level_init_factors code (Some (p mod one_day))) as Hf1.
  destruct (Level.__init__ code None) as [e | l1]; [congruence |].
  destruct Hf0 as (Heq0 & Hcode & _). destruct Hf1 as (Heq1 & _).
  rewrite Heq0 in Hinit. injection Hinit as <-.
  unfold Level.serialize. simpl. rewrite Hp. eexists. split; [reflexivity |].
  unfold RecordHolder.level_personal_best. simpl.
  rewrite one_day_split, Hcode. split_and!; try done.
  split.
  - intros <-. apply Z.mod_pos_bound. by unfold one_day.
  - apply Z.mod_small.
Qed.

End LevelConstruction.

Section ChapterSerialize.
Context `{!PyFloat}.

Lemma levels_serialize_values (ls : list Level.t) :
  Forall (λ l, LevelChapter.personal_best (Level.base l) ≠ None) ls →
  ∃ out,
    mapM Level.serialize ls = inr out
    ∧ map Level.s_code out = map Level.code ls
    ∧ map RecordHolder.level_personal_best out
      = map (λ l, default 0 (LevelChapter.personal_best (Level.base l))
                  mod one_day) ls.
Proof.
  induction 1 as [| l rest Hl _ (out & IH & Hcodes & Hpbs)]; [by exists [] |].
  change (mapM Level.serialize (l :: rest))
    with (y ← Level.serialize l; k ← mapM Level.serialize rest; mret (y :: k)).
  rewrite IH. unfold Level.serialize.
  destruct (LevelChapter.personal_best (Level.base l)) as [p|] eqn:Hp;
    [| done].
  eexists. split; [reflexivity |]. simpl. rewrite Hcodes, Hpbs, Hp.
  split; [done |]. f_equal. apply one_day_split.
Qed.

Lemma with_personal_best_present (ls : list Level.t) :
  Forall (λ l, LevelChapter.personal_best (Level.base l) ≠ None)
         (with_personal_best ls).
Proof.
  apply List.Forall_forall. intros l [_ Hl]%List.filter_In.
  by destruct (LevelChapter.personal_best (Level.base l)).
Qed.

Lemma with_personal_best_nil (ls : list Level.t) :
  with_personal_best ls = []
  ↔ Forall (λ l, truthy (LevelChapter.personal_best (Level.base l)) = false) ls.
Proof.
  unfold with_personal_best. induction ls as [| l rest IH]; simpl.
  - split; [constructor | done].
  - destruct (truthy _) eqn:Ht.
    + split; [done |]. intros Hall. inversion Hall; congruence.
    + rewrite IH. split; [by constructor |]. intros Hall. by inversion Hall.
Qed.

(** X7.  What [Chapter.serialize] writes.  It raises SerializedEmpty, and
    nothing else, exactly when neither the chapter nor any of its levels has
    a personal best other than the zero duration.  Otherwise it writes the
    chapter number, the personal best of the chapter (null when it has
    none), and one entry for each level that has a personal best other than
    the zero duration, in the order of the levels, with the code of the level
    and its personal best without its days. *)
Theorem chapter_serialize_result (c : Chapter.t) :
  (Chapter.serialize c = inl SerializedEmpty ↔
   truthy (LevelChapter.personal_best (Chapter.base c)) = false
   ∧ Forall (λ l, truthy (LevelChapter.personal_best (Level.base l)) = false)
            (Chapter.levels c))
  ∧ (∀ e, Chapter.serialize c = inl e → e = SerializedEmpty)
  ∧ (∀ saved, Chapter.serialize c = inr saved →
       Chapter.s_chapter_number saved = Chapter.chapter_number c
       ∧ RecordHolder.chapter_personal_best saved
         = (λ p, p mod one_day)
             <$> LevelChapter.personal_best (Chapter.base c)
       ∧ map Level.s_code (Chapter.s_levels saved)
         = map Level.code (with_personal_best (Chapter.levels c))
       ∧ map RecordHolder.level_personal_best (Chapter.s_levels saved)
         = map (λ l, default 0 (LevelChapter.personal_best (Level.base l))
                     mod one_day)
               (with_personal_best (Chapter.levels c))).
Proof.
  unfold Chapter.serialize. fold (with_personal_best (Chapter.levels c)).
  destruct (levels_serialize_values _
              (with_personal_best_present (Chapter.levels c)))
    as (out & -> & Hcodes & Hpbs).
  cbn [mbind result_bind].
  assert (out = [] ↔ with_personal_best (Chapter.levels c) = []) as Hnil.
  { split; intros Heq.
    - rewrite Heq in Hcodes. by destruct (with_personal_best _).
    - rewrite Heq in Hcodes. by destruct out. }
  rewrite <- with_personal_best_nil, <- Hnil.
  destruct (truthy (LevelChapter.personal_best (Chapter.base c))) eqn:Ht;
    simpl.
  - split_and!.
    + split; [done | by intros [? _]].
    + done.
    + intros saved [= <-]. simpl. split_and!; try done.
      unfold RecordHolder.chapter_personal_best. simpl.
      destruct (LevelChapter.personal_best (Chapter.base c)); [| done].
      simpl. by rewrite one_day_split.
  - case_bool_decide as Hout; simpl.
    + split_and!; [done | by intros e [= <-] | done].
    + split_and!.
      * split; [done | by intros [_ ?]].
      * done.
      * intros saved [= <-]. simpl. split_and!; try done.
        unfold RecordHolder.chapter_personal_best. simpl.
        destruct (LevelChapter.personal_best (Chapter.base c)); [| done].
        simpl. by rewrite one_day_split.
Qed.

End ChapterSerialize.

Section ChapterTimer.
Context `{!PyFloat}.

Lemma start_timer_raises_unchanged (c c' : Chapter.t) (t : datetime)
    (code : string) (e : exn) :
  Chapter.start_timer c t code = (inl e, c') → c' = c.
Proof.
  unfold Chapter.start_timer.
  destruct (Chapter._get_level c code) as [| [i l]];
    [by intros [= _ <-] | done].
Qed.

(** X8.  A call of [Chapter.start_timer] that raises changes nothing, and
    a code of another chapter raises WrongChapter: the timer of a level
    starts only on a code whose chapter number is that of the chapter. *)
Theorem start_timer_wrong_chapter (c : Chapter.t) (t : datetime)
    (code : string) :
  (∀ e c', Chapter.start_timer c t code = (inl e, c') → c' = c)
  ∧ (∀ n, get_chapter_number_by_code code = inr n →
          n ≠ Chapter.chapter_number c →
          Chapter.start_timer c t code = (inl WrongChapter, c))
  ∧ (∀ i c', Chapter.start_timer c t code = (inr i, c') →
             get_chapter_number_by_code code = inr (Chapter.chapter_number c)).
Proof.
  split_and!; [intros e c'; apply start_timer_raises_unchanged | |];
    unfold Chapter.start_timer, Chapter._get_level.
  - intros n -> Hne. cbn [mbind result_bind].
    destruct (Z.eqb_spec (Chapter.chapter_number c) n); [congruence | done].
  - intros i c'.
    destruct (get_chapter_number_by_code code) as [| n]; [done |].
    cbn [mbind result_bind].
    destruct (Z.eqb_spec (Chapter.chapter_number c) n) as [-> |]; done.
Qed.

Lemma stop_timer_clears (c : Chapter.t) (t : datetime) :
  Chapter._current_level c = None → Chapter.stop_timer c t = (inl AttributeError, c).
Proof. unfold Chapter.stop_timer. by intros ->. Qed.

Lemma stop_timer_no_current (c : Chapter.t) (t : datetime) :
  Chapter._current_level (snd (Chapter.stop_timer c t)) = None.
Proof.
  destruct (Chapter.stop_timer c t) as [[e | r] c'] eqn:Hstop; simpl.
  - unfold Chapter.stop_timer in Hstop.
    destruct (Chapter._current_level c) as [i|] eqn:Hcur;
      [| by injection Hstop as _ <-].
    destruct (Chapter.levels c !! i) as [l|]; [| by injection Hstop as _ <-].
    destruct (Level.stop_timer l t) as [| [b l']]; [by injection Hstop as _ <-|].
    destruct (Level.final l' && Chapter._valid_sequence c); [| done].
    destruct (LevelChapter._is_session_pb _) as [| [x y]];
      [by injection Hstop as _ <- | done].
  - by destruct (chapter_stop_timer_returns _ _ _ _ Hstop)
      as (l & l' & _ & _ & _ & _ & _ & _ & ? & _).
Qed.

(** The levels after [on_row]: the row that was picked has a new base and
    is otherwise the same. *)
Lemma on_row_levels (f : LevelChapter.t → LevelChapter.t) (row : nat)
    (c : Chapter.t) :
  Chapter._current_level (on_row f row c) = Chapter._current_level c
  ∧ Chapter.chapter_number (on_row f row c) = Chapter.chapter_number c
  ∧ Chapter.name (on_row f row c) = Chapter.name c
  ∧ Forall2 (λ l l', same_identity l l'
                     ∧ Level._race_start l' = Level._race_start l)
            (Chapter.levels c) (Chapter.levels (on_row f row c)).
Proof.
  assert (Forall2 (λ l l', same_identity l l'
                           ∧ Level._race_start l' = Level._race_start l)
                  (Chapter.levels c) (Chapter.levels c)) as Hrefl.
  { apply Forall2_same_length_lookup_2; [done |].
    intros i l l' Hl Hl'. rewrite Hl in Hl'. injection Hl' as <-.
    split; [apply same_identity_refl | done]. }
  unfold on_row. destruct (Chapter.levels c !! row) as [l|] eqn:Hl; simpl.
  - split_and!; try done.
    rewrite <- (list_insert_id (Chapter.levels c) row l Hl) at 1.
    apply Forall2_insert; [done |]. split; [by repeat split | done].
  - by split_and!.
Qed.

Lemma revert_or_delete_levels (column row : Z) (delete : bool) (c : Chapter.t) :
  let c' := snd (_revert_or_delete_cell column row delete c) in
  Chapter._current_level c' = Chapter._current_level c
  ∧ Chapter.chapter_number c' = Chapter.chapter_number c
  ∧ Chapter.name c' = Chapter.name c
  ∧ Forall2 (λ l l', same_identity l l'
                     ∧ Level._race_start l' = Level._race_start l)
            (Chapter.levels c) (Chapter.levels c').
Proof.
  unfold _revert_or_delete_cell.
  destruct (column =? 1); [| destruct (column =? 2)]; simpl;
    try (destruct (py_position (Chapter.levels c) row); apply on_row_levels).
  split_and!; try done.
  apply Forall2_same_length_lookup_2; [done |].
  intros i l l' Hl Hl'. rewrite Hl in Hl'. injection Hl' as <-.
  split; [apply same_identity_refl | done].
Qed.

Lemma gui_apply_timer_consistent (c : Chapter.t) (call : gui_call) :
  timer_consistent c → timer_consistent (gui_apply c call).
Proof.
  intros Hc. destruct call as [[t code | t |] | column row | column row];
    simpl.
  - destruct (Chapter.start_timer c t code) as [[e | i] c'] eqn:Hstart.
    + simpl. by rewrite (start_timer_raises_unchanged _ _ _ _ _ Hstart).
    + destruct (chapter_start_timer_returns _ _ _ _ _ Hstart)
        as (l0 & _ & Hl & Hcur & _).
      simpl. intros j Hj. rewrite Hcur in Hj. injection Hj as <-.
      by exists (Level.start_timer l0 t).
  - intros j Hj. by rewrite stop_timer_no_current in Hj.
  - unfold Chapter.abort_timer.
    destruct (Chapter._current_level c) as [i|] eqn:Hcur; [| by intros j].
    destruct (Chapter.levels c !! i) as [l|]; [| by intros j].
    destruct (Level.abort_timer l); [done | by intros j].
  - destruct (revert_or_delete_levels column row false c)
      as (Hcur & _ & _ & Hlevels).
    unfold revert_cell. intros j Hj. rewrite Hcur in Hj.
    destruct (Hc j Hj) as (l & Hl & Hrace).
    destruct (Forall2_lookup_l _ _ _ _ _ Hlevels Hl) as (l' & Hl' & _ & Heq).
    exists l'. split; [done | congruence].
  - destruct (revert_or_delete_levels column row true c)
      as (Hcur & _ & _ & Hlevels).
    unfold delete_cell. intros j Hj. rewrite Hcur in Hj.
    destruct (Hc j Hj) as (l & Hl & Hrace).
    destruct (Forall2_lookup_l _ _ _ _ _ Hlevels Hl) as (l' & Hl' & _ & Heq).
    exists l'. split; [done | congruence].
Qed.

Lemma gui_run_timer_consistent (c : Chapter.t) (calls : list gui_call) :
  timer_consistent c → timer_consistent (gui_run c calls).
Proof.
  revert c. induction calls as [| call rest IH]; intros c Hc; [done |].
  apply IH. by apply gui_apply_timer_consistent.
Qed.

(** X9.  The current level has its timer running: this holds of a chapter
    as [Chapter.__init__] builds it and after any sequence of timer calls,
    reverts and deletes.  Hence, after any such sequence, [abort_timer]
    does not raise, [stop_timer] returns exactly when a level is current and
    otherwise raises AttributeError and changes nothing, never the
    RuntimeError of a level whose timer was not started, and
    [get_current_time] returns exactly when a level is current and otherwise
    raises RuntimeError. *)
Theorem chapter_timer_is_consistent (c : Chapter.t) (calls : list gui_call) :
  Chapter._current_level c = None →
  let c' := gui_run c calls in
  timer_consistent c'
  ∧ fst (Chapter.abort_timer c') = inr ()
  ∧ (∀ t, is_ok (fst (Chapter.stop_timer c' t)) = true
          ↔ Chapter._current_level c' ≠ None)
  ∧ (∀ t e, fst (Chapter.stop_timer c' t) = inl e →
            e = AttributeError ∧ snd (Chapter.stop_timer c' t) = c')
  ∧ (∀ now, is_ok (Chapter.get_current_time c' now) = true
            ↔ Chapter._current_level c' ≠ None)
  ∧ (∀ now e, Chapter.get_current_time c' now = inl e → e = RuntimeError).
Proof.
  intros Hnone c'.
  assert (timer_consistent c') as Hc.
  { apply gui_run_timer_consistent. intros i Hi. congruence. }
  split; [done |].
  assert (∀ t, match Chapter._current_level c' with
               | Some _ => ∃ r, fst (Chapter.stop_timer c' t) = inr r
               | None => Chapter.stop_timer c' t = (inl AttributeError, c')
               end) as Hstop.
  { intros t. destruct (Chapter._current_level c') as [i|] eqn:Hcur;
      [| by apply stop_timer_clears].
    destruct (Hc i Hcur) as (l & Hl & Hrace).
    destruct (Level._race_start l) as [start|] eqn:Hstart; [| done].
    destruct (level_stop_timer_spec l start t Hstart) as (b & l' & Heq & _).
    unfold Chapter.stop_timer. rewrite Hcur, Hl, Heq.
    destruct (Level.final l' && Chapter._valid_sequence c'); [| by eexists].
    set (b1 := LevelChapter._set_diff _).
    destruct (is_session_pb_spec b1
                (timedelta_of_seconds_sum
                   (Chapter.live_session_times
                      (<[i:=l']> (Chapter.levels c')))))
      as (chapter_pb & b2 & -> & _); [done | by eexists]. }
  split_and!.
  - unfold Chapter.abort_timer.
    destruct (Chapter._current_level c') as [i|] eqn:Hcur; [| done].
    destruct (Hc i Hcur) as (l & -> & Hrace).
    unfold Level.abort_timer. by destruct (Level._race_start l).
  - intros t. specialize (Hstop t).
    destruct (Chapter._current_level c').
    + destruct Hstop as [r ->]. done.
    + rewrite Hstop. done.
  - intros t e He. specialize (Hstop t).
    destruct (Chapter._current_level c').
    + destruct Hstop as [r Hr]. congruence.
    + rewrite Hstop in He |- *. simpl in *. by injection He as <-.
  - intros now. unfold Chapter.get_current_time.
    destruct (Chapter._current_level c') as [i|] eqn:Hcur; [| done].
    destruct (Hc i Hcur) as (l & -> & Hrace).
    unfold Level.get_current_time. by destruct (Level._race_start l).
  - intros now e. unfold Chapter.get_current_time.
    destruct (Chapter._current_level c') as [i|]; [| by intros [= <-]].
    destruct (Chapter.levels c' !! i) as [l|]; [| by intros [= <-]].
    unfold Level.get_current_time.
    destruct (Level._race_start l); [done | by intros [= <-]].
Qed.

End ChapterTimer.

Section ChapterFrame.
Context `{!PyFloat}.

Lemma levels_same_identity_refl (ls : list Level.t) :
  Forall2 same_identity ls ls.
Proof.
  apply Forall2_same_length_lookup_2; [done |].
  intros i l l' Hl Hl'. rewrite Hl in Hl'. injection Hl' as <-.
  apply same_identity_refl.
Qed.

Lemma levels_same_identity_insert (ls : list Level.t) (i : nat)
    (l l' : Level.t) :
  ls !! i = Some l → same_identity l l' →
  Forall2 same_identity ls (<[i := l']> ls).
Proof.
  intros Hl Hid. rewrite <- (list_insert_id ls i l Hl) at 1.
  apply Forall2_insert; [apply levels_same_identity_refl | done].
Qed.

Lemma level_stop_timer_identity (l l' : Level.t) (t : datetime) (b : bool) :
  Level.stop_timer l t = inr (b, l') → same_identity l l'.
Proof.
  intros Hstop. destruct (Level._race_start l) as [start|] eqn:Hstart.
  - destruct (level_stop_timer_effects l start t Hstart)
      as (b' & x & Heq & Hid & _).
    rewrite Heq in Hstop. by injection Hstop as _ <-.
  - unfold Level.stop_timer in Hstop. by rewrite Hstart in Hstop.
Qed.

Lemma chapter_apply_identity (c : Chapter.t) (call : chapter_call) :
  Chapter.chapter_number (chapter_apply c call) = Chapter.chapter_number c
  ∧ Chapter.name (chapter_apply c call) = Chapter.name c
  ∧ Forall2 same_identity (Chapter.levels c)
            (Chapter.levels (chapter_apply c call)).
Proof.
  destruct call as [t code | t |]; simpl.
  - unfold Chapter.start_timer.
    destruct (Chapter._get_level c code) as [e | [i l]] eqn:Hget; simpl.
    + split_and!; try done. apply levels_same_identity_refl.
    + split_and!; try done. apply get_level_lookup in Hget.
      eapply levels_same_identity_insert; [done | by repeat split].
  - unfold Chapter.stop_timer.
    destruct (Chapter._current_level c) as [i|]; simpl;
      [| split_and!; try done; apply levels_same_identity_refl].
    destruct (Chapter.levels c !! i) as [l|] eqn:Hl; simpl;
      [| split_and!; try done; apply levels_same_identity_refl].
    destruct (Level.stop_timer l t) as [| [b l']] eqn:Hstop; simpl;
      [split_and!; try done; apply levels_same_identity_refl |].
    apply level_stop_timer_identity in Hstop.
    destruct (Level.final l' && Chapter._valid_sequence c); simpl.
    + destruct (LevelChapter._is_session_pb _) as [| [x y]]; simpl;
        (split_and!; try done; by eapply levels_same_identity_insert).
    + split_and!; try done. by eapply levels_same_identity_insert.
  - unfold Chapter.abort_timer.
    destruct (Chapter._current_level c) as [i|]; simpl;
      [| split_and!; try done; apply levels_same_identity_refl].
    destruct (Chapter.levels c !! i) as [l|] eqn:Hl; simpl;
      [| split_and!; try done; apply levels_same_identity_refl].
    unfold Level.abort_timer. destruct (Level._race_start l); simpl.
    + split_and!; try done.
      eapply levels_same_identity_insert; [done | by repeat split].
    + split_and!; try done. apply levels_same_identity_refl.
Qed.

Lemma gui_apply_identity (c : Chapter.t) (call : gui_call) :
  Chapter.chapter_number (gui_apply c call) = Chapter.chapter_number c
  ∧ Chapter.name (gui_apply c call) = Chapter.name c
  ∧ Forall2 same_identity (Chapter.levels c)
            (Chapter.levels (gui_apply c call)).
Proof.
  destruct call as [call | column row | column row]; simpl.
  - apply chapter_apply_identity.
  - destruct (revert_or_delete_levels column row false c)
      as (_ & ? & ? & Hlevels).
    split_and!; try done. eapply Forall2_impl; [done |]. by intros ?? [? _].
  - destruct (revert_or_delete_levels column row true c)
      as (_ & ? & ? & Hlevels).
    split_and!; try done. eapply Forall2_impl; [done |]. by intros ?? [? _].
Qed.

(** X10.  No timer call, revert or delete changes which levels a chapter
    has: after any sequence of them the chapter has its number and name, as
    many levels as before, and every level has, at the same position, the
    code, the numbers, the names, the secret links and the final flag that
    it had. *)
Theorem levels_keep_their_identity (c : Chapter.t) (calls : list gui_call) :
  Chapter.chapter_number (gui_run c calls) = Chapter.chapter_number c
  ∧ Chapter.name (gui_run c calls) = Chapter.name c
  ∧ length (Chapter.levels (gui_run c calls)) = length (Chapter.levels c)
  ∧ Forall2 same_identity (Chapter.levels c)
            (Chapter.levels (gui_run c calls)).
Proof.
  assert (Chapter.chapter_number (gui_run c calls) = Chapter.chapter_number c
          ∧ Chapter.name (gui_run c calls) = Chapter.name c
          ∧ Forall2 same_identity (Chapter.levels c)
                    (Chapter.levels (gui_run c calls))) as (? & ? & Hlevels).
  { unfold gui_run. revert c. induction calls as [| call rest IH]; intros c.
    - split_and!; try done. apply levels_same_identity_refl.
    - simpl. destruct (gui_apply_identity c call) as (Hn & Hname & Hl).
      destruct (IH (gui_apply c call)) as (Hn' & Hname' & Hl').
      split_and!; [congruence | congruence |].
      eapply Forall2_trans; [| done | done].
      intros x y z. apply same_identity_trans. }
  split_and!; try done. symmetry. by eapply Forall2_length.
Qed.

(** X11.  [Chapter.abort_timer] discards the attempt and no time: a call
    that returns leaves the chapter's own times and every level's times as
    they were, with no current level, no previous level and an invalid
    sequence, and a second call returns and changes nothing more; a call
    that raises (the current level has no timer running) raises RuntimeError
    and changes nothing. *)
Theorem abort_timer_discards_no_time (c : Chapter.t) :
  (∀ c', Chapter.abort_timer c = (inr (), c') →
     Chapter.base c' = Chapter.base c
     ∧ map Level.base (Chapter.levels c') = map Level.base (Chapter.levels c)
     ∧ Chapter._current_level c' = None
     ∧ Chapter._previous_level c' = None
     ∧ Chapter._valid_sequence c' = false
     ∧ Chapter.abort_timer c' = (inr (), c'))
  ∧ (∀ e c', Chapter.abort_timer c = (inl e, c') →
       e = RuntimeError ∧ c' = c).
Proof.
  unfold Chapter.abort_timer at 1 3.
  destruct (Chapter._current_level c) as [i|];
    [| split; [by intros c' [= <-] | done]].
  destruct (Chapter.levels c !! i) as [l|] eqn:Hl;
    [| split; [by intros c' [= <-] | done]].
  unfold Level.abort_timer. destruct (Level._race_start l).
  - cbn [mbind result_bind]. split; [| done].
    intros c' [= <-]. split_and!; try done.
    simpl. rewrite list_fmap_insert. simpl. by apply list_insert_id;
      rewrite list_lookup_fmap, Hl.
  - split; [done |]. by intros e c' [= <- <-].
Qed.

End ChapterFrame.

Section RecordHolderShape.
Context `{!PyFloat}.

Lemma level_init_fresh (code : string) (pb : option timedelta) (l : Level.t) :
  Level.__init__ code pb = inr l → fresh_level l.
Proof.
  intros Hl. pose proof (level_init_factors code pb) as Hf.
  destruct (Level.__init__ code None) as [e | l0]; [congruence |].
  destruct Hf as (Heq & _ & Hrace & _).
  rewrite Heq in Hl. injection Hl as <-. by repeat split.
Qed.

Lemma py_insert_Forall {A} (P : A → Prop) (i : nat) (x : A) (l : list A) :
  P x → Forall P l → Forall P (py_insert i x l).
Proof.
  intros Hx Hl. unfold py_insert. apply Forall_app. split.
  - by apply Forall_take.
  - constructor; [done | by apply Forall_drop].
Qed.

Lemma fill_blanks_fresh (blank : Z → string) (numbers : list Z)
    (ls ls' : list Level.t) :
  Forall fresh_level ls →
  Chapter.fill_blanks blank numbers ls = inr ls' → Forall fresh_level ls'.
Proof.
  revert ls. induction numbers as [| i rest IH]; intros ls Hls; simpl.
  - by intros [= <-].
  - destruct (py_index ls (i - 1)) as [| l]; [done |].
    cbn [mbind result_bind].
    destruct (Level.level_number l =? i); [by apply IH |].
    destruct (Level.__init__ (blank i) None) as [| b] eqn:Hb; [done |].
    cbn [mbind result_bind]. apply IH.
    apply py_insert_Forall; [by eapply level_init_fresh | done].
Qed.

Lemma blank_levels_fresh (blank : Z → string) (numbers : list Z)
    (ls : list Level.t) :
  mapM (λ i, Level.__init__ (blank i) None) numbers = inr ls →
  Forall fresh_level ls.
Proof.
  revert ls. induction numbers as [| i rest IH]; intros ls.
  - by intros [= <-].
  - change (mapM (λ i, Level.__init__ (blank i) None) (i :: rest))
      with (y ← Level.__init__ (blank i) None;
            k ← mapM (λ i, Level.__init__ (blank i) None) rest;
            mret (y :: k)).
    destruct (Level.__init__ (blank i) None) as [| b] eqn:Hb; [done |].
    cbn [mbind result_bind].
    destruct (mapM _ rest) as [| k]; [done |].
    intros [= <-]. constructor; [by eapply level_init_fresh | by apply IH].
Qed.

Lemma chapter_init_fresh (n : Z) (ls : list Level.t) (pb : option timedelta)
    (c : Chapter.t) :
  Forall fresh_level ls →
  Chapter.__init__ n ls pb = inr c →
  fresh_chapter c ∧ Chapter.chapter_number c = n.
Proof.
  intros Hls. unfold Chapter.__init__.
  destruct (get_chapter_name_by_number n) as [| name]; [done |].
  cbn [mbind result_bind].
  match goal with
  | |- context [mbind _ ?m] => destruct m as [| levels] eqn:Hlevels; [done |]
  end.
  intros [= <-]. split; [| done]. repeat split; try done. simpl.
  destruct ls as [| l ls].
  - destruct (Chapter._is_doom1_number n); by eapply blank_levels_fresh.
  - destruct (Chapter._is_doom1_number n); by eapply fill_blanks_fresh.
Qed.

Lemma hydrate_levels_fresh (doom1 : bool) (n : Z)
    (saved : list Level.serialized) (numbers : list Z)
    (acc ls : list Level.t) (lv lv' : option Level.serialized) :
  Forall fresh_level acc →
  RecordHolder.hydrate_levels doom1 n saved numbers acc lv = inr (ls, lv') →
  Forall fresh_level ls.
Proof.
  revert acc lv. induction numbers as [| i rest IH]; intros acc lv Hacc; simpl.
  - by intros [= <- _].
  - destruct (RecordHolder.find_level _ i saved lv) as [| [found lv1]];
      [done |].
    cbn [mbind result_bind].
    match goal with
    | |- context [mbind _ ?m] => destruct m as [| l] eqn:Hl; [done |]
    end.
    cbn [mbind result_bind]. apply IH. apply py_insert_Forall; [| done].
    destruct found as [level |].
    + by eapply level_init_fresh.
    + destruct doom1; [by eapply level_init_fresh |].
      destruct lv1; [by eapply level_init_fresh | done].
Qed.

Lemma find_chapter_fresh (n : Z) (saved : list Chapter.serialized)
    (lv lv' : option Level.serialized) (c : Chapter.t) :
  RecordHolder.find_chapter n saved lv = inr (Some c, lv') →
  fresh_chapter c ∧ Chapter.chapter_number c = n.
Proof.
  induction saved as [| chapter rest IH]; simpl; [done |].
  destruct (Z.eqb_spec (Chapter.s_chapter_number chapter) n) as [Heq |];
    [| done].
  destruct (RecordHolder.hydrate_levels _ _ _ _ _ _) as [| [levels lv1]] eqn:Hh;
    [done |].
  cbn [mbind result_bind].
  destruct (Chapter.__init__ _ levels _) as [| c0] eqn:Hc; [done |].
  intros [= <- _]. rewrite <- Heq.
  eapply chapter_init_fresh; [| done].
  by eapply hydrate_levels_fresh.
Qed.

(** One turn of the loop over the chapter numbers. *)
Lemma chapters_loop_step (category difficulty : string) (n : Z)
    (rest : list Z) (s : RecordHolder.serialized)
    (lv : option Level.serialized) (chapters : list Chapter.t) res :
  RecordHolder.chapters_loop category difficulty (n :: rest) s lv chapters
  = inr res →
  ∃ s1 lv1 c,
    fresh_chapter c ∧ Chapter.chapter_number c = n
    ∧ RecordHolder.chapters_loop category difficulty rest s1 lv1
        (py_insert (Z.to_nat (n - 1)) c chapters) = inr res.
Proof.
  simpl.
  destruct (RecordHolder.find_chapter n _ lv) as [| [found lv1]] eqn:Hfind;
    [done |].
  cbn [mbind result_bind].
  match goal with
  | |- context [mbind _ ?m] => destruct m as [| c] eqn:Hc; [done |]
  end.
  cbn [mbind result_bind]. intros Hrest. eexists _, lv1, c.
  split_and!; [| | exact Hrest].
  - destruct found as [c0 |].
    + injection Hc as <-. by eapply find_chapter_fresh.
    + by eapply (chapter_init_fresh n []).
  - destruct found as [c0 |].
    + injection Hc as <-. by eapply find_chapter_fresh.
    + by eapply (chapter_init_fresh n []).
Qed.

Lemma chapters_loop_shape (category difficulty : string)
    (s s' : RecordHolder.serialized) (lv lv' : option Level.serialized)
    (chapters : list Chapter.t) :
  RecordHolder.chapters_loop category difficulty (Chapter.range 1 6) s lv []
  = inr (s', lv', chapters) →
  map Chapter.chapter_number chapters = [1; 2; 3; 4; 5]
  ∧ Forall fresh_chapter chapters.
Proof.
  change (Chapter.range 1 6) with [1; 2; 3; 4; 5].
  intros (s1 & lv1 & c1 & F1 & N1 & Hl)%chapters_loop_step.
  apply chapters_loop_step in Hl as (s2 & lv2 & c2 & F2 & N2 & Hl).
  apply chapters_loop_step in Hl as (s3 & lv3 & c3 & F3 & N3 & Hl).
  apply chapters_loop_step in Hl as (s4 & lv4 & c4 & F4 & N4 & Hl).
  apply chapters_loop_step in Hl as (s5 & lv5 & c5 & F5 & N5 & Hl).
  change (py_insert (Z.to_nat (5 - 1)) c5 _) with [c1; c2; c3; c4; c5] in Hl.
  simpl in Hl. injection Hl as _ _ <-.
  split; [simpl; congruence |]. by rewrite !Forall_cons, Forall_nil.
Qed.

Lemma difficulties_loop_cons (category difficulty : string)
    (rest : list string) (s : RecordHolder.serialized)
    (lv : option Level.serialized) :
  RecordHolder.difficulties_loop category (difficulty :: rest) s lv
  = '(s1, lv1, chapters) ←
      RecordHolder.chapters_loop category difficulty (Chapter.range 1 6) s lv [];
    '(s2, lv2, others) ← RecordHolder.difficulties_loop category rest s1 lv1;
    mret (s2, lv2, (difficulty, chapters) :: others).
Proof. reflexivity. Qed.

Lemma categories_loop_cons (category : string) (rest : list string)
    (s : RecordHolder.serialized) (lv : option Level.serialized) :
  RecordHolder.categories_loop (category :: rest) s lv
  = '(s1, lv1, by_difficulty) ←
      RecordHolder.difficulties_loop category difficulties s lv;
    others ← RecordHolder.categories_loop rest s1 lv1;
    mret ((category, by_difficulty) :: others).
Proof. reflexivity. Qed.

Lemma difficulties_loop_shape (category : string) (ds : list string)
    (s s' : RecordHolder.serialized) (lv lv' : option Level.serialized)
    (by_difficulty : list (string * list Chapter.t)) :
  RecordHolder.difficulties_loop category ds s lv
  = inr (s', lv', by_difficulty) →
  map fst by_difficulty = ds
  ∧ Forall (λ chapters : string * list Chapter.t,
              map Chapter.chapter_number chapters.2 = [1; 2; 3; 4; 5]
              ∧ Forall fresh_chapter chapters.2) by_difficulty.
Proof.
  revert s lv s' lv' by_difficulty.
  induction ds as [| difficulty rest IH]; intros s lv s' lv' by_difficulty.
  - by intros [= _ _ <-].
  - rewrite difficulties_loop_cons.
    destruct (RecordHolder.chapters_loop category difficulty
                (Chapter.range 1 6) s lv [])
      as [| [[s1 lv1] chapters]] eqn:Hc; [done |].
    cbn [mbind result_bind].
    destruct (RecordHolder.difficulties_loop category rest s1 lv1)
      as [| [[s2 lv2] others]] eqn:Hd; [done |].
    cbn [mbind result_bind]. intros [= _ _ <-].
    destruct (IH _ _ _ _ _ Hd) as [Hkeys Hall].
    split; [simpl; by rewrite Hkeys |].
    constructor; [| done]. by eapply chapters_loop_shape.
Qed.

Lemma categories_loop_shape (cs : list string) (s : RecordHolder.serialized)
    (lv : option Level.serialized) (d : RecordHolder.db) :
  RecordHolder.categories_loop cs s lv = inr d →
  map fst d = cs
  ∧ Forall (λ by_difficulty : string * list (string * list Chapter.t),
              map fst by_difficulty.2 = difficulties
              ∧ Forall (λ chapters : string * list Chapter.t,
                          map Chapter.chapter_number chapters.2 = [1; 2; 3; 4; 5]
                          ∧ Forall fresh_chapter chapters.2)
                       by_difficulty.2) d.
Proof.
  revert s lv d. induction cs as [| category rest IH]; intros s lv d.
  - by intros [= <-].
  - rewrite categories_loop_cons.
    destruct (RecordHolder.difficulties_loop category difficulties s lv)
      as [| [[s1 lv1] by_difficulty]] eqn:Hd; [done |].
    cbn [mbind result_bind].
    destruct (RecordHolder.categories_loop rest s1 lv1) as [| others] eqn:Hc;
      [done |].
    cbn [mbind result_bind]. intros [= <-].
    destruct (IH _ _ _ Hc) as [Hkeys Hall].
    split; [simpl; by rewrite Hkeys |].
    constructor; [| done]. by eapply difficulties_loop_shape.
Qed.

Lemma init_complete (s : RecordHolder.serialized) (d : RecordHolder.db) :
  RecordHolder.__init__ s = inr d → complete_db d.
Proof.
  unfold RecordHolder.__init__, complete_db. intros Hd.
  exact (categories_loop_shape categories s None d Hd).
Qed.

End RecordHolderShape.

Section RecordHolderLookup.
Context `{!PyFloat}.

Lemma dict_get_elem {V} (d : list (string * V)) (k : string) :
  k ∈ map fst d → ∃ v, RecordHolder.dict_get d k = inr v ∧ (k, v) ∈ d.
Proof.
  induction d as [| [k' v] rest IH]; simpl.
  - by intros ?%elem_of_nil.
  - intros Hk. destruct (String.eqb_spec k' k) as [-> | Hne].
    + exists v. split; [done | apply elem_of_cons; by left].
    + apply elem_of_cons in Hk as [? | Hk]; [done |].
      destruct (IH Hk) as (x & ? & ?). exists x.
      split; [done | apply elem_of_cons; by right].
Qed.

Lemma dict_get_raises {V} (d : list (string * V)) (k : string) (e : exn) :
  RecordHolder.dict_get d k = inl e → e = KeyError ∧ k ∉ map fst d.
Proof.
  induction d as [| [k' v] rest IH]; simpl.
  - intros [= <-]. split; [done | apply not_elem_of_nil].
  - destruct (String.eqb_spec k' k) as [-> | Hne]; [done |].
    intros [-> Hk]%IH. split; [done |].
    intros [? | ?]%elem_of_cons; done.
Qed.

Lemma py_index_out_of_range {A} (l : list A) (i : Z) :
  i < - Z.of_nat (length l) ∨ Z.of_nat (length l) <= i →
  py_index l i = inl IndexError.
Proof.
  intros Hi. unfold py_index, py_position.
  destruct (Z.ltb_spec i 0).
  - destruct (Z.ltb_spec (i + Z.of_nat (length l)) 0); [done | lia].
  - destruct (Z.ltb_spec i 0); [lia |].
    destruct (Z.leb_spec (Z.of_nat (length l)) i); [done | lia].
Qed.

Lemma index_of_returns (names : list string) (name : string) (i n : Z) :
  RecordHolder.index_of names name i = inr n →
  ∃ k, names !! k = Some name ∧ n = i + Z.of_nat k.
Proof.
  revert i. induction names as [| a rest IH]; intros i; [done |].
  cbn [RecordHolder.index_of].
  destruct (String.eqb_spec a name) as [-> | Hne].
  - intros [= <-]. exists 0%nat. split; [done | lia].
  - intros (k & Hk & ->)%IH. exists (S k). split; [done | lia].
Qed.

Lemma index_of_raises (names : list string) (name : string) (i : Z) :
  name ∉ names → RecordHolder.index_of names name i = inl KeyError.
Proof.
  revert i. induction names as [| a rest IH]; intros i Hname; [done |].
  cbn [RecordHolder.index_of].
  destruct (String.eqb_spec a name) as [-> | Hne]; [set_solver |].
  apply IH. set_solver.
Qed.

(** The names and the numbers of the chapters. *)
Lemma chapter_number_of_name (name : string) (n : Z) :
  RecordHolder.get_chapter_number_by_name name = inr n →
  1 <= n <= 5 ∧ get_chapter_name_by_number n = inr name.
Proof.
  unfold RecordHolder.get_chapter_number_by_name.
  destruct (RecordHolder.index_of chapter_names name 0) as [| i] eqn:Hi;
    [done |].
  intros [= <-]. apply index_of_returns in Hi as (k & Hk & ->).
  destruct k as [| [| [| [| [| k]]]]]; try done;
    injection Hk as <-; by split.
Qed.

Lemma chapter_name_unknown (name : string) :
  name ∉ chapter_names →
  RecordHolder.get_chapter_number_by_name name = inl KeyError.
Proof.
  intros Hname. unfold RecordHolder.get_chapter_number_by_name.
  by rewrite index_of_raises.
Qed.

Lemma five_chapters (chapters : list Chapter.t) (n : Z) :
  map Chapter.chapter_number chapters = [1; 2; 3; 4; 5] →
  1 <= n <= 5 →
  ∃ c, py_index chapters (n - 1) = inr c
       ∧ Chapter.chapter_number c = n ∧ c ∈ chapters.
Proof.
  intros Hnumbers Hn.
  destruct chapters as [| c1 [| c2 [| c3 [| c4 [| c5 [| ? ?]]]]]]; try done.
  injection Hnumbers as N1 N2 N3 N4 N5.
  assert (n = 1 ∨ n = 2 ∨ n = 3 ∨ n = 4 ∨ n = 5) as Hcases by lia.
  clear Hn.
  destruct Hcases as [-> | [-> | [-> | [-> | ->]]]];
    eexists; (split; [reflexivity |]); (split; [done | set_solver]).
Qed.

(** [get_chapter] on a complete database. *)
Lemma complete_db_lookup (d : RecordHolder.db)
    (category difficulty name : string) (n : Z) :
  complete_db d →
  category ∈ categories → difficulty ∈ difficulties →
  RecordHolder.get_chapter_number_by_name name = inr n →
  ∃ c, RecordHolder.get_chapter d category difficulty name = inr c
       ∧ Chapter.chapter_number c = n ∧ fresh_chapter c.
Proof.
  intros [Hkeys Hall] Hcat Hdif Hname.
  unfold RecordHolder.get_chapter.
  rewrite <- Hkeys in Hcat.
  destruct (dict_get_elem d category Hcat) as (by_difficulty & -> & Hin).
  cbn [mbind result_bind].
  rewrite Forall_forall in Hall.
  destruct (Hall _ Hin) as [Hkeys2 Hall2]. simpl in Hkeys2, Hall2.
  rewrite <- Hkeys2 in Hdif.
  destruct (dict_get_elem by_difficulty difficulty Hdif)
    as (chapters & -> & Hin2).
  cbn [mbind result_bind]. rewrite Hname. cbn [mbind result_bind].
  rewrite Forall_forall in Hall2.
  destruct (Hall2 _ Hin2) as [Hnumbers Hfresh]. simpl in Hnumbers, Hfresh.
  destruct (chapter_number_of_name name n Hname) as [Hn _].
  destruct (five_chapters chapters n Hnumbers Hn) as (c & -> & ? & Hc).
  exists c. split_and!; try done.
  rewrite Forall_forall in Hfresh. by apply Hfresh.
Qed.

(** X12.  Every slot of the database is populated, whatever was saved.
    When [RecordHolder.__init__] returns, the database has the categories
    and, under each, the difficulties, in their order, with five chapters
    numbered 1 to 5 under each difficulty, none of them modified, none with
    a session time or a timer; so [get_chapter] returns the chapter of that
    number for every category, difficulty and chapter name of the three
    tuples. *)
Theorem record_holder_is_complete (s : RecordHolder.serialized)
    (d : RecordHolder.db) :
  RecordHolder.__init__ s = inr d →
  complete_db d
  ∧ ∀ category difficulty name n,
      category ∈ categories → difficulty ∈ difficulties →
      RecordHolder.get_chapter_number_by_name name = inr n →
      ∃ c, RecordHolder.get_chapter d category difficulty name = inr c
           ∧ Chapter.chapter_number c = n ∧ fresh_chapter c.
Proof.
  intros Hd%init_complete. split; [done |].
  intros category difficulty name n. by apply complete_db_lookup.
Qed.

(** X13.  The names and the numbers of the chapters are inverse to each
    other on the numbers 1 to 5: the number of a name is between 1 and 5 and
    [get_chapter_name_by_number] gives the name back, and every number from
    1 to 5 has a name whose number it is.  Outside of them,
    [get_chapter_name_by_number] raises IndexError above 5 and below -4,
    and from -4 to 0 it returns a name whose number is another one. *)
Theorem chapter_names_and_numbers :
  (∀ name n, RecordHolder.get_chapter_number_by_name name = inr n →
     1 <= n <= 5 ∧ get_chapter_name_by_number n = inr name)
  ∧ (∀ n, 1 <= n <= 5 →
       ∃ name, get_chapter_name_by_number n = inr name
               ∧ RecordHolder.get_chapter_number_by_name name = inr n)
  ∧ (∀ n, n < -4 ∨ 5 < n → get_chapter_name_by_number n = inl IndexError)
  ∧ (∀ n, -4 <= n <= 0 →
       ∃ name, get_chapter_name_by_number n = inr name
               ∧ RecordHolder.get_chapter_number_by_name name
                 = inr (n + 5)).
Proof.
  split_and!.
  - apply chapter_number_of_name.
  - intros n Hn.
    assert (n = 1 ∨ n = 2 ∨ n = 3 ∨ n = 4 ∨ n = 5) as Hcases by lia.
    destruct Hcases as [-> | [-> | [-> | [-> | ->]]]]; by eexists.
  - intros n Hn. unfold get_chapter_name_by_number.
    apply py_index_out_of_range. simpl. lia.
  - intros n Hn.
    assert (n = -4 ∨ n = -3 ∨ n = -2 ∨ n = -1 ∨ n = 0) as Hcases by lia.
    destruct Hcases as [-> | [-> | [-> | [-> | ->]]]]; by eexists.
Qed.

(** X14.  [get_chapter] raises KeyError, and nothing is looked up further,
    when the category is not a key of the database, when the difficulty is
    not a key under the category, and when the name is not the name of a
    chapter. *)
Theorem get_chapter_unknown_key (d : RecordHolder.db)
    (category difficulty name : string) :
  (category ∉ map fst d →
   RecordHolder.get_chapter d category difficulty name = inl KeyError)
  ∧ (∀ by_difficulty,
       RecordHolder.dict_get d category = inr by_difficulty →
       difficulty ∉ map fst by_difficulty →
       RecordHolder.get_chapter d category difficulty name = inl KeyError)
  ∧ (name ∉ chapter_names →
     RecordHolder.get_chapter d category difficulty name = inl KeyError).
Proof.
  unfold RecordHolder.get_chapter. split_and!.
  - intros Hcat.
    destruct (RecordHolder.dict_get d category) as [e | v] eqn:Hget.
    + by destruct (dict_get_raises _ _ _ Hget) as [-> _].
    + destruct Hcat. clear -Hget.
      induction d as [| [k' x] rest IH]; [done |]. simpl in *.
      destruct (String.eqb_spec k' category) as [-> |]; [set_solver |].
      apply elem_of_cons. right. by apply IH.
  - intros by_difficulty -> Hdif. cbn [mbind result_bind].
    destruct (RecordHolder.dict_get by_difficulty difficulty) as [e | v] eqn:Hget.
    + by destruct (dict_get_raises _ _ _ Hget) as [-> _].
    + destruct Hdif. clear -Hget.
      induction by_difficulty as [| [k' x] rest IH]; [done |]. simpl in *.
      destruct (String.eqb_spec k' difficulty) as [-> |]; [set_solver |].
      apply elem_of_cons. right. by apply IH.
  - intros Hname%chapter_name_unknown.
    destruct (RecordHolder.dict_get d category) as [e | v] eqn:Hget.
    + by destruct (dict_get_raises _ _ _ Hget) as [-> _].
    + cbn [mbind result_bind].
      destruct (RecordHolder.dict_get v difficulty) as [e | w] eqn:Hget2.
      * by destruct (dict_get_raises _ _ _ Hget2) as [-> _].
      * cbn [mbind result_bind]. by rewrite Hname.
Qed.

End RecordHolderLookup.

Section FileDudeFacts.
Context {G : Type} `{!EqDecision G}.





Lemma chapter_serialize_has_data (c : Chapter.t) (saved : Chapter.serialized) :
  Chapter.serialize c = inr saved → has_data saved.
Proof.
  unfold Chapter.serialize.
  destruct (mapM Level.serialize _) as [| levels]; [done |].
  cbn [mbind result_bind].
  destruct (truthy (LevelChapter.personal_best (Chapter.base c))) eqn:Ht;
    simpl.
  - intros [= <-]. left. simpl.
    by destruct (LevelChapter.personal_best (Chapter.base c)).
  - case_bool_decide; [done |]. intros [= <-]. by right.
Qed.

Lemma add_chapter_no_empty_entry (category difficulty : string)
    (c : Chapter.serialized) (out : RecordHolder.serialized) :
  has_data c → no_empty_entry out →
  no_empty_entry (FileDude.add_chapter category difficulty c out).
Proof.
  intros Hc Hout category' by_difficulty' difficulty' chapters'.
  unfold FileDude.add_chapter.
  destruct (out !! category) as [by_difficulty|] eqn:Hcat;
    [destruct (by_difficulty !! difficulty) as [chapters|] eqn:Hdif |].
  - rewrite lookup_insert. case_decide as Heq.
    + intros [= <-]. rewrite lookup_insert. case_decide as Heq2.
      * intros [= <-]. destruct (Hout _ _ _ _ Hcat Hdif) as [_ Hall].
        split; [by destruct chapters |].
        apply Forall_app. split; [done | by constructor].
      * by apply (Hout category).
    + by apply Hout.
  - rewrite lookup_insert. case_decide as Heq; [| by apply Hout].
    intros [= <-]. rewrite lookup_singleton. case_decide; [| done].
    intros [= <-]. split; [done | by constructor].
  - rewrite lookup_insert. case_decide as Heq; [| by apply Hout].
    intros [= <-]. rewrite lookup_singleton. case_decide; [| done].
    intros [= <-]. split; [done | by constructor].
Qed.

Lemma save_chapters_no_empty_entry (category difficulty : string)
    (chapters : list Chapter.t) (modified modified' : bool)
    (out out' : RecordHolder.serialized) :
  no_empty_entry out →
  FileDude.save_chapters category difficulty chapters modified out
  = inr (modified', out') →
  no_empty_entry out'.
Proof.
  revert modified out. induction chapters as [| c rest IH];
    intros modified out Hout; cbn [FileDude.save_chapters].
  - by intros [= _ <-].
  - destruct (Chapter.serialize c) as [[] | saved] eqn:Hs; try done.
    + by apply IH.
    + apply IH. apply add_chapter_no_empty_entry; [| done].
      by eapply chapter_serialize_has_data.
Qed.

Lemma save_difficulties_no_empty_entry (category : string)
    (by_difficulty : list (string * list Chapter.t)) (modified modified' : bool)
    (out out' : RecordHolder.serialized) :
  no_empty_entry out →
  FileDude.save_difficulties category by_difficulty modified out
  = inr (modified', out') →
  no_empty_entry out'.
Proof.
  revert modified out.
  induction by_difficulty as [| [difficulty chapters] rest IH];
    intros modified out Hout; cbn [FileDude.save_difficulties].
  - by intros [= _ <-].
  - destruct (FileDude.save_chapters category difficulty chapters modified out)
      as [| [m1 out1]] eqn:Hc; [done |].
    cbn [mbind result_bind]. apply IH.
    by eapply save_chapters_no_empty_entry.
Qed.

Lemma save_categories_no_empty_entry (d : RecordHolder.db)
    (modified modified' : bool) (out out' : RecordHolder.serialized) :
  no_empty_entry out →
  FileDude.save_categories d modified out = inr (modified', out') →
  no_empty_entry out'.
Proof.
  revert modified out.
  induction d as [| [category by_difficulty] rest IH];
    intros modified out Hout; cbn [FileDude.save_categories].
  - by intros [= _ <-].
  - destruct (FileDude.save_difficulties category by_difficulty modified out)
      as [| [m1 out1]] eqn:Hc; [done |].
    cbn [mbind result_bind]. apply IH.
    by eapply save_difficulties_no_empty_entry.
Qed.

(** X17.  What [save] writes holds no empty entry: under every category
    and difficulty that is written there is at least one chapter, and every
    chapter written has a personal best of its own or at least one level.
    What has no record is absent from the file, not written as null. *)
Theorem save_writes_no_empty_entry (self : FileDude.t) (d : RecordHolder.db)
    (g : G) (f : FileDude.file) :
  FileDude.save self d g = inr (Some f) → no_empty_entry (FileDude.runs f).
Proof.
  unfold FileDude.save.
  destruct (FileDude.save_categories d _ ∅) as [| [m out]] eqn:Hc; [done |].
  cbn [mbind result_bind mret result_ret].
  destruct m; [| done]. intros [= <-]. simpl.
  eapply save_categories_no_empty_entry; [| done].
  intros category by_difficulty difficulty chapters Hcat.
  by rewrite lookup_empty in Hcat.
Qed.

End FileDudeFacts.

Section DecoderFurther.
Import DoomRunner.

Lemma decode_app (st : state) (a b : list string) :
  decode st (a ++ b)
  = (fst (decode (fst (decode st a)) b),
     snd (decode st a) ++ snd (decode (fst (decode st a)) b)).
Proof.
  revert st. induction a as [| line rest IH]; intros st; simpl.
  - by destruct (decode st b).
  - destruct (step st line) as [st1 out1]. rewrite IH.
    destruct (decode st1 rest) as [st2 out2]. simpl.
    by rewrite app_assoc.
Qed.

(** X18.  The lines of a finished level and of a death are signalled only
    while the decoder is not after a header: there the state is kept and
    the signal emitted, whatever [skip_next_header] is.  After a header
    they are read as an announcement that does not split, so they emit
    nothing and the decoder stays after the header. *)
Theorem finish_and_death_lines (st : state) :
  (header_found st = false →
   step st unloading_line = (st, [level_finished])
   ∧ step st death_line = (st, [player_died]))
  ∧ (header_found st = true →
     step st unloading_line = (st, [])
     ∧ step st death_line = (st, [])).
Proof.
  unfold step. split; intros ->; [done |].
  split; by vm_compute.
Qed.

(** One step never emits more than one signal, and a level start only
    after a header, which it uses up. *)
Lemma step_level_starts (st : state) (line : string) :
  (count_level_starts (snd (step st line))
   + (if header_found (fst (step st line)) then 1 else 0)
   <= (if header_found st then 1 else 0)
      + (if String.eqb header_line line then 1 else 0))%nat.
Proof.
  unfold step, count_level_starts.
  rewrite (String.eqb_sym header_line line).
  destruct (header_found st) eqn:Hh;
    destruct (String.eqb line blank_line), (String.eqb line secret_line),
      (String.eqb line unloading_line), (String.eqb line death_line),
      (String.eqb line header_line), (skip_next_header st),
      (announcement line) as [| [code name]];
    cbn [fst snd header_found List.filter is_level_started length];
    rewrite ?Hh; lia.
Qed.

Lemma decode_level_starts (st : state) (lines : list string) :
  (count_level_starts (snd (decode st lines))
   + (if header_found (fst (decode st lines)) then 1 else 0)
   <= (if header_found st then 1 else 0) + count_headers lines)%nat.
Proof.
  revert st. induction lines as [| line rest IH]; intros st.
  - unfold count_level_starts, count_headers. simpl. lia.
  - cbn [decode]. pose proof (step_level_starts st line) as Hstep.
    destruct (step st line) as [st1 out1]. cbn [fst snd] in Hstep.
    specialize (IH st1). destruct (decode st1 rest) as [st2 out2].
    cbn [fst snd] in *. unfold count_level_starts, count_headers in *.
    rewrite List.filter_app, length_app. cbn [List.filter].
    destruct (String.eqb header_line line); cbn [length]; lia.
Qed.

(** X19.  No level start without a header: on any input, [run] emits at
    most as many level starts as the input has header lines, and every
    signal between the start and the exit of gzdoom comes from a line. *)
Theorem level_starts_need_headers (lines : list string) :
  (count_level_starts (run lines) <= count_headers lines)%nat
  ∧ (length (run lines) <= 2 + length lines)%nat
  ∧ head (run lines) = Some gzdoom_started
  ∧ last (run lines) = Some gzdoom_quit.
Proof.
  unfold run. split_and!.
  - pose proof (decode_level_starts initial lines) as Hle.
    unfold count_level_starts in *. simpl in *.
    rewrite List.filter_app, length_app. simpl. lia.
  - simpl. rewrite length_app. simpl.
    assert (∀ st, length (snd (decode st lines)) <= length lines)%nat as Hlen.
    { induction lines as [| line rest IH]; intros st; simpl; [lia |].
      assert (length (snd (step st line)) <= 1)%nat as Hone.
      { unfold step. repeat (case_match; simpl; try lia). }
      destruct (step st line) as [st1 out1]. specialize (IH st1).
      destruct (decode st1 rest) as [st2 out2]. simpl in *.
      rewrite length_app. lia. }
    specialize (Hlen initial). lia.
  - done.
  - by rewrite last_cons, last_snoc.
Qed.

(** X20.  The box of a secret message is invisible: read while the decoder
    is not after a header and expects none to skip, the three lines header,
    secret message, header emit nothing and leave the decoder as it was, so
    the signals of an input are those of the input without the box. *)
Theorem secret_box_is_invisible (before after : list string) :
  fst (decode initial before) = initial →
  run (before ++ [header_line; secret_line; header_line] ++ after)
  = run (before ++ after).
Proof.
  intros Hst. unfold run. do 2 f_equal.
  rewrite !decode_app, Hst.
  by change (decode initial
               ([header_line; secret_line; header_line] ++ after))
    with (decode initial after).
Qed.

End DecoderFurther.

Section SplitFacts.

Lemma string_app_cons (x : ascii) (a b : string) :
  String x a +:+ b = String x (a +:+ b).
Proof. reflexivity. Qed.

Lemma string_app_assoc (a b c : string) : (a +:+ b) +:+ c = a +:+ (b +:+ c).
Proof.
  induction a as [| x a IH]; [done |]. rewrite !string_app_cons. by f_equal.
Qed.

Lemma string_app_nil_r (a : string) : a +:+ "" = a.
Proof.
  induction a as [| x a IH]; [done |]. rewrite string_app_cons. by f_equal.
Qed.

Lemma string_length_app (a b : string) :
  String.length (a +:+ b) = (String.length a + String.length b)%nat.
Proof.
  induction a as [| x a IH]; [done |]. rewrite string_app_cons.
  cbn [String.length]. by rewrite IH.
Qed.

Lemma string_rev_app (s acc : string) :
  String.rev_app s acc = String.rev s +:+ acc.
Proof.
  unfold String.rev. revert acc.
  induction s as [| x s IH]; intros acc; simpl; [done |].
  rewrite (IH (String x acc)), (IH (String x "")).
  by rewrite string_app_assoc.
Qed.

Lemma string_rev_cons (x : ascii) (s : string) :
  String.rev (String x s) = String.rev s +:+ String x "".
Proof. unfold String.rev at 1. simpl. apply string_rev_app. Qed.

Lemma prefix_app (sep s : string) :
  String.prefix sep s = true → ∃ r, s = sep +:+ r.
Proof.
  revert s. induction sep as [| x sep IH]; intros s.
  - intros _. by exists s.
  - destruct s as [| y s]; cbn [String.prefix]; [done |].
    destruct (ascii_dec x y) as [<- |]; [| done].
    intros [r ->]%IH. by exists r.
Qed.

Lemma split_go_skip (sep x r cur : string) :
  split_go sep (String.length x) cur (x +:+ r) = split_go sep 0 cur r.
Proof. induction x as [| a x IH]; [done |]. by rewrite string_app_cons. Qed.

Lemma split_go_not_nil (sep : string) (skip : nat) (cur s : string) :
  split_go sep skip cur s ≠ [].
Proof.
  revert skip cur. induction s as [| a s IH]; intros skip cur; [done |].
  cbn [split_go]. destruct skip; [| apply IH].
  destruct (String.prefix sep (String a s)); [done | apply IH].
Qed.

Lemma concat_cons (sep x : string) (l : list string) :
  l ≠ [] → String.concat sep (x :: l) = x +:+ sep +:+ String.concat sep l.
Proof. by destruct l. Qed.

Lemma split_go_concat (sep : string) (n : nat) (s cur : string) :
  sep ≠ "" → (String.length s <= n)%nat →
  String.concat sep (split_go sep 0 cur s) = String.rev cur +:+ s.
Proof.
  intros Hsep. revert s cur. induction n as [| n IH]; intros s cur Hn.
  - destruct s; [| simpl in Hn; lia]. simpl. by rewrite string_app_nil_r.
  - destruct s as [| a s]; [simpl; by rewrite string_app_nil_r |].
    cbn [split_go]. destruct (String.prefix sep (String a s)) eqn:Hp.
    + apply prefix_app in Hp as [r Hr].
      destruct sep as [| b sep]; [done |]. simpl in Hr. injection Hr as <- ->.
      cbn [String.length Nat.pred]. rewrite split_go_skip.
      rewrite concat_cons by apply split_go_not_nil.
      rewrite IH.
      * change (String.rev "") with "". simpl. done.
      * simpl in Hn. rewrite string_length_app in Hn. lia.
    + rewrite IH by (simpl in Hn; lia).
      by rewrite string_rev_cons, string_app_assoc.
Qed.

(** [sep.join(s.split(sep))] is [s]. *)
Lemma split_concat (sep s : string) :
  sep ≠ "" → String.concat sep (split sep s) = s.
Proof.
  intros Hsep. unfold split.
  by rewrite (split_go_concat sep (String.length s)).
Qed.

(** X21.  The code and the name of a level start are the two sides of the
    separator: when a line is read as an announcement, the line is
    well-formed UTF-8 and, with the white space around it stripped, it is the
    code, then " - ", then the name.  A line that is not well-formed UTF-8
    is never an announcement. *)
Theorem announcement_is_the_stripped_line (line code name : string) :
  DoomRunner.announcement line = inr (code, name) →
  utf8_valid line = true
  ∧ py_strip line = code +:+ " - " +:+ name.
Proof.
  unfold DoomRunner.announcement.
  destruct (utf8_valid line); [| done].
  destruct (split " - " (py_strip line)) as [| a [| b [| ? ?]]] eqn:Hsplit;
    try done.
  intros [= <- <-]. split; [done |].
  rewrite <- (split_concat " - " (py_strip line)) by done.
  by rewrite Hsplit.
Qed.

End SplitFacts.

Section SelectionFacts.

Lemma elem_of_range (lo hi k : Z) : k ∈ Chapter.range lo hi ↔ lo <= k < hi.
Proof.
  unfold Chapter.range. rewrite list_elem_of_In, in_map_iff. split.
  - intros (i & <- & Hi%in_seq). lia.
  - intros Hk. exists (Z.to_nat (k - lo)). split; [lia |].
    apply in_seq. lia.
Qed.

Lemma column_cells_spec (column : Z) (rows : list Z) :
  match column_cells column rows with
  | Some cells =>
      (∀ c r, (c, r) ∈ cells ↔ c = column ∧ r ∈ rows)
      ∧ (rows ≠ [] → 0 < column < 3)
  | None => rows ≠ [] ∧ ¬ (0 < column < 3)
  end.
Proof.
  unfold column_cells. destruct rows as [| row rows].
  - split; [| done]. intros c r. split; [by intros ?%elem_of_nil |].
    by intros [_ ?%elem_of_nil].
  - destruct (0 <? column) eqn:H0, (column <? 3) eqn:H3; cbn [andb];
      try (split; [done | lia]).
    split; [| lia]. intros c r.
    rewrite list_elem_of_In, in_map_iff. split.
    + intros (r' & [= <- <-] & Hr). by rewrite list_elem_of_In.
    + intros [-> Hr]. exists r. by rewrite <- list_elem_of_In.
Qed.

Lemma columns_cells_spec (columns rows : list Z) :
  match columns_cells columns rows with
  | Some cells =>
      (∀ c r, (c, r) ∈ cells ↔ c ∈ columns ∧ r ∈ rows)
      ∧ (rows ≠ [] → ∀ c, c ∈ columns → 0 < c < 3)
  | None => rows ≠ [] ∧ ∃ c, c ∈ columns ∧ ¬ (0 < c < 3)
  end.
Proof.
  induction columns as [| column columns IH]; cbn [columns_cells].
  - split; [| by intros _ c ?%elem_of_nil]. intros c r.
    split; [by intros ?%elem_of_nil | by intros [?%elem_of_nil _]].
  - pose proof (column_cells_spec column rows) as Hc.
    destruct (column_cells column rows) as [cells |]; cbn [mbind option_bind].
    + destruct (columns_cells columns rows) as [others |]; cbn [mbind option_bind].
      * destruct Hc as [Hc Hc'], IH as [IH IH']. split.
        -- intros c r. rewrite elem_of_app, Hc, IH, elem_of_cons. tauto.
        -- intros Hr c [-> | Hin]%elem_of_cons; auto.
      * destruct IH as [Hr (c & Hin & Hbad)]. split; [done |].
        exists c. split; [by apply list_elem_of_further | done].
    + destruct Hc as [Hr Hbad]. split; [done |].
      exists column. split; [apply list_elem_of_here | done].
Qed.

(** X22.  What [_get_selected_cells] returns.  It returns None exactly
    when some selected range holds a cell in a column other than 1 and 2.
    Otherwise it returns the cells of the selected ranges: a cell is in the
    list exactly when it lies in one of the ranges, and every cell of the
    list is in column 1 or 2.  A range whose last row is above its first,
    or whose last column is left of its first, holds no cell. *)
Theorem selected_cells (ranges : list selected_range) :
  (_get_selected_cells ranges = None ↔
   ∃ r column row, r ∈ ranges ∧ in_selected_range r column row
                   ∧ ¬ (0 < column < 3))
  ∧ (∀ cells, _get_selected_cells ranges = Some cells →
       ∀ column row,
         ((column, row) ∈ cells ↔
          ∃ r, r ∈ ranges ∧ in_selected_range r column row)
         ∧ ((column, row) ∈ cells → column = 1 ∨ column = 2)).
Proof.
  assert (Hspec :
    match _get_selected_cells ranges with
    | Some cells =>
        (∀ column row, (column, row) ∈ cells ↔
           ∃ r, r ∈ ranges ∧ in_selected_range r column row)
        ∧ (∀ r column row, r ∈ ranges → in_selected_range r column row →
             0 < column < 3)
    | None => ∃ r column row, r ∈ ranges ∧ in_selected_range r column row
                              ∧ ¬ (0 < column < 3)
    end).
  { induction ranges as [| r ranges IH]; cbn [_get_selected_cells].
    - split; [intros column row | by intros r column row ?%elem_of_nil].
      split; [by intros ?%elem_of_nil | by intros (r & ?%elem_of_nil & _)].
    - pose proof (columns_cells_spec
        (Chapter.range (leftColumn r) (rightColumn r + 1))
        (Chapter.range (topRow r) (bottomRow r + 1))) as Hr.
      assert (Hin : ∀ column row,
        column ∈ Chapter.range (leftColumn r) (rightColumn r + 1)
        ∧ row ∈ Chapter.range (topRow r) (bottomRow r + 1)
        ↔ in_selected_range r column row).
      { intros column row. rewrite !elem_of_range.
        unfold in_selected_range. lia. }
      destruct (columns_cells _ _) as [cells |]; cbn [mbind option_bind].
      + destruct (_get_selected_cells ranges) as [others |];
          cbn [mbind option_bind].
        * destruct Hr as [Hr Hr'], IH as [IH IH']. split.
          -- intros column row. rewrite elem_of_app, Hr, Hin, IH. split.
             ++ intros [? | (r' & ? & ?)];
                  [exists r; split; [apply list_elem_of_here | done]
                  | exists r'; split; [by apply list_elem_of_further | done]].
             ++ intros (r' & [-> | ?]%elem_of_cons & ?); [by left |].
                right. by exists r'.
          -- intros r' column row [-> | ?]%elem_of_cons Hcell; [| by eauto].
             apply Hin in Hcell as [Hcol Hrow]. apply Hr'; [| done].
             intros Hnil. rewrite Hnil in Hrow. by apply elem_of_nil in Hrow.
        * destruct IH as (r' & column & row & ? & ? & ?).
          exists r', column, row. split; [by apply list_elem_of_further | done].
      + destruct Hr as [Hrows (column & Hcol & Hbad)].
        destruct (Chapter.range (topRow r) (bottomRow r + 1))
          as [| row rows] eqn:Hrange; [done |].
        exists r, column, row. split; [apply list_elem_of_here |].
        split; [| done]. apply Hin. split; [done |].
        rewrite ?Hrange. apply list_elem_of_here. }
  destruct (_get_selected_cells ranges) as [cells |].
  - destruct Hspec as [Hcells Hcols]. split.
    + split; [done |]. intros (r & column & row & Hr & Hcell & Hbad).
      destruct Hbad. by apply (Hcols r column row).
    + intros ? [= <-] column row. split; [apply Hcells |].
      intros (r & Hr & Hcell)%Hcells.
      pose proof (Hcols r column row Hr Hcell). lia.
  - split; [done | intros ? [=]].
Qed.

End SelectionFacts.

Section ChapterOfACode.

Lemma int_digits_raises (s : string) (acc : Z) (prev : bool) (e : exn) :
  int_digits s acc prev = inl e → e = ValueError.
Proof.
  revert acc prev. induction s as [| a s IH]; intros acc prev;
    cbn [int_digits].
  - destruct prev; [done | by intros [= <-]].
  - destruct (is_digit a); [apply IH |].
    destruct (Ascii.eqb a "_" && prev); [| by intros [= <-]].
    destruct s as [| b s']; [by intros [= <-] |].
    destruct (is_digit b); [apply IH | by intros [= <-]].
Qed.

Lemma py_int_raises (s : string) (e : exn) : py_int s = inl e → e = ValueError.
Proof.
  unfold py_int. destruct (py_strip s) as [| a s']; [apply int_digits_raises |].
  destruct a as [[] [] [] [] [] [] [] []]; try apply int_digits_raises.
  destruct (int_digits s' 0 false) as [e' |] eqn:Hd; [| done].
  cbn [mbind result_bind]. intros [= <-]. by apply int_digits_raises in Hd.
Qed.

(** X23.  The chapter of a code.  [get_chapter_number_by_code] raises
    nothing but IndexError (the ValueError of [int] never escapes; a code of
    fewer than two bytes raises it), and [get_chapter_name_by_code] agrees
    with it: it raises when the other does, and when the other returns a
    number it does what [get_chapter_name_by_number] does on that number,
    returning its name or raising IndexError. *)
Theorem chapter_of_a_code (code : string) :
  (∀ e, get_chapter_number_by_code code = inl e →
        e = IndexError ∧ get_chapter_name_by_code code = inl e)
  ∧ (∀ n, get_chapter_number_by_code code = inr n →
          get_chapter_name_by_code code = get_chapter_name_by_number n)
  ∧ ((String.length code < 2)%nat →
     get_chapter_number_by_code code = inl IndexError).
Proof.
  unfold get_chapter_number_by_code, get_chapter_name_by_code,
    get_chapter_name_by_number.
  split_and!.
  - intros e. destruct (str_at code 1) as [e' | c] eqn:Hc;
      cbn [mbind result_bind].
    + intros [= <-]. split; [| done]. unfold str_at in Hc.
      destruct (str_from 1 code); [| done]. by injection Hc as <-.
    + destruct (py_int c) as [e' | n] eqn:Hn; [| done].
      apply py_int_raises in Hn as ->. done.
  - intros n. destruct (str_at code 1) as [e' | c]; cbn [mbind result_bind];
      [done |].
    destruct (py_int c) as [e' | n'] eqn:Hn; [| by intros [= <-]].
    apply py_int_raises in Hn as ->. by intros [= <-].
  - intros Hshort. unfold str_at.
    destruct code as [| a [| b rest]]; simpl in *; [done | done | lia].
Qed.

End ChapterOfACode.

Section BlankChapter.
Context `{!PyFloat}.

(** X24.  A chapter built with no levels.  For each of the chapter numbers
    1 to 5, [Chapter.__init__] returns a chapter of that number with the
    personal best it was given and 9 levels (32 for chapter 5), where the
    level at position [i] has level number [i + 1], belongs to the chapter,
    holds no time, and is the level that [_get_level] finds under its code.
    Above 5 and below -4 the constructor raises IndexError. *)
Theorem chapter_without_levels (n : Z) (pb : option timedelta) :
  (1 <= n <= 5 →
   ∃ c, Chapter.__init__ n [] pb = inr c
        ∧ Chapter.chapter_number c = n
        ∧ LevelChapter.personal_best (Chapter.base c) = pb
        ∧ length (Chapter.levels c) = (if n <? 5 then 9%nat else 32%nat)
        ∧ ∀ i l, Chapter.levels c !! i = Some l →
            Level.level_number l = Z.of_nat i + 1
            ∧ Level.chapter_number l = n
            ∧ LevelChapter.personal_best (Level.base l) = None
            ∧ Chapter._get_level c (Level.code l) = inr (i, l))
  ∧ (n < -4 ∨ 5 < n → Chapter.__init__ n [] pb = inl IndexError).
Proof.
  split.
  - intros Hn.
    assert (n = 1 ∨ n = 2 ∨ n = 3 ∨ n = 4 ∨ n = 5)
      as [-> | [-> | [-> | [-> | ->]]]] by lia; clear Hn;
      (eexists; split; [vm_compute; reflexivity |];
       split_and!; [reflexivity | reflexivity | reflexivity |];
       intros i l Hl;
       do 32 (try (destruct i as [| i];
                   [injection Hl as <-; vm_compute; by split_and! |]));
       done).
  - intros Hn. unfold Chapter.__init__, get_chapter_name_by_number.
    by rewrite py_index_out_of_range by (simpl; lia).
Qed.

End BlankChapter.

(** * The further properties at work on the example states *)

Lemma revert_twice_witness :
  @LevelChapter.revert_session_time exact_float
    (@LevelChapter.revert_session_time exact_float reverted_times)
  = reverted_times
  ∧ @LevelChapter.revert_personal_best exact_float
      (@LevelChapter.revert_personal_best exact_float reverted_times)
    = reverted_times.
Proof.
  destruct (@revert_twice exact_float reverted_times) as (_ & _ & Hs & Hp).
  split; [apply Hs; reflexivity | apply Hp; reflexivity].
Defined.

Lemma level_timer_protocol_witness :
  (@Level.stop_timer exact_float blank_level 0 = inl RuntimeError
   ∧ Level.abort_timer blank_level = inl RuntimeError)
  ∧ (@Level.stop_timer exact_float finished_level 0 = inl RuntimeError
     ∧ Level.abort_timer finished_level = inl RuntimeError)
  ∧ Level.base blank_level = Level.base started_level.
Proof.
  split; [| split].
  - apply (proj1 (proj2 (proj2
      (@level_timer_protocol exact_float blank_level 0)))). reflexivity.
  - apply (proj1 (proj2 (proj2 (proj2
      (@level_timer_protocol exact_float started_level 12500000))))
      true finished_level 0). reflexivity.
  - apply (proj1 (proj2 (proj2 (proj2 (proj2
      (@level_timer_protocol exact_float started_level 0)))))
      blank_level 0). reflexivity.
Defined.

Lemma level_stop_timer_leaves_witness :
  Level._race_start started_level = Some 0
  ∧ ∃ is_pb l',
      @Level.stop_timer exact_float started_level 12500000 = inr (is_pb, l')
      ∧ same_identity started_level l'.
Proof.
  split; [reflexivity |].
  destruct (@level_stop_timer_leaves exact_float started_level 0 12500000
              eq_refl) as (is_pb & l' & Hstop & Hid & _).
  by exists is_pb, l'.
Defined.

Lemma level_init_result_witness :
  @Level.__init__ exact_float "E1M1" None = inr blank_level
  ∧ Level.code blank_level = "E1M1"
  ∧ Level.chapter_number first_map = 5
  ∧ @Level.__init__ exact_float "E" None = inl IndexError.
Proof.
  split_and!.
  - reflexivity.
  - apply (proj1 (@level_init_result exact_float "E1M1" None) blank_level).
    reflexivity.
  - apply (proj1 (@level_init_result exact_float "MAP01" None) first_map);
      reflexivity.
  - apply (proj2 (@level_init_result exact_float "E" None)). simpl. lia.
Defined.

Lemma level_saved_and_read_back_witness :
  @Level.__init__ exact_float "E1M1" None = inr blank_level
  ∧ LevelChapter.personal_best (Level.base finished_level) = Some 12500000
  ∧ ∃ saved,
      Level.serialize (Level.with_base blank_level (Level.base finished_level))
      = inr saved
      ∧ Level.s_code saved = "E1M1"
      ∧ RecordHolder.level_personal_best saved = 12500000 mod one_day.
Proof.
  split_and!; [reflexivity | reflexivity |].
  destruct (@level_saved_and_read_back exact_float "E1M1" None blank_level
              (Level.base finished_level) 12500000 eq_refl eq_refl)
    as (saved & Hsaved & Hcode & Hpb & _).
  by exists saved.
Defined.

Lemma chapter_serialize_result_witness :
  Chapter.serialize blank_chapter = inl SerializedEmpty
  ∧ Chapter.serialize played_chapter = inr saved_chapter
  ∧ Chapter.s_chapter_number saved_chapter
    = Chapter.chapter_number played_chapter
  ∧ map Level.s_code (Chapter.s_levels saved_chapter) = ["E1M1"].
Proof.
  split_and!.
  - apply (proj1 (chapter_serialize_result blank_chapter)).
    split; [reflexivity |]. unfold blank_chapter. cbn [Chapter.levels].
    repeat (apply Forall_cons; split; [reflexivity |]). apply Forall_nil.
    exact I.
  - reflexivity.
  - apply (proj2 (proj2 (chapter_serialize_result played_chapter))
             saved_chapter). reflexivity.
  - apply (proj2 (proj2 (chapter_serialize_result played_chapter))
             saved_chapter). reflexivity.
Defined.

Lemma start_timer_wrong_chapter_witness :
  Chapter.start_timer blank_chapter 0 "E2M1" = (inl WrongChapter, blank_chapter)
  ∧ get_chapter_number_by_code "E1M1"
    = inr (Chapter.chapter_number blank_chapter).
Proof.
  split.
  - apply (proj1 (proj2 (start_timer_wrong_chapter blank_chapter 0 "E2M1")) 2).
    + reflexivity.
    + simpl. lia.
  - apply (proj2 (proj2 (start_timer_wrong_chapter blank_chapter 0 "E1M1"))
             0%nat chapter_in_play). reflexivity.
Defined.

Lemma chapter_timer_is_consistent_witness :
  Chapter._current_level blank_chapter = None
  ∧ timer_consistent (@gui_run exact_float blank_chapter table_session)
  ∧ fst (Chapter.abort_timer (@gui_run exact_float blank_chapter table_session))
    = inr ().
Proof.
  split; [reflexivity |].
  destruct (@chapter_timer_is_consistent exact_float blank_chapter
              table_session eq_refl) as (Hc & Ha & _).
  by split.
Defined.

Lemma abort_timer_discards_no_time_witness :
  Chapter.abort_timer chapter_in_play
  = (inr (), snd (Chapter.abort_timer chapter_in_play))
  ∧ Chapter.base (snd (Chapter.abort_timer chapter_in_play))
    = Chapter.base chapter_in_play
  ∧ Chapter._current_level (snd (Chapter.abort_timer chapter_in_play)) = None.
Proof.
  split; [reflexivity |].
  destruct (proj1 (abort_timer_discards_no_time chapter_in_play)
              (snd (Chapter.abort_timer chapter_in_play)) eq_refl)
    as (Hb & _ & Hc & _).
  by split.
Defined.

Lemma record_holder_is_complete_witness :
  @RecordHolder.__init__ exact_float (FileDude.runs one_record_file)
  = inr loaded_db
  ∧ complete_db loaded_db
  ∧ ∃ c, RecordHolder.get_chapter loaded_db "Any%" "I'm Too Young To Die"
                                  "Inferno" = inr c
         ∧ Chapter.chapter_number c = 3.
Proof.
  assert (Hinit : @RecordHolder.__init__ exact_float
                    (FileDude.runs one_record_file) = inr loaded_db)
    by (vm_compute; reflexivity).
  destruct (@record_holder_is_complete exact_float
              (FileDude.runs one_record_file) loaded_db Hinit) as [Hdb Hget].
  split_and!; [exact Hinit | exact Hdb |].
  destruct (Hget "Any%" "I'm Too Young To Die" "Inferno" 3)
    as (c & Hc & Hn & _).
  - apply list_elem_of_here.
  - apply list_elem_of_here.
  - reflexivity.
  - exists c. split; [exact Hc | exact Hn].
Defined.

Lemma chapter_names_and_numbers_witness :
  (1 <= 3 <= 5 ∧ get_chapter_name_by_number 3 = inr "Inferno")
  ∧ get_chapter_name_by_number 6 = inl IndexError
  ∧ ∃ name, get_chapter_name_by_number 0 = inr name
            ∧ RecordHolder.get_chapter_number_by_name name = inr (0 + 5).
Proof.
  split; [| split].
  - apply (proj1 chapter_names_and_numbers "Inferno" 3). reflexivity.
  - apply (proj1 (proj2 (proj2 chapter_names_and_numbers)) 6). lia.
  - apply (proj2 (proj2 (proj2 chapter_names_and_numbers)) 0). lia.
Defined.

Lemma get_chapter_unknown_key_witness :
  RecordHolder.get_chapter fresh_db "Any%" "Hurt Me Plenty" "Doom 3"
  = inl KeyError
  ∧ RecordHolder.get_chapter fresh_db "Speed" "Hurt Me Plenty" "Inferno"
    = inl KeyError.
Proof.
  split.
  - apply (proj2 (proj2 (get_chapter_unknown_key fresh_db "Any%"
                           "Hurt Me Plenty" "Doom 3"))).
    apply (bool_decide_unpack _). vm_compute. exact I.
  - apply (proj1 (get_chapter_unknown_key fresh_db "Speed"
                    "Hurt Me Plenty" "Inferno")).
    apply (bool_decide_unpack _). vm_compute. exact I.
Defined.



Lemma save_writes_no_empty_entry_witness :
  match FileDude.save first_run played_db "Any%" with
  | inr (Some f) => no_empty_entry (FileDude.runs f)
  | _ => False
  end.
Proof.
  pose proof (save_writes_no_empty_entry first_run played_db "Any%") as Hf.
  destruct (FileDude.save first_run played_db "Any%") as [e | [f |]] eqn:Heq.
  - vm_compute in Heq. discriminate Heq.
  - exact (Hf f eq_refl).
  - vm_compute in Heq. discriminate Heq.
Defined.

Lemma finish_and_death_lines_witness :
  (DoomRunner.step DoomRunner.initial DoomRunner.unloading_line
   = (DoomRunner.initial, [DoomRunner.level_finished])
   ∧ DoomRunner.step DoomRunner.initial DoomRunner.death_line
     = (DoomRunner.initial, [DoomRunner.player_died]))
  ∧ DoomRunner.step {| DoomRunner.header_found := true;
                       DoomRunner.skip_next_header := false |}
                    DoomRunner.unloading_line
    = ({| DoomRunner.header_found := true;
          DoomRunner.skip_next_header := false |}, []).
Proof.
  split.
  - apply (proj1 (finish_and_death_lines DoomRunner.initial)). reflexivity.
  - apply (proj2 (finish_and_death_lines
                    {| DoomRunner.header_found := true;
                       DoomRunner.skip_next_header := false |})).
    reflexivity.
Defined.

Lemma secret_box_is_invisible_witness :
  fst (DoomRunner.decode DoomRunner.initial [DoomRunner.unloading_line])
  = DoomRunner.initial
  ∧ DoomRunner.run
      ([DoomRunner.unloading_line]
       ++ [DoomRunner.header_line; DoomRunner.secret_line;
           DoomRunner.header_line]
       ++ [DoomRunner.death_line])
    = DoomRunner.run ([DoomRunner.unloading_line] ++ [DoomRunner.death_line]).
Proof.
  split; [reflexivity |].
  apply (secret_box_is_invisible [DoomRunner.unloading_line]
           [DoomRunner.death_line]).
  reflexivity.
Defined.

Lemma announcement_is_the_stripped_line_witness :
  DoomRunner.announcement ("E1M9 - Military Base" +:+ DoomRunner.newline)
  = inr ("E1M9", "Military Base")
  ∧ py_strip ("E1M9 - Military Base" +:+ DoomRunner.newline)
    = "E1M9" +:+ " - " +:+ "Military Base".
Proof.
  split; [reflexivity |].
  apply (announcement_is_the_stripped_line
           ("E1M9 - Military Base" +:+ DoomRunner.newline)
           "E1M9" "Military Base").
  reflexivity.
Defined.

Lemma selected_cells_witness :
  _get_selected_cells time_columns = Some [(1, 0); (1, 1); (2, 0); (2, 1)]
  ∧ (∃ r, r ∈ time_columns ∧ in_selected_range r 2 1)
  ∧ (2 = 1 ∨ 2 = 2).
Proof.
  split; [reflexivity |].
  destruct (proj2 (selected_cells time_columns)
              [(1, 0); (1, 1); (2, 0); (2, 1)] eq_refl 2 1) as [Hin Hcol].
  assert (Hcell : (2, 1) ∈ [(1, 0); (1, 1); (2, 0); (2, 1)]).
  { apply (bool_decide_unpack _). vm_compute. exact I. }
  split; [by apply Hin | by apply Hcol].
Defined.

Lemma chapter_of_a_code_witness :
  get_chapter_number_by_code "E" = inl IndexError
  ∧ get_chapter_name_by_code "E" = inl IndexError
  ∧ get_chapter_name_by_code "MAP01" = get_chapter_name_by_number 5.
Proof.
  split_and!.
  - apply (proj2 (proj2 (chapter_of_a_code "E"))). simpl. lia.
  - apply (proj1 (chapter_of_a_code "E") IndexError). reflexivity.
  - apply (proj1 (proj2 (chapter_of_a_code "MAP01")) 5). reflexivity.
Defined.

Lemma chapter_without_levels_witness :
  (∃ c, @Chapter.__init__ exact_float 1 [] None = inr c
        ∧ Chapter.chapter_number c = 1
        ∧ length (Chapter.levels c) = 9%nat)
  ∧ @Chapter.__init__ exact_float 6 [] None = inl IndexError.
Proof.
  split.
  - destruct (proj1 (@chapter_without_levels exact_float 1 None))
      as (c & Hc & Hn & _ & Hlen & _); [lia |].
    by exists c.
  - apply (proj2 (@chapter_without_levels exact_float 6 None)). lia.
Defined.
